(** * BusB: seat booking front end and booking lifecycle

    A shallow embedding of the booking code of the BusB repository
    (React/TypeScript front end) together with a model of the booking
    engine the front end talks to.

    Conventions used throughout:
    - a JavaScript [Date] is its [getTime()] value, an integer number of
      milliseconds since the epoch ([Z]); an invalid date is [None] where
      the code can produce one;
    - a JavaScript [number] that the code uses as a count, a price or a
      seat number is an integer ([Z] or [nat]); quotients that the code
      computes in floating point ([hoursDiff], [daysDiff]) are exact
      rationals ([Q]).  Division by a constant is monotone and the values
      compared against (24 and 7) are separated from their neighbours by
      far more than one unit in the last place, so the comparison results
      agree with the ones of IEEE doubles;
    - React state is threaded explicitly: a handler is a function from the
      state it closes over to the state it sets. *)

From stdpp Require Import base numbers option list strings pretty gmap sets.
From Stdlib Require Import ZArith QArith Qround Lia Ascii.

Local Open Scope Z_scope.

(* ===================================================================== *)
(** ** src/types/booking.ts *)
(* ===================================================================== *)

Module Types.

Inductive BookingStatus := PENDING | CONFIRMED | COMPLETED | CANCELLED.

Inductive PaymentMethod := mobile_money | credit_card | pay_later.

Inductive PaymentStatus := PAID | UNPAID.

Record RouteInfo := { origin : string; destination : string }.

Record BusInfo := {
  bus_id : string;
  bus_name : string;
  licensePlate : string;
  operatorName : string
}.

(** [interface Booking]; optional fields are options, dates are
    millisecond timestamps. *)
Record Booking := {
  id : string;
  bookingNumber : string;
  userId : option string;
  passengerName : string;
  contactEmail : option string;
  contactPhone : option string;
  scheduleId : string;
  route : RouteInfo;
  bus : BusInfo;
  departureDate : Z;
  departureTime : Z;
  arrivalTime : Z;
  seatNumbers : list nat;
  totalAmount : Z;
  status : BookingStatus;
  paymentMethod : PaymentMethod;
  paymentStatus : PaymentStatus;
  createdAt : Z
}.

#[global] Instance BookingStatus_eq_dec : EqDecision BookingStatus.
Proof. solve_decision. Defined.

#[global] Instance PaymentMethod_eq_dec : EqDecision PaymentMethod.
Proof. solve_decision. Defined.

#[global] Instance PaymentStatus_eq_dec : EqDecision PaymentStatus.
Proof. solve_decision. Defined.

(** The object spread [{ ...booking, status: s }]. *)
Definition with_status (booking : Booking) (s : BookingStatus) : Booking :=
  {| id := id booking;
     bookingNumber := bookingNumber booking;
     userId := userId booking;
     passengerName := passengerName booking;
     contactEmail := contactEmail booking;
     contactPhone := contactPhone booking;
     scheduleId := scheduleId booking;
     route := route booking;
     bus := bus booking;
     departureDate := departureDate booking;
     departureTime := departureTime booking;
     arrivalTime := arrivalTime booking;
     seatNumbers := seatNumbers booking;
     totalAmount := totalAmount booking;
     status := s;
     paymentMethod := paymentMethod booking;
     paymentStatus := paymentStatus booking;
     createdAt := createdAt booking |}.

End Types.

(* ===================================================================== *)
(** ** src/components/sections/UserTickets.tsx *)
(* ===================================================================== *)

Module UserTickets.
Import Types.

(** [a > b] on JavaScript numbers, here on exact rationals. *)
Definition Qgtb (a b : Q) : bool := negb (Qle_bool a b).

(** [(departureTime.getTime() - now.getTime()) / (1000 * 60 * 60)] *)
Definition hoursDiff (now : Z) (booking : Booking) : Q :=
  (inject_Z (departureTime booking - now) / inject_Z (1000 * 60 * 60))%Q.

(** [isCancellable]: more than 24 hours before departure, and neither
    cancelled nor completed.  [now] is the value of [new Date()]. *)
Definition isCancellable (now : Z) (booking : Booking) : bool :=
  bool_decide (status booking ≠ CANCELLED) &&
  bool_decide (status booking ≠ COMPLETED) &&
  Qgtb (hoursDiff now booking) (inject_Z 24).

(** [(now.getTime() - arrivalTime.getTime()) / (1000 * 60 * 60 * 24)] *)
Definition daysDiff (now : Z) (booking : Booking) : Q :=
  (inject_Z (now - arrivalTime booking) / inject_Z (1000 * 60 * 60 * 24))%Q.

(** [isReviewable]: completed, and at most 7 days after arrival. *)
Definition isReviewable (now : Z) (booking : Booking) : bool :=
  bool_decide (status booking = COMPLETED) &&
  Qle_bool (daysDiff now booking) (inject_Z 7).

End UserTickets.

(* ===================================================================== *)
(** ** src/hooks/useBooking.ts *)
(* ===================================================================== *)

Module UseBooking.
Import Types.

(** The state updater passed to [setBookings] by [cancelBooking]:
    [prevBookings.map(b => b.id === bookingId
                            ? { ...b, status: CANCELLED } : b)]. *)
Definition markCancelled (bookingId : string) (booking : Booking) : Booking :=
  if bool_decide (id booking = bookingId)
  then with_status booking CANCELLED
  else booking.

Definition cancelUpdater (bookingId : string) (prevBookings : list Booking)
  : list Booking :=
  map (markCancelled bookingId) prevBookings.

(** Outcome of the awaited [api.post]: it resolves or it throws. *)
Inductive ApiOutcome := Resolved | Threw.

Record HookState := {
  bookings : list Booking;
  isLoading : bool;
  error : option string
}.

(** [cancelBooking(bookingId)]: the state after the call and the
    boolean it returns. *)
Definition cancelBooking (post : ApiOutcome) (bookingId : string)
    (st : HookState) : HookState * bool :=
  match post with
  | Resolved =>
      ({| bookings := cancelUpdater bookingId (bookings st);
          isLoading := false;
          error := None |}, true)
  | Threw =>
      ({| bookings := bookings st;
          isLoading := false;
          error := Some "Failed to cancel booking"%string |}, false)
  end.

End UseBooking.

(* ===================================================================== *)
(** ** src/components/forms/BookingForm.tsx *)
(* ===================================================================== *)

Module BookingForm.
Import Types.

(** [z.enum(['mobile_money', 'card', 'pay_later'])] of [bookingSchema]. *)
Inductive FormPaymentMethod := form_mobile_money | form_card | form_pay_later.

#[global] Instance FormPaymentMethod_eq_dec : EqDecision FormPaymentMethod.
Proof. solve_decision. Defined.

Record BookingFormData := {
  name : string;
  email : string;
  phone : string;
  agreeToTerms : bool;
  formPaymentMethod : FormPaymentMethod
}.

Record BookingFormProps := {
  p_scheduleId : string;
  p_origin : string;
  p_destination : string;
  p_departureTime : Z;
  p_arrivalTime : Z;
  price : Z;
  p_operatorName : string;
  busName : string;
  availableSeats : Z;
  passengers : Z
}.

Inductive ToastType := success | toast_error | info | warning.

Record FormState := {
  isSubmitting : bool;
  selectedSeats : list nat;
  toasts : list (string * ToastType)
}.

Definition initialState : FormState :=
  {| isSubmitting := false; selectedSeats := []; toasts := [] |}.

Definition showToast (msg : string) (ty : ToastType) (st : FormState) : FormState :=
  {| isSubmitting := isSubmitting st;
     selectedSeats := selectedSeats st;
     toasts := toasts st ++ [(msg, ty)] |}.

Definition setSelectedSeats (l : list nat) (st : FormState) : FormState :=
  {| isSubmitting := isSubmitting st; selectedSeats := l; toasts := toasts st |}.

Definition setIsSubmitting (b : bool) (st : FormState) : FormState :=
  {| isSubmitting := b; selectedSeats := selectedSeats st; toasts := toasts st |}.

(** [const totalPrice = price * passengers;] *)
Definition totalPrice (props : BookingFormProps) : Z :=
  price props * passengers props.

Definition totalBusSeats : Z := 40.

(** [Math.floor(Math.random() * totalBusSeats) + 1] for one value [r] of
    [Math.random()]. *)
Definition randomSeat (r : Q) : Z :=
  Qfloor (r * inject_Z totalBusSeats) + 1.

(** [unavailableSeats]: [totalBusSeats - availableSeats] independent random
    seat numbers, drawn afresh on every render; [draws i] is the value
    [Math.random()] returns for the i-th element.  [Array.from] treats a
    negative length as 0. *)
Definition unavailableSeats (props : BookingFormProps) (draws : nat → Q)
  : list Z :=
  map (λ i, randomSeat (draws i))
      (seq 0 (Z.to_nat (totalBusSeats - availableSeats props))).

(** [selectedSeats.length < passengers] *)
Definition fewerThanPassengers (props : BookingFormProps) (l : list nat) : bool :=
  bool_decide (Z.of_nat (length l) < passengers props).

(** [toggleSeatSelection(seatNumber)] *)
Definition toggleSeatSelection (props : BookingFormProps) (seatNumber : nat)
    (st : FormState) : FormState :=
  if bool_decide (seatNumber ∈ selectedSeats st) then
    setSelectedSeats
      (filter (λ seat, seat ≠ seatNumber) (selectedSeats st)) st
  else if fewerThanPassengers props (selectedSeats st) then
    setSelectedSeats (selectedSeats st ++ [seatNumber]) st
  else
    showToast ("You can only select " +:+ pretty (passengers props) +:+ " seats")
              warning st.

(** What the environment contributes to one run of [onSubmit]. *)
Inductive ApiResponse :=
| ApiResolved (data : option Booking)   (* [response.data], falsy = None *)
| ApiThrew.

Record Clock := {
  dateNow : Z;       (* [Date.now()] in the [id] template *)
  mathRandom : Q;    (* [Math.random()] in the [bookingNumber] template *)
  newDate : Z        (* [new Date()] of [createdAt] *)
}.

(** [Math.floor(100000 + Math.random() * 900000)] *)
Definition bookingNumberDigits (r : Q) : Z :=
  Qfloor (inject_Z 100000 + r * inject_Z 900000).

(** The conditional that maps the form's payment method to the
    booking's. *)
Definition toPaymentMethod (m : FormPaymentMethod) : PaymentMethod :=
  if bool_decide (m = form_mobile_money) then mobile_money
  else if bool_decide (m = form_card) then credit_card
  else pay_later.

Definition toPaymentStatus (m : FormPaymentMethod) : PaymentStatus :=
  if bool_decide (m = form_pay_later) then UNPAID else PAID.

(** [const mockBooking: Booking = { ... }] *)
Definition mockBooking (props : BookingFormProps) (user_id : option string)
    (data : BookingFormData) (seats : list nat) (clk : Clock) : Booking :=
  {| id := "booking-" +:+ pretty (dateNow clk);
     bookingNumber := "BK" +:+ pretty (bookingNumberDigits (mathRandom clk));
     userId := user_id;
     passengerName := name data;
     contactEmail := Some (email data);
     contactPhone := Some (phone data);
     scheduleId := p_scheduleId props;
     route := {| origin := p_origin props; destination := p_destination props |};
     bus := {| bus_id := "bus-123";
               bus_name := busName props;
               licensePlate := "RAB123";
               operatorName := p_operatorName props |};
     departureDate := p_departureTime props;
     departureTime := p_departureTime props;
     arrivalTime := p_arrivalTime props;
     seatNumbers := seats;
     totalAmount := totalPrice props;
     status := CONFIRMED;
     paymentMethod := toPaymentMethod (formPaymentMethod data);
     paymentStatus := toPaymentStatus (formPaymentMethod data);
     createdAt := newDate clk |}.

(** [onSubmit(data)]: the state after the handler has run (including its
    [finally]) and the booking handed to [onBookingComplete], if any. *)
Definition onSubmit (props : BookingFormProps) (user_id : option string)
    (response : ApiResponse) (clk : Clock) (data : BookingFormData)
    (st : FormState) : FormState * option Booking :=
  let st := setIsSubmitting true st in
  if fewerThanPassengers props (selectedSeats st) then
    (setIsSubmitting false
       (showToast ("Please select " +:+ pretty (passengers props) +:+ " seats")
                  toast_error st),
     None)
  else
    match response with
    | ApiThrew =>
        (setIsSubmitting false
           (showToast "Booking failed. Please try again." toast_error st),
         None)
    | ApiResolved response_data =>
        let mock := mockBooking props user_id data (selectedSeats st) clk in
        (setIsSubmitting false (showToast "Booking successful!" success st),
         Some (default mock response_data))
    end.

(** The form states a user can bring about, starting from the initial
    state: clicks on seat buttons, and submissions (which leave the form
    in place unless a booking is handed on). *)
Inductive reachable (props : BookingFormProps) : FormState → Prop :=
| reachable_init : reachable props initialState
| reachable_toggle st seatNumber :
    reachable props st →
    reachable props (toggleSeatSelection props seatNumber st)
| reachable_submit st user_id response clk data :
    reachable props st →
    reachable props (onSubmit props user_id response clk data st).1.

End BookingForm.

(* ===================================================================== *)
(** ** src/pages/UserDashboardPage.tsx *)
(* ===================================================================== *)

Module UserDashboardPage.
Import Types.

(** The page's [bookings] state and the toasts shown so far. *)
Record PageState := {
  bookings : list Booking;
  toasts : list (string * BookingForm.ToastType)
}.

(** [handleCancelBooking(bookingId)]: the state it leaves, and whether the
    promise it returns resolves ([true]) or rejects. *)
Definition handleCancelBooking (post : UseBooking.ApiOutcome)
    (bookingId : string) (st : PageState) : PageState * bool :=
  match post with
  | UseBooking.Resolved =>
      ({| bookings :=
            map (λ booking,
                   if bool_decide (id booking = bookingId)
                   then with_status booking CANCELLED
                   else booking)
                (bookings st);
          toasts := toasts st |}, true)
  | UseBooking.Threw =>
      ({| bookings := bookings st;
          toasts := toasts st
                    ++ [("Failed to cancel booking"%string,
                         BookingForm.toast_error)] |}, false)
  end.

End UserDashboardPage.

(* ===================================================================== *)
(** ** The "Cancel Booking" button of a ticket
       (UserTickets.tsx, rendered by the dashboard page) *)
(* ===================================================================== *)

Module CancelButton.
Import Types.

(** What a passenger's attempt to cancel a ticket comes to: the button
    is not rendered, or it is and the request resolves or throws. *)
Inductive CancelOutcome :=
| NotOffered
| Requested (succeeded : bool).

(** [handleCancelBooking(bookingId)] of [UserTickets], with the page's
    handler as [onCancelBooking]. *)
Definition handleCancelBooking (post : UseBooking.ApiOutcome)
    (bookingId : string) (st : UserDashboardPage.PageState)
  : UserDashboardPage.PageState * bool :=
  let r := UserDashboardPage.handleCancelBooking post bookingId st in
  ({| UserDashboardPage.bookings := UserDashboardPage.bookings (fst r);
      UserDashboardPage.toasts :=
        UserDashboardPage.toasts (fst r)
        ++ [if snd r
            then ("Booking cancelled successfully"%string, BookingForm.success)
            else ("Failed to cancel booking"%string, BookingForm.toast_error)] |},
   snd r).

(** [{isCancellable(booking) && onCancelBooking && <button onClick={() =>
    handleCancelBooking(booking.id)}>}]: the cancellation request
    ([POST /bookings/:id/cancel]) is sent, and the list updated, only
    through this button. *)
Definition pressCancel (now : Z) (post : UseBooking.ApiOutcome)
    (booking : Booking) (st : UserDashboardPage.PageState)
  : UserDashboardPage.PageState * CancelOutcome :=
  if UserTickets.isCancellable now booking then
    (fst (handleCancelBooking post (id booking) st),
     Requested (snd (handleCancelBooking post (id booking) st)))
  else (st, NotOffered).

End CancelButton.


(* ===================================================================== *)
(** ** src/components/forms/PaymentForm.tsx *)
(* ===================================================================== *)

Module PaymentForm.

Inductive UiStatus := idle | processing | success | error.

Record PaymentState := {
  paymentStatus : UiStatus;
  errorMessage : option string
}.

(** The object passed to [onPaymentComplete]; the spread form fields
    (provider, phone number, card details) carry no key of these four. *)
Record PaymentData := {
  method : Types.PaymentMethod;
  amount : Z;
  status : Types.PaymentStatus;
  timestamp : Z
}.

(** How the [try] block ends: the simulated payment itself (a timer)
    cannot fail, so the block throws only if the callback does. *)
Inductive TryOutcome := Completed | CallbackThrew.

(** [onSubmit(data)]: the state it leaves and the payment it reported. *)
Definition onSubmit (paymentMethod : Types.PaymentMethod) (amount : Z)
    (now : Z) (outcome : TryOutcome) (st : PaymentState)
  : PaymentState * PaymentData :=
  let payment := {| method := paymentMethod; amount := amount;
                    status := Types.PAID; timestamp := now |} in
  match outcome with
  | Completed =>
      ({| paymentStatus := success; errorMessage := None |}, payment)
  | CallbackThrew =>
      ({| paymentStatus := error;
          errorMessage := Some "Payment processing failed. Please try again." |},
       payment)
  end.

End PaymentForm.

(* ===================================================================== *)
(** ** src/components/dashboard/ScheduleManagement.tsx *)
(* ===================================================================== *)

Module ScheduleManagement.

Record ScheduleFormData := {
  routeId : string;
  busId : string;
  departureTime : string;
  arrivalTime : string;
  price : Z
}.

Record ZodIssue := { path : list string; message : string }.

(** [z.string().min(1, msg)] on the field [field]. *)
Definition minLength1 (field msg value : string) : list ZodIssue :=
  if bool_decide (1 ≤ String.length value)%nat then []
  else [ {| path := [field]; message := msg |} ].

(** [z.number().min(500, msg)]: inclusive lower bound. *)
Definition min500 (field msg : string) (value : Z) : list ZodIssue :=
  if bool_decide (500 ≤ value) then []
  else [ {| path := [field]; message := msg |} ].

(** [a > b] on two [Date] objects: both are converted to numbers, and a
    comparison with [NaN] (an invalid date) is false. *)
Definition dateGt (a b : option Z) : bool :=
  match a, b with
  | Some x, Some y => bool_decide (y < x)
  | _, _ => false
  end.

Inductive SelectedSchedule := NoSelection | Selected (schedule_id : string).

Inductive Request :=
| Put (schedule_id : string) (routeId busId : string)
      (departureTime arrivalTime : Z) (price : Z)
| Post (routeId busId : string) (departureTime arrivalTime : Z) (price : Z).

Definition requestDeparture (r : Request) : Z :=
  match r with Put _ _ _ d _ _ | Post _ _ d _ _ => d end.

Definition requestArrival (r : Request) : Z :=
  match r with Put _ _ _ _ a _ | Post _ _ _ a _ => a end.

Section WithDate.

(** [new Date(s).getTime()], [None] for an invalid date.  The parser is
    the JavaScript engine's; the development is parametric in it. *)
Variable parseDate : string → option Z.

(** The predicate given to [.refine]. *)
Definition arrivalAfterDeparture (data : ScheduleFormData) : bool :=
  let departure := parseDate (departureTime data) in
  let arrival := parseDate (arrivalTime data) in
  dateGt arrival departure.

(** [scheduleFormSchema.safeParse(data)]: the issues, field checks first
    and then the refinement (zod runs a refinement when the object's own
    checks failed without aborting). The data is accepted iff there is no
    issue. *)
Definition scheduleFormSchema (data : ScheduleFormData) : list ZodIssue :=
  minLength1 "routeId" "Route is required" (routeId data) ++
  minLength1 "busId" "Bus is required" (busId data) ++
  minLength1 "departureTime" "Departure time is required" (departureTime data) ++
  minLength1 "arrivalTime" "Arrival time is required" (arrivalTime data) ++
  min500 "price" "Price must be at least 500 RWF" (price data) ++
  (if arrivalAfterDeparture data then []
   else [ {| path := ["arrivalTime"];
             message := "Arrival time must be after departure time" |} ]).

Definition accepts (data : ScheduleFormData) : bool :=
  bool_decide (scheduleFormSchema data = []).

(** [onSubmit(data)]: the request sent to the API.  The timestamps stand
    for the ISO strings [toISOString()] renders them to; [toISOString]
    throws on an invalid date, and then nothing is sent. *)
Definition onSubmit (selectedSchedule : SelectedSchedule)
    (data : ScheduleFormData) : option Request :=
  match parseDate (departureTime data), parseDate (arrivalTime data) with
  | Some dep, Some arr =>
      Some match selectedSchedule with
           | Selected sid => Put sid (routeId data) (busId data) dep arr (price data)
           | NoSelection => Post (routeId data) (busId data) dep arr (price data)
           end
  | _, _ => None
  end.

(** [handleSubmit(onSubmit)] with [zodResolver(scheduleFormSchema)]: the
    handler runs only on data the schema accepts.  Creating and updating
    a schedule both go through it. *)
Definition handleSubmit (selectedSchedule : SelectedSchedule)
    (data : ScheduleFormData) : option Request :=
  if accepts data then onSubmit selectedSchedule data else None.

End WithDate.

End ScheduleManagement.


(* ===================================================================== *)
(** ** src/components/sections/UserTickets.tsx: the tabs of the list *)
(* ===================================================================== *)

Module TicketTabs.
Import Types.

(** [useState<'all' | 'upcoming' | 'completed' | 'cancelled'>('all')] *)
Inductive Filter := all | upcoming | completed | cancelled.

(** The callback given to [bookings.filter]; [now] is the value of the
    [new Date()] it reads, and [departureTime > now] compares the time
    values of the two dates. *)
Definition matchesFilter (tab : Filter) (now : Z) (booking : Booking) : bool :=
  match tab with
  | upcoming =>
      bool_decide (status booking ≠ CANCELLED) &&
      bool_decide (now < departureTime booking)
  | completed => bool_decide (status booking = COMPLETED)
  | cancelled => bool_decide (status booking = CANCELLED)
  | all => true
  end.

(** [filteredBookings]: the callback reads the clock afresh for every
    element; [clock i] is the instant it reads for the booking at index
    [i]. *)
Definition filteredBookings (tab : Filter) (clock : nat → Z)
    (bookings : list Booking) : list Booking :=
  (filter (λ p, matchesFilter tab (clock p.1) p.2 = true)
          (imap pair bookings)).*2.

End TicketTabs.

(* ===================================================================== *)
(** ** src/components/dashboard/BookingManagement.tsx *)
(* ===================================================================== *)

Module BookingManagement.
Import Types.

Record State := {
  bookings : list Booking;
  selectedBooking : option Booking;
  isViewModalOpen : bool;
  isCancelModalOpen : bool;
  isLoading : bool
}.

(** The guard of both "Cancel" buttons, the one of a table row and the
    one of the view modal: [status === BookingStatus.CONFIRMED]. *)
Definition cancelOffered (booking : Booking) : bool :=
  bool_decide (status booking = CONFIRMED).

(** [handleViewBooking(booking)] *)
Definition handleViewBooking (booking : Booking) (st : State) : State :=
  {| bookings := bookings st;
     selectedBooking := Some booking;
     isViewModalOpen := true;
     isCancelModalOpen := isCancelModalOpen st;
     isLoading := isLoading st |}.

(** [handleCancelClick(booking)] *)
Definition handleCancelClick (booking : Booking) (st : State) : State :=
  {| bookings := bookings st;
     selectedBooking := Some booking;
     isViewModalOpen := isViewModalOpen st;
     isCancelModalOpen := true;
     isLoading := isLoading st |}.

(** [handleCancelBooking()]: the id the cancellation request is sent
    for, if one is sent, and the state once the handler has run. *)
Definition handleCancelBooking (post : UseBooking.ApiOutcome) (st : State)
  : State * option string :=
  match selectedBooking st with
  | None => (st, None)
  | Some selected =>
      (match post with
       | UseBooking.Resolved =>
           {| bookings :=
                map (λ booking,
                       if bool_decide (id booking = id selected)
                       then with_status booking CANCELLED
                       else booking)
                    (bookings st);
              selectedBooking := selectedBooking st;
              isViewModalOpen := isViewModalOpen st;
              isCancelModalOpen := false;
              isLoading := false |}
       | UseBooking.Threw =>
           {| bookings := bookings st;
              selectedBooking := selectedBooking st;
              isViewModalOpen := isViewModalOpen st;
              isCancelModalOpen := isCancelModalOpen st;
              isLoading := false |}
       end,
       Some (id selected))
  end.

(** A row's "Cancel" button followed by the modal's "Yes, Cancel
    Booking": [{booking.status === BookingStatus.CONFIRMED && <Button
    onClick={() => handleCancelClick(booking)}>}], then
    [onClick={handleCancelBooking}]. *)
Definition pressCancel (post : UseBooking.ApiOutcome) (booking : Booking)
    (st : State) : State * CancelButton.CancelOutcome :=
  if cancelOffered booking then
    ((handleCancelBooking post (handleCancelClick booking st)).1,
     CancelButton.Requested
       match post with UseBooking.Resolved => true | UseBooking.Threw => false end)
  else (st, CancelButton.NotOffered).

End BookingManagement.

(* ===================================================================== *)
(** ** src/hooks/useApi.ts *)
(* ===================================================================== *)

Module UseApi.

Definition Toast : Type := string * BookingForm.ToastType.

(** [interface UseApiOptions]: every field is optional. *)
Record UseApiOptions := {
  showSuccessToast : option bool;
  showErrorToast : option bool;
  successMessage : option string;
  errorMessage : option string
}.

(** [options = {}] *)
Definition noOptions : UseApiOptions :=
  {| showSuccessToast := None; showErrorToast := None;
     successMessage := None; errorMessage := None |}.

(** [interface ApiState<T>] *)
Record ApiState (T : Type) := {
  data : option T;
  loading : bool;
  error : option string
}.
Arguments data {T}.
Arguments loading {T}.
Arguments error {T}.

(** What the awaited axios call does: it resolves with a response, of
    which [response.data] is kept, or it rejects with an error, of which
    [error.response?.data?.message] is kept ([None] for [undefined]). *)
Inductive AxiosOutcome (T : Type) :=
| Fulfilled (response_data : T)
| Rejected (message : option string).
Arguments Fulfilled {T}.
Arguments Rejected {T}.

(** How [request] ends: it returns [response.data] or rethrows. *)
Inductive Completion (T : Type) :=
| Returned (response_data : T)
| Thrown.
Arguments Returned {T}.
Arguments Thrown {T}.

(** [a || b] where [a] is a string or [undefined]: the empty string is
    falsy as well. *)
Definition orString (a : option string) (b : string) : string :=
  match a with
  | Some s => if bool_decide (s = "") then b else s
  | None => b
  end.

(** [API_ERROR_MESSAGES.DEFAULT] of src/constants/api.ts *)
Definition API_ERROR_MESSAGES_DEFAULT : string :=
  "An error occurred. Please try again.".

(** [errorMessage || error.response?.data?.message ||
    API_ERROR_MESSAGES.DEFAULT]: the first of the three that is truthy
    ([||] yields the same value however it is bracketed). *)
Definition errorMsg (options : UseApiOptions) (message : option string)
  : string :=
  orString (errorMessage options)
           (orString message API_ERROR_MESSAGES_DEFAULT).

(** [request(method, url, data, config, options)].  The method only
    selects the axios function that is awaited ([get], [post], [put],
    [delete] and [patch] pass one of the five the [switch] knows), so the
    model takes the outcome of that call.  It gives the hook's state and
    the toasts once the call has settled, and how [request] ends. *)
Definition request {T} (initialState : option T) (options : UseApiOptions)
    (outcome : AxiosOutcome T) (toasts : list Toast)
  : ApiState T * list Toast * Completion T :=
  match outcome with
  | Fulfilled response_data =>
      ({| data := Some response_data; loading := false; error := None |},
       if default false (showSuccessToast options)
       then toasts ++ [(default "Operation completed successfully"
                                (successMessage options),
                        BookingForm.success)]
       else toasts,
       Returned response_data)
  | Rejected message =>
      ({| data := initialState; loading := false;
          error := Some (errorMsg options message) |},
       if default true (showErrorToast options)
       then toasts ++ [(errorMsg options message, BookingForm.toast_error)]
       else toasts,
       Thrown)
  end.

End UseApi.

(* ===================================================================== *)
(** ** src/hooks/useBooking.ts over src/hooks/useApi.ts

    [createBooking] and [cancelBooking] with their calls to [api.post]
    carried out by [UseApi.request], and with the toasts they show. *)
(* ===================================================================== *)

Module UseBookingApi.
Import Types.

(** [interface CreateBookingParams] *)
Record CreateBookingParams := {
  scheduleId : string;
  seatNumbers : list nat;
  paymentMethod : PaymentMethod;
  guestName : option string;
  guestEmail : option string;
  guestPhone : option string
}.

(** [bookingPayload]: the three guest keys are present only if the
    spread operand is the object, and a key whose value is [undefined]
    is dropped when the body is serialised; both read [None] here. *)
Record BookingPayload := {
  payload_scheduleId : string;
  payload_seatNumbers : list nat;
  payload_paymentMethod : PaymentMethod;
  payload_guestName : option string;
  payload_guestEmail : option string;
  payload_guestPhone : option string
}.

Definition bookingPayload (isAuthenticated : bool) (params : CreateBookingParams)
  : BookingPayload :=
  {| payload_scheduleId := scheduleId params;
     payload_seatNumbers := seatNumbers params;
     payload_paymentMethod := paymentMethod params;
     payload_guestName := if negb isAuthenticated then guestName params else None;
     payload_guestEmail := if negb isAuthenticated then guestEmail params else None;
     payload_guestPhone := if negb isAuthenticated then guestPhone params else None |}.

(** The hook's own state and the toasts of the toast context. *)
Record State := {
  hook : UseBooking.HookState;
  toasts : list UseApi.Toast
}.

Definition showToast (msg : string) (ty : BookingForm.ToastType)
    (l : list UseApi.Toast) : list UseApi.Toast :=
  l ++ [(msg, ty)].

(** [createBooking(params)]: the state once the promise has settled, and
    the booking it resolves with ([Thrown] when it rejects).  The body
    posted is [bookingPayload isAuthenticated params]; what the server
    makes of it is [outcome]. *)
Definition createBooking (isAuthenticated : bool)
    (outcome : UseApi.AxiosOutcome Booking) (st : State)
  : State * UseApi.Completion Booking :=
  let r := UseApi.request None
             {| UseApi.showSuccessToast := Some true;
                UseApi.showErrorToast := None;
                UseApi.successMessage := Some "Booking successful!";
                UseApi.errorMessage := None |}
             outcome (toasts st) in
  match r.2 with
  | UseApi.Returned data =>
      ({| hook :=
            {| UseBooking.bookings :=
                 if isAuthenticated
                 then data :: UseBooking.bookings (hook st)
                 else UseBooking.bookings (hook st);
               UseBooking.isLoading := false;
               UseBooking.error := None |};
          toasts := r.1.2 |},
       UseApi.Returned data)
  | UseApi.Thrown =>
      ({| hook :=
            {| UseBooking.bookings := UseBooking.bookings (hook st);
               UseBooking.isLoading := false;
               UseBooking.error := Some "Failed to create booking" |};
          toasts := showToast "Failed to create booking" BookingForm.toast_error
                              r.1.2 |},
       UseApi.Thrown)
  end.

(** Whether the awaited [api.post] resolved or threw. *)
Definition settled {T} (outcome : UseApi.AxiosOutcome T) : UseBooking.ApiOutcome :=
  match outcome with
  | UseApi.Fulfilled _ => UseBooking.Resolved
  | UseApi.Rejected _ => UseBooking.Threw
  end.

(** [cancelBooking(bookingId)]: the state once the promise has settled,
    and the boolean it resolves with. *)
Definition cancelBooking {T} (outcome : UseApi.AxiosOutcome T)
    (bookingId : string) (st : State) : State * bool :=
  let r := UseApi.request None
             {| UseApi.showSuccessToast := Some true;
                UseApi.showErrorToast := None;
                UseApi.successMessage := Some "Booking cancelled successfully";
                UseApi.errorMessage := None |}
             outcome (toasts st) in
  match r.2 with
  | UseApi.Returned _ =>
      ({| hook :=
            {| UseBooking.bookings :=
                 UseBooking.cancelUpdater bookingId (UseBooking.bookings (hook st));
               UseBooking.isLoading := false;
               UseBooking.error := None |};
          toasts := r.1.2 |},
       true)
  | UseApi.Thrown =>
      ({| hook :=
            {| UseBooking.bookings := UseBooking.bookings (hook st);
               UseBooking.isLoading := false;
               UseBooking.error := Some "Failed to cancel booking" |};
          toasts := showToast "Failed to cancel booking" BookingForm.toast_error
                              r.1.2 |},
       false)
  end.

End UseBookingApi.

(* ===================================================================== *)
(** ** src/components/booking/SeatSelection.tsx *)
(* ===================================================================== *)

Module SeatSelection.

(** [interface SeatSelectionProps]; [maxSeats] is optional. *)
Record SeatSelectionProps := {
  busCapacity : nat;
  bookedSeats : list nat;
  selectedSeats : list nat;
  maxSeats : option Z
}.

(** [maxSeats = 10] in the destructuring of the props. *)
Definition maxSeatsOrDefault (props : SeatSelectionProps) : Z :=
  default 10 (maxSeats props).

(** [toggleSeat(seatNumber)]: the list [onChange] is called with, [None]
    when it is not called. *)
Definition toggleSeat (props : SeatSelectionProps) (seatNumber : nat)
  : option (list nat) :=
  if bool_decide (seatNumber ∈ bookedSeats props) then None
  else if bool_decide (seatNumber ∈ selectedSeats props) then
    Some (filter (λ seat, seat ≠ seatNumber) (selectedSeats props))
  else if bool_decide (Z.of_nat (length (selectedSeats props))
                       < maxSeatsOrDefault props) then
    Some (selectedSeats props ++ [seatNumber])
  else None.

(** The seat numbers that get a button:
    [Array.from({ length: busCapacity }, (_, i) => i + 1)]. *)
Definition seatButtons (props : SeatSelectionProps) : list nat :=
  map (λ i, i + 1)%nat (seq 0 (busCapacity props)).

(** The component is controlled: its parent keeps the selection, hands
    it down as [selectedSeats] and replaces it by what [onChange]
    receives. *)
Definition withSelection (props : SeatSelectionProps) (l : list nat)
  : SeatSelectionProps :=
  {| busCapacity := busCapacity props;
     bookedSeats := bookedSeats props;
     selectedSeats := l;
     maxSeats := maxSeats props |}.

(** One click on the button of [seatNumber], and a sequence of clicks. *)
Definition click (props : SeatSelectionProps) (seatNumber : nat)
  : SeatSelectionProps :=
  match toggleSeat props seatNumber with
  | Some l => withSelection props l
  | None => props
  end.

Definition clicks (props : SeatSelectionProps) (seatNumbers : list nat)
  : SeatSelectionProps :=
  foldl click props seatNumbers.

End SeatSelection.

(* ===================================================================== *)
(** ** src/components/forms/BookingForm.tsx: the seat grid and the
       submit button *)
(* ===================================================================== *)

Module SeatGrid.
Import BookingForm.

(** [Array.from({ length: totalBusSeats }, (_, index) => index + 1)] *)
Definition seatButtons : list nat :=
  map (λ index, index + 1)%nat (seq 0 (Z.to_nat totalBusSeats)).

(** [const isUnavailable = unavailableSeats.includes(seatNumber)] *)
Definition isUnavailable (unavailable : list Z) (seatNumber : nat) : bool :=
  bool_decide (Z.of_nat seatNumber ∈ unavailable).

(** The buttons of one render that are not [disabled]. *)
Definition enabledSeats (props : BookingFormProps) (draws : nat → Q)
  : list nat :=
  filter (λ seatNumber,
            isUnavailable (unavailableSeats props draws) seatNumber = false)
         seatButtons.

(** [disabled={isSubmitting || selectedSeats.length < passengers}] of
    the "Complete Booking" button. *)
Definition submitDisabled (props : BookingFormProps) (st : FormState) : bool :=
  isSubmitting st || fewerThanPassengers props (selectedSeats st).

(** The form states reached by clicking seat buttons of the grid (a
    button that is drawn as unavailable is disabled, which only takes
    clicks away) and by submitting. *)
Inductive reachable (props : BookingFormProps) : FormState → Prop :=
| grid_init : reachable props initialState
| grid_click st seatNumber :
    seatNumber ∈ seatButtons →
    reachable props st →
    reachable props (toggleSeatSelection props seatNumber st)
| grid_submit st user_id response clk data :
    reachable props st →
    reachable props (onSubmit props user_id response clk data st).1.

End SeatGrid.

(* ===================================================================== *)
(** ** src/components/dashboard/ScheduleManagement.tsx: the list of
       schedules *)
(* ===================================================================== *)

Module ScheduleList.

(** [status: 'ACTIVE' | 'CANCELLED' | 'COMPLETED'] *)
Inductive Status := ACTIVE | CANCELLED | COMPLETED.

#[global] Instance Status_eq_dec : EqDecision Status.
Proof. solve_decision. Defined.

(** [interface Schedule] *)
Record Schedule := {
  id : string;
  routeId : string;
  route : Types.RouteInfo;
  busId : string;
  bus_name : string;
  bus_licensePlate : string;
  departureTime : string;
  arrivalTime : string;
  price : Z;
  availableSeats : Z;
  totalSeats : Z;
  status : Status
}.

(** [useState<'ALL' | 'ACTIVE' | 'CANCELLED' | 'COMPLETED'>('ALL')] *)
Inductive Filter := ALL | Only (s : Status).

(** The component's state. *)
Record State := {
  schedules : list Schedule;
  selectedSchedule : option Schedule;
  isModalOpen : bool;
  isDeleteModalOpen : bool;
  isLoading : bool;
  filter_ : Filter
}.

(** [handleAddSchedule()] *)
Definition handleAddSchedule (st : State) : State :=
  {| schedules := schedules st; selectedSchedule := None;
     isModalOpen := true; isDeleteModalOpen := isDeleteModalOpen st;
     isLoading := isLoading st; filter_ := filter_ st |}.

(** [handleEditSchedule(schedule)], as far as the component's state goes
    (it also fills in the form). *)
Definition handleEditSchedule (schedule : Schedule) (st : State) : State :=
  {| schedules := schedules st; selectedSchedule := Some schedule;
     isModalOpen := true; isDeleteModalOpen := isDeleteModalOpen st;
     isLoading := isLoading st; filter_ := filter_ st |}.

(** [handleDeleteClick(schedule)] *)
Definition handleDeleteClick (schedule : Schedule) (st : State) : State :=
  {| schedules := schedules st; selectedSchedule := Some schedule;
     isModalOpen := isModalOpen st; isDeleteModalOpen := true;
     isLoading := isLoading st; filter_ := filter_ st |}.

(** How an awaited [api.put], [api.post] or [api.delete] ends: with the
    schedule of the response, or by throwing. *)
Inductive ApiResult := Responded (schedule : Schedule) | Failed.

(** [onSubmit(data)], from the point where the request has been
    prepared: the list after [api.put] or [api.post] has settled. *)
Definition onSubmit (result : ApiResult) (st : State) : State :=
  match result with
  | Responded answer =>
      {| schedules :=
           match selectedSchedule st with
           | Some selected =>
               map (λ schedule,
                      if bool_decide (id schedule = id selected)
                      then answer else schedule)
                   (schedules st)
           | None => schedules st ++ [answer]
           end;
         selectedSchedule := selectedSchedule st;
         isModalOpen := false;
         isDeleteModalOpen := isDeleteModalOpen st;
         isLoading := false;
         filter_ := filter_ st |}
  | Failed =>
      {| schedules := schedules st; selectedSchedule := selectedSchedule st;
         isModalOpen := isModalOpen st;
         isDeleteModalOpen := isDeleteModalOpen st;
         isLoading := false; filter_ := filter_ st |}
  end.

(** [handleDeleteSchedule()]; [deleted] tells whether [api.delete]
    resolved. *)
Definition handleDeleteSchedule (deleted : bool) (st : State) : State :=
  match selectedSchedule st with
  | None => st
  | Some selected =>
      if deleted then
        {| schedules :=
             filter (λ schedule, id schedule ≠ id selected) (schedules st);
           selectedSchedule := selectedSchedule st;
           isModalOpen := isModalOpen st;
           isDeleteModalOpen := false;
           isLoading := false; filter_ := filter_ st |}
      else
        {| schedules := schedules st; selectedSchedule := selectedSchedule st;
           isModalOpen := isModalOpen st;
           isDeleteModalOpen := isDeleteModalOpen st;
           isLoading := false; filter_ := filter_ st |}
  end.

(** The object spread [{ ...schedule, status: newStatus }], the body of
    the request of [handleUpdateStatus]. *)
Definition with_status (schedule : Schedule) (newStatus : Status) : Schedule :=
  {| id := id schedule; routeId := routeId schedule; route := route schedule;
     busId := busId schedule; bus_name := bus_name schedule;
     bus_licensePlate := bus_licensePlate schedule;
     departureTime := departureTime schedule;
     arrivalTime := arrivalTime schedule; price := price schedule;
     availableSeats := availableSeats schedule;
     totalSeats := totalSeats schedule; status := newStatus |}.

(** [handleUpdateStatus(schedule, newStatus)]: the list after [api.put]
    has settled.  The entry is replaced by the schedule of the response,
    not by the body that was sent. *)
Definition handleUpdateStatus (schedule : Schedule) (result : ApiResult)
    (st : State) : State :=
  match result with
  | Responded answer =>
      {| schedules :=
           map (λ s, if bool_decide (id s = id schedule) then answer else s)
               (schedules st);
         selectedSchedule := selectedSchedule st;
         isModalOpen := isModalOpen st;
         isDeleteModalOpen := isDeleteModalOpen st;
         isLoading := false; filter_ := filter_ st |}
  | Failed =>
      {| schedules := schedules st; selectedSchedule := selectedSchedule st;
         isModalOpen := isModalOpen st;
         isDeleteModalOpen := isDeleteModalOpen st;
         isLoading := false; filter_ := filter_ st |}
  end.

(** The status buttons of a row: "Activate", "Cancel" and "Complete",
    each rendered when the schedule's status differs from its target. *)
Definition statusButtons (schedule : Schedule) : list Status :=
  filter (λ target, status schedule ≠ target) [ACTIVE; CANCELLED; COMPLETED].

(** [setFilter(e.target.value)] of the status select. *)
Definition setFilter (f : Filter) (st : State) : State :=
  {| schedules := schedules st; selectedSchedule := selectedSchedule st;
     isModalOpen := isModalOpen st;
     isDeleteModalOpen := isDeleteModalOpen st;
     isLoading := isLoading st; filter_ := f |}.

(** [filteredSchedules] *)
Definition filteredSchedules (st : State) : list Schedule :=
  match filter_ st with
  | ALL => schedules st
  | Only s => filter (λ schedule, status schedule = s) (schedules st)
  end.

End ScheduleList.

(* ===================================================================== *)
(** ** src/utils/date.ts *)
(* ===================================================================== *)

Module DateUtils.

(** [Math.round(x)]: the integer nearest to [x], a tie going up. *)
Definition round (x : Q) : Z := Qfloor (x + (1 # 2)).

(** [calculateDurationInMinutes(start, end)] on two valid dates. *)
Definition calculateDurationInMinutes (start end_ : Z) : Z :=
  round (inject_Z (end_ - start) / inject_Z (1000 * 60)).

(** [formatDuration(durationInMinutes)] on an integer; [%] is the
    remainder of the division that truncates, [Z.rem]. *)
Definition formatDuration (durationInMinutes : Z) : string :=
  let hours := durationInMinutes / 60 in
  let minutes := Z.rem durationInMinutes 60 in
  if bool_decide (hours = 0) then pretty minutes +:+ "m"
  else if bool_decide (minutes = 0) then pretty hours +:+ "h"
  else pretty hours +:+ "h " +:+ pretty minutes +:+ "m".

(** [isDateInPast(date)] with [now] the value of [new Date()]. *)
Definition isDateInPast (now date : Z) : bool := bool_decide (date < now).

End DateUtils.

(* ===================================================================== *)
(** ** src/components/sections/BusSearchResults.tsx,
       src/pages/SearchResultsPage.tsx and src/pages/BookingPage.tsx:
       from a search result to the booking form *)
(* ===================================================================== *)

(** [x || d] where [x] is a number or [undefined] ([None]); 0 is falsy
    as well. *)
Definition orNumber (x : option Z) (d : Z) : Z :=
  match x with
  | Some v => if bool_decide (v = 0) then d else v
  | None => d
  end.

(** The [state] handed to the router by [navigate] and read back from
    [location.state]; a key that is not set reads [undefined]. *)
Record LocationState := {
  state_scheduleId : string;
  state_origin : string;
  state_destination : string;
  state_departureTime : Z;
  state_arrivalTime : Z;
  state_price : Z;
  state_operatorName : string;
  state_busName : string;
  state_availableSeats : option Z;
  state_passengers : option Z
}.

Module SearchResultsPage.

(** [passengers={searchParams.passengers || 1}]; the search parameter is
    [parseInt(query.get('passengers') || '1', 10)], an integer or [NaN]
    ([None]). *)
Definition passengersProp (searchParams_passengers : option Z) : Z :=
  orNumber searchParams_passengers 1.

End SearchResultsPage.

Module BusSearchResults.

(** [interface SearchResult] of src/types/search.ts *)
Record SearchResult := {
  scheduleId : string;
  routeId : string;
  busId : string;
  operatorId : string;
  operatorName : string;
  origin : string;
  destination : string;
  departureTime : Z;
  arrivalTime : Z;
  duration : Z;
  price : Z;
  availableSeats : Z;
  busName : string;
  amenities : list string;
  rating : Q
}.

(** [formatDuration(minutes)] of the result card. *)
Definition formatDuration (minutes : Z) : string :=
  let hours := minutes / 60 in
  let mins := Z.rem minutes 60 in
  pretty hours +:+ "h " +:+ pretty mins +:+ "m".

(** What "Book Now" does: an error toast, or a navigation to
    [/booking/:scheduleId] with a state. *)
Inductive BookNow :=
| Refused (toast : string)
| Navigated (path : string) (state : LocationState).

(** [handleBookNow(result)] *)
Definition handleBookNow (passengers : Z) (result : SearchResult) : BookNow :=
  if bool_decide (availableSeats result < passengers) then
    Refused ("Only " +:+ pretty (availableSeats result) +:+ " seats available")
  else
    Navigated ("/booking/" +:+ scheduleId result)
      {| state_scheduleId := scheduleId result;
         state_origin := origin result;
         state_destination := destination result;
         state_departureTime := departureTime result;
         state_arrivalTime := arrivalTime result;
         state_price := price result;
         state_operatorName := operatorName result;
         state_busName := busName result;
         state_availableSeats := None;
         state_passengers := Some passengers |}.

(** [disabled={result.availableSeats < passengers}] of the button. *)
Definition bookNowDisabled (passengers : Z) (result : SearchResult) : bool :=
  bool_decide (availableSeats result < passengers).

End BusSearchResults.

Module BookingPage.

(** The schedule the page fetches when it has no router state:
    [const { data } = await api.get(`/schedules/${scheduleId}`)]. *)
Record FetchedSchedule := {
  data_id : string;
  data_origin : string;
  data_destination : string;
  data_departureTime : Z;
  data_arrivalTime : Z;
  data_price : Z;
  data_operatorName : string;
  data_busName : string;
  data_availableSeats : Z
}.

(** [scheduleDetails] as set from [location.state]; its fields are
    handed to [BookingForm] one by one, so it is kept as the form's
    props. *)
Definition fromLocationState (state : LocationState)
  : BookingForm.BookingFormProps :=
  {| BookingForm.p_scheduleId := state_scheduleId state;
     BookingForm.p_origin := state_origin state;
     BookingForm.p_destination := state_destination state;
     BookingForm.p_departureTime := state_departureTime state;
     BookingForm.p_arrivalTime := state_arrivalTime state;
     BookingForm.price := state_price state;
     BookingForm.p_operatorName := state_operatorName state;
     BookingForm.busName := state_busName state;
     BookingForm.availableSeats := orNumber (state_availableSeats state) 20;
     BookingForm.passengers := orNumber (state_passengers state) 1 |}.

(** [scheduleDetails] as set by [fetchScheduleDetails]. *)
Definition fromFetched (data : FetchedSchedule) : BookingForm.BookingFormProps :=
  {| BookingForm.p_scheduleId := data_id data;
     BookingForm.p_origin := data_origin data;
     BookingForm.p_destination := data_destination data;
     BookingForm.p_departureTime := data_departureTime data;
     BookingForm.p_arrivalTime := data_arrivalTime data;
     BookingForm.price := data_price data;
     BookingForm.p_operatorName := data_operatorName data;
     BookingForm.busName := data_busName data;
     BookingForm.availableSeats := data_availableSeats data;
     BookingForm.passengers := 1 |}.

(** What the page ends up showing. *)
Inductive Shown :=
| Form (props : BookingForm.BookingFormProps)
| RedirectedHome (toast : string).

(** The branches of the effect that do without router state: the
    [scheduleId] of the URL is fetched ([fetched] is the schedule the
    API answers with, [None] if the call throws), and without one the
    page goes back home. *)
Definition fromUrl (scheduleId : option string)
    (fetched : option FetchedSchedule) : Shown :=
  match scheduleId with
  | Some sid =>
      if bool_decide (sid ≠ "") then
        match fetched with
        | Some data => Form (fromFetched data)
        | None => RedirectedHome "Failed to load booking details"
        end
      else RedirectedHome "Invalid booking request"
  | None => RedirectedHome "Invalid booking request"
  end.

(** The effect on mount: [if (location.state &&
    location.state.scheduleId) ... else if (scheduleId) ... else ...]. *)
Definition useEffect (locationState : option LocationState)
    (scheduleId : option string) (fetched : option FetchedSchedule) : Shown :=
  match locationState with
  | Some state =>
      if bool_decide (state_scheduleId state ≠ "")
      then Form (fromLocationState state)
      else fromUrl scheduleId fetched
  | None => fromUrl scheduleId fetched
  end.

End BookingPage.

(* ===================================================================== *)
(** ** The booking engine behind [POST /bookings] and
       [POST /bookings/:id/cancel]

    The repository's server side is not part of the sources at hand; the
    front end above only calls it.  This module models it from the
    specification's sections 3 to 7. *)
(* ===================================================================== *)

Module Engine.
Import Types.

(** Modelled from the spec: the seat states of section 3. *)
Inductive SeatState := FREE | HELD | BOOKED.

(** Modelled from the spec: the schedule statuses of section 3. *)
Inductive ScheduleStatus := ACTIVE | SCHEDULE_CANCELLED | SCHEDULE_COMPLETED.

(** Modelled from the spec: the tagged payment method of section 9. *)
Inductive PaymentMethod := MobileMoney | Card | PayLater.

(** Modelled from the spec: the passenger identity of section 3, a
    registered user id or a guest contact triple. *)
Inductive Passenger :=
| Registered (userId : string)
| Guest (name email phone : string).

(** Modelled from the spec: the error taxonomy of section 7, with
    [InvalidSeatState] of section 4.1.  The spec names no error for a
    seat list that fails the ledger's validation or for a denied
    authorization; they are [InvalidSeatSet] and [NotAuthorized] here. *)
Inductive Error :=
| ScheduleNotFound
| ScheduleNotActive
| SeatsUnavailable (conflictingSeats : gset nat)
| PaymentFailed
| CancellationWindowClosed
| InvalidTransition
| BookingNotFound
| InvalidSeatState
| InvalidSeatSet
| NotAuthorized.

(** Modelled from the spec: section 7 calls [SeatsUnavailable] and
    [PaymentFailed] recoverable. *)
Definition recoverable (e : Error) : bool :=
  match e with
  | SeatsUnavailable _ | PaymentFailed => true
  | _ => false
  end.

#[global] Instance SeatState_eq_dec : EqDecision SeatState.
Proof. solve_decision. Defined.

#[global] Instance ScheduleStatus_eq_dec : EqDecision ScheduleStatus.
Proof. solve_decision. Defined.

#[global] Instance EnginePaymentMethod_eq_dec : EqDecision PaymentMethod.
Proof. solve_decision. Defined.

(** Modelled from the spec: a Schedule of section 3 together with its
    occupancy, kept as the set of held and the set of booked seat
    numbers; every other seat in [1, totalSeats] is free.  Times are
    millisecond timestamps. *)
Record Schedule := {
  routeRef : string;
  busRef : string;
  departure : Z;
  arrival : Z;
  seatPrice : Z;
  totalSeats : nat;
  scheduleStatus : ScheduleStatus;
  held : gset nat;
  booked : gset nat
}.

(** Modelled from the spec: a schedule with its occupancy replaced; the
    seat operations of section 4.1 change nothing else. *)
Definition withSeats (s : Schedule) (h b : gset nat) : Schedule :=
  {| routeRef := routeRef s; busRef := busRef s;
     departure := departure s; arrival := arrival s;
     seatPrice := seatPrice s; totalSeats := totalSeats s;
     scheduleStatus := scheduleStatus s;
     held := h; booked := b |}.

(** Modelled from the spec: the state of one seat of section 3, read off
    the occupancy. *)
Definition seatState (s : Schedule) (seat : nat) : SeatState :=
  if decide (seat ∈ booked s) then BOOKED
  else if decide (seat ∈ held s) then HELD
  else FREE.

(** Modelled from the spec: a Booking of section 3. *)
Record Booking := {
  identifier : nat;
  scheduleRef : nat;
  seats : gset nat;
  passenger : Passenger;
  totalAmount : Z;
  paymentMethod : PaymentMethod;
  paymentStatus : PaymentStatus;
  status : BookingStatus;
  created : Z
}.

(** Modelled from the spec: a booking after a lifecycle transition, which
    changes its status and payment status only. *)
Definition withStatus (b : Booking) (st : BookingStatus) (pay : PaymentStatus)
  : Booking :=
  {| identifier := identifier b; scheduleRef := scheduleRef b;
     seats := seats b; passenger := passenger b;
     totalAmount := totalAmount b; paymentMethod := paymentMethod b;
     paymentStatus := pay; status := st; created := created b |}.

(** Modelled from the spec: a Reservation of section 3. *)
Inductive Outcome := GRANTED | REJECTED (conflictingSeats : gset nat).

(** Modelled from the spec: the attributes of a Reservation (section 3). *)
Record Reservation := {
  r_schedule : nat;
  r_seats : gset nat;
  r_requester : Passenger;
  r_outcome : Outcome
}.

(** Modelled from the spec: the engine's state, schedules with their
    occupancy (Seat Inventory), the append-only Reservation Ledger, and
    the bookings by identifier. *)
Record State := {
  schedules : gmap nat Schedule;
  ledger : list Reservation;
  bookings : gmap nat Booking
}.

(** Modelled from the spec: the four updates of the state the operations
    below are made of. *)
Definition setSchedule (σ : State) (sid : nat) (s : Schedule) : State :=
  {| schedules := <[sid := s]> (schedules σ);
     ledger := ledger σ; bookings := bookings σ |}.

Definition setBooking (σ : State) (bid : nat) (b : Booking) : State :=
  {| schedules := schedules σ; ledger := ledger σ;
     bookings := <[bid := b]> (bookings σ) |}.

Definition dropBooking (σ : State) (bid : nat) : State :=
  {| schedules := schedules σ; ledger := ledger σ;
     bookings := delete bid (bookings σ) |}.

Definition record (σ : State) (r : Reservation) : State :=
  {| schedules := schedules σ; ledger := ledger σ ++ [r];
     bookings := bookings σ |}.

(** Modelled from the spec: the result of a fallible operation, an error
    of section 7 or a value. *)
Definition Result (A : Type) : Type := Error + A.

Definition bind {A B} (r : Result A) (k : A → Result B) : Result B :=
  match r with inl e => inl e | inr a => k a end.

Local Notation "'let*' x := r 'in' k" := (bind r (λ x, k))
  (at level 10, x name, r at level 100, k at level 200).

(** Modelled from the spec: loading a schedule or a booking fails with
    [ScheduleNotFound] or [BookingNotFound]. *)
Definition findSchedule (σ : State) (sid : nat) : Result Schedule :=
  match schedules σ !! sid with
  | Some s => inr s
  | None => inl ScheduleNotFound
  end.

Definition findBooking (σ : State) (bid : nat) : Result Booking :=
  match bookings σ !! bid with
  | Some b => inr b
  | None => inl BookingNotFound
  end.

(** *** 4.1 Seat Inventory *)

(** Modelled from the spec: the result of [snapshotAvailability]. *)
Record Availability := {
  freeSeats : gset nat;
  heldSeats : gset nat;
  bookedSeats : gset nat
}.

(** Modelled from the spec: the seats of a schedule, 1 to its total seat
    count. *)
Definition allSeats (s : Schedule) : gset nat :=
  list_to_set (seq 1 (totalSeats s)).

(** Modelled from the spec: [snapshotAvailability(scheduleId)]. *)
Definition snapshotAvailability (σ : State) (sid : nat) : Result Availability :=
  let* s := findSchedule σ sid in
  inr {| freeSeats := filter (λ n, seatState s n = FREE) (allSeats s);
         heldSeats := filter (λ n, seatState s n = HELD) (allSeats s);
         bookedSeats := filter (λ n, seatState s n = BOOKED) (allSeats s) |}.

(** Modelled from the spec: the result of [tryHold], with the seats that
    were unavailable on rejection. *)
Inductive HoldResult := Held | Unavailable (conflictingSeats : gset nat).

(** Modelled from the spec: the requested seats that are not FREE. *)
Definition unavailable (s : Schedule) (seatNumbers : gset nat) : gset nat :=
  filter (λ n, seatState s n ≠ FREE) seatNumbers.

(** Modelled from the spec: [tryHold(scheduleId, seatNumbers)], all or
    nothing. *)
Definition tryHold (σ : State) (sid : nat) (seatNumbers : gset nat)
  : Result (State * HoldResult) :=
  let* s := findSchedule σ sid in
  let conflicting := unavailable s seatNumbers in
  if decide (conflicting = ∅)
  then inr (setSchedule σ sid (withSeats s (held s ∪ seatNumbers) (booked s)), Held)
  else inr (σ, Unavailable conflicting).

(** Modelled from the spec: [commit(scheduleId, seatNumbers)], HELD to
    BOOKED, refused unless every seat is HELD. *)
Definition commit (σ : State) (sid : nat) (seatNumbers : gset nat) : Result State :=
  let* s := findSchedule σ sid in
  if decide (set_Forall (λ n, seatState s n = HELD) seatNumbers)
  then inr (setSchedule σ sid
              (withSeats s (held s ∖ seatNumbers) (booked s ∪ seatNumbers)))
  else inl InvalidSeatState.

(** Modelled from the spec: [release(scheduleId, seatNumbers)], HELD or
    BOOKED to FREE; a free seat stays free. *)
Definition release (σ : State) (sid : nat) (seatNumbers : gset nat) : Result State :=
  let* s := findSchedule σ sid in
  inr (setSchedule σ sid
         (withSeats s (held s ∖ seatNumbers) (booked s ∖ seatNumbers))).

(** *** 4.2 Reservation Ledger *)

(** Modelled from the spec: the ledger's validation, non-empty,
    deduplicated, all within [1, totalSeats]. *)
Definition validSeatNumbers (s : Schedule) (seatNumbers : list nat) : bool :=
  bool_decide (seatNumbers ≠ []) &&
  bool_decide (NoDup seatNumbers) &&
  forallb (λ n, bool_decide (1 ≤ n ≤ totalSeats s)%nat) seatNumbers.

(** Modelled from the spec: [reserve(scheduleId, seatNumbers, requester)]. *)
Definition reserve (σ : State) (sid : nat) (seatNumbers : list nat)
    (requester : Passenger) : Result (State * Reservation) :=
  let* s := findSchedule σ sid in
  if validSeatNumbers s seatNumbers then
    let wanted : gset nat := list_to_set seatNumbers in
    let* h := tryHold σ sid wanted in
    let r := {| r_schedule := sid; r_seats := wanted; r_requester := requester;
                r_outcome := match h.2 with
                             | Held => GRANTED
                             | Unavailable c => REJECTED c
                             end |} in
    inr (record h.1 r, r)
  else inl InvalidSeatSet.

(** *** 4.3 Booking Lifecycle State Machine *)

(** Modelled from the spec: the time windows of section 4.3, in
    milliseconds. *)
Definition hour : Z := 60 * 60 * 1000.

(** 24 hours before departure. *)
Definition cancellationWindow : Z := 24 * hour.

(** The hold window, 30 minutes. *)
Definition holdWindow : Z := 30 * 60 * 1000.

(** 7 days after arrival. *)
Definition reviewWindow : Z := 7 * 24 * hour.

(** Modelled from the spec: the events of the transition table.  The
    first row (reservation granted, creating the booking in PENDING) is
    [openBooking] below. *)
Inductive Event :=
| PaymentConfirmed
| PayLaterAccepted
| HoldExpires (now : Z)
| PassengerCancels (now : Z)
| ScheduleCompletes (now : Z)
| OperatorForceCancels.

(** Modelled from the spec: to CANCELLED, releasing the seats. *)
Definition cancelled (σ : State) (bid : nat) (b : Booking) : Result State :=
  let* σ' := release σ (scheduleRef b) (seats b) in
  inr (setBooking σ' bid (withStatus b CANCELLED (paymentStatus b))).

(** Modelled from the spec: to CONFIRMED, committing the seats. *)
Definition confirmed (σ : State) (bid : nat) (b : Booking) (pay : PaymentStatus)
  : Result State :=
  let* σ' := commit σ (scheduleRef b) (seats b) in
  inr (setBooking σ' bid (withStatus b CONFIRMED pay)).

(** Modelled from the spec: the transition table of section 4.3.  A
    pair of state and event the table does not list, and any event in a
    terminal state, is an [InvalidTransition]. *)
Definition transition (σ : State) (bid : nat) (ev : Event) : Result State :=
  let* b := findBooking σ bid in
  let* s := findSchedule σ (scheduleRef b) in
  match status b, ev with
  | PENDING, PaymentConfirmed => confirmed σ bid b PAID
  | PENDING, PayLaterAccepted => confirmed σ bid b (paymentStatus b)
  | PENDING, HoldExpires now =>
      if decide (holdWindow < now - created b) then cancelled σ bid b
      else inl InvalidTransition
  | CONFIRMED, PassengerCancels now =>
      if decide (cancellationWindow < departure s - now) then cancelled σ bid b
      else inl CancellationWindowClosed
  | CONFIRMED, ScheduleCompletes now =>
      if decide (arrival s < now)
      then inr (setBooking σ bid (withStatus b COMPLETED (paymentStatus b)))
      else inl InvalidTransition
  | PENDING, OperatorForceCancels => cancelled σ bid b
  | CONFIRMED, OperatorForceCancels => cancelled σ bid b
  | _, _ => inl InvalidTransition
  end.

(** Modelled from the spec: review eligibility,
    [status == COMPLETED AND (now - arrival) <= 7 days]. *)
Definition reviewEligible (s : Schedule) (b : Booking) (now : Z) : bool :=
  bool_decide (status b = COMPLETED) && bool_decide (now - arrival s ≤ reviewWindow).

(** *** 4.4 Booking Orchestrator *)

(** Modelled from the spec: the payment capability
    [charge(amount, method, payerDetails)] of section 6. *)
Inductive ChargeResult := Paid | Declined.

Definition PaymentCapability : Type := Z → PaymentMethod → Passenger → ChargeResult.

(** Modelled from the spec: the first half of [createBooking].  The
    schedule must be ACTIVE, the ledger reserves, and a granted
    reservation becomes a PENDING booking under a fresh identifier.  The
    spec's check that the seat count matches the passenger count has no
    counterpart: the operation's signature carries no passenger count. *)
Definition openBooking (σ : State) (sid : nat) (seatNumbers : list nat)
    (who : Passenger) (method : PaymentMethod) (now : Z)
  : State * Result Booking :=
  match findSchedule σ sid with
  | inl e => (σ, inl e)
  | inr s =>
      if decide (scheduleStatus s = ACTIVE) then
        match reserve σ sid seatNumbers who with
        | inl e => (σ, inl e)
        | inr (σ1, r) =>
            match r_outcome r with
            | REJECTED c => (σ1, inl (SeatsUnavailable c))
            | GRANTED =>
                let b := {| identifier := fresh (dom (bookings σ1));
                            scheduleRef := sid;
                            seats := r_seats r;
                            passenger := who;
                            totalAmount := seatPrice s * Z.of_nat (size (r_seats r));
                            paymentMethod := method;
                            paymentStatus := UNPAID;
                            status := PENDING;
                            created := now |} in
                (setBooking σ1 (identifier b) b, inr b)
            end
        end
      else (σ, inl ScheduleNotActive)
  end.

(** Modelled from the spec: payment declined, the hold of a PENDING
    booking is released and the booking is dropped. *)
Definition abandon (σ : State) (bid : nat) : Result State :=
  let* b := findBooking σ bid in
  match status b with
  | PENDING =>
      let* σ' := release σ (scheduleRef b) (seats b) in
      inr (dropBooking σ' bid)
  | _ => inl InvalidTransition
  end.

(** Modelled from the spec: apply a lifecycle event and read the booking
    back. *)
Definition drive (σ : State) (bid : nat) (ev : Event) : State * Result Booking :=
  match transition σ bid ev with
  | inr σ' => (σ', findBooking σ' bid)
  | inl e => (σ, inl e)
  end.

(** Modelled from the spec: the second half of [createBooking], the
    payment-method-specific transition. *)
Definition settle (charge : PaymentCapability) (σ : State) (b : Booking)
  : State * Result Booking :=
  match paymentMethod b with
  | PayLater => drive σ (identifier b) PayLaterAccepted
  | MobileMoney | Card =>
      match charge (totalAmount b) (paymentMethod b) (passenger b) with
      | Paid => drive σ (identifier b) PaymentConfirmed
      | Declined =>
          match abandon σ (identifier b) with
          | inr σ' => (σ', inl PaymentFailed)
          | inl e => (σ, inl e)
          end
      end
  end.

(** Modelled from the spec:
    [createBooking(scheduleId, seatNumbers, passenger, paymentMethod)]. *)
Definition createBooking (charge : PaymentCapability) (σ : State) (sid : nat)
    (seatNumbers : list nat) (who : Passenger) (method : PaymentMethod) (now : Z)
  : State * Result Booking :=
  match openBooking σ sid seatNumbers who method now with
  | (σ1, inr b) => settle charge σ1 b
  | (σ1, inl e) => (σ1, inl e)
  end.

(** Modelled from the spec: [cancelBooking(bookingId, requester)];
    [authorized] is the result of the external authorization. *)
Definition cancelBooking (authorized : bool) (σ : State) (bid : nat) (now : Z)
  : State * Result Booking :=
  if authorized then drive σ bid (PassengerCancels now)
  else (σ, inl NotAuthorized).

(** *** Executions

    Section 5 makes the seat operations atomic per schedule and keeps the
    payment call outside of them, so a concurrent execution of the engine
    is a sequence of the following steps, in any order and for any
    bookings: the two halves of [createBooking] are separate steps, and
    other requests may run between them. *)

(** Modelled from the spec: the atomic steps of section 5. *)
Inductive Step :=
| Open (sid : nat) (seatNumbers : list nat) (who : Passenger)
       (method : PaymentMethod) (now : Z)
| Fire (bid : nat) (ev : Event)
| Abandon (bid : nat).

(** Modelled from the spec: a step that fails leaves the state as it
    was. *)
Definition orElse (σ : State) (r : Result State) : State :=
  match r with inr σ' => σ' | inl _ => σ end.

(** Modelled from the spec: the effect of one step on the state. *)
Definition step (σ : State) (st : Step) : State :=
  match st with
  | Open sid seatNumbers who method now =>
      (openBooking σ sid seatNumbers who method now).1
  | Fire bid ev => orElse σ (transition σ bid ev)
  | Abandon bid => orElse σ (abandon σ bid)
  end.

(** Modelled from the spec: an execution, step after step. *)
Definition run (σ : State) (steps : list Step) : State :=
  foldl step σ steps.

(** Modelled from the spec: an initial state has schedules whose seats
    are all free, no booking, and an empty ledger. *)
Definition initial (σ : State) : Prop :=
  bookings σ = ∅ ∧ ledger σ = [] ∧
  ∀ sid s, schedules σ !! sid = Some s → held s = ∅ ∧ booked s = ∅.

(** Modelled from the spec: the states the engine can be in at any point
    in time. *)
Definition reachable (σ : State) : Prop :=
  ∃ σ0 steps, initial σ0 ∧ σ = run σ0 steps.

(** Modelled from the spec: a booking in PENDING or CONFIRMED state. *)
Definition live (b : Booking) : Prop :=
  status b = PENDING ∨ status b = CONFIRMED.

(** Modelled from the spec: the bookings of one schedule. *)
Definition bookingsOn (σ : State) (sid : nat) (bid : nat) (b : Booking) : Prop :=
  bookings σ !! bid = Some b ∧ scheduleRef b = sid.

End Engine.

(* ===================================================================== *)
(** ** The passenger's cancellation, from the ticket to the engine

    [POST /bookings/:id/cancel] is answered by the server, which is not
    part of the sources; the module joins the front end's code to the
    engine modelled from the specification. *)
(* ===================================================================== *)

Module PassengerCancellation.

(** Modelled from the spec: how the engine's answer reaches the front
    end.  [cancelBooking] returns a Booking or an Error (section 4.4);
    the request resolves on a Booking and is rejected on an Error. *)
Definition answer (r : Engine.Result Engine.Booking) : UseBooking.ApiOutcome :=
  match r with
  | inr _ => UseBooking.Resolved
  | inl _ => UseBooking.Threw
  end.

(** What one attempt leaves behind: the engine's state, its answer if it
    was asked, the page's state, and what became of the attempt. *)
Record Run := {
  engineAfter : Engine.State;
  engineAnswer : option (Engine.Result Engine.Booking);
  pageAfter : UserDashboardPage.PageState;
  outcome : CancelButton.CancelOutcome
}.

(** Modelled from the spec: the passenger's cancellation end to end.  The
    ticket is rendered at [rendered], the instant at which
    [isCancellable] reads the clock; the click comes at [clicked], and
    its handler tests no time.  The request is the engine's
    [cancelBooking] for the booking's owner, decided at [clicked]
    (sections 4.3 and 4.4); the front end's part is [handleCancelBooking]
    of the ticket list, as in [CancelButton.pressCancel]. *)
Definition passengerCancels (rendered clicked : Z) (ticket : Types.Booking)
    (bid : nat) (σ : Engine.State) (st : UserDashboardPage.PageState) : Run :=
  if UserTickets.isCancellable rendered ticket then
    let r := Engine.cancelBooking true σ bid clicked in
    let p := CancelButton.handleCancelBooking (answer r.2) (Types.id ticket) st in
    {| engineAfter := r.1; engineAnswer := Some r.2;
       pageAfter := p.1; outcome := CancelButton.Requested p.2 |}
  else
    {| engineAfter := σ; engineAnswer := None;
       pageAfter := st; outcome := CancelButton.NotOffered |}.

End PassengerCancellation.

(* ===================================================================== *)
(** * Vocabulary of the statements *)
(* ===================================================================== *)

(** Every field but [status] agrees. *)
Definition sameButStatus (b b' : Types.Booking) : Prop :=
  Types.id b' = Types.id b ∧
  Types.bookingNumber b' = Types.bookingNumber b ∧
  Types.userId b' = Types.userId b ∧
  Types.passengerName b' = Types.passengerName b ∧
  Types.contactEmail b' = Types.contactEmail b ∧
  Types.contactPhone b' = Types.contactPhone b ∧
  Types.scheduleId b' = Types.scheduleId b ∧
  Types.route b' = Types.route b ∧
  Types.bus b' = Types.bus b ∧
  Types.departureDate b' = Types.departureDate b ∧
  Types.departureTime b' = Types.departureTime b ∧
  Types.arrivalTime b' = Types.arrivalTime b ∧
  Types.seatNumbers b' = Types.seatNumbers b ∧
  Types.totalAmount b' = Types.totalAmount b ∧
  Types.paymentMethod b' = Types.paymentMethod b ∧
  Types.paymentStatus b' = Types.paymentStatus b ∧
  Types.createdAt b' = Types.createdAt b.

(** A digit or a letter of the Latin alphabet. *)
Definition isAlphanumeric (c : ascii) : bool :=
  let n := nat_of_ascii c in
  bool_decide (48 ≤ n ≤ 57)%nat ||
  bool_decide (65 ≤ n ≤ 90)%nat ||
  bool_decide (97 ≤ n ≤ 122)%nat.

Fixpoint alphanumeric (s : string) : bool :=
  match s with
  | EmptyString => true
  | String c s => isAlphanumeric c && alphanumeric s
  end.

(** The selection is well formed: no seat twice, no booked seat, and no
    more seats than [maxSeats]. *)
Definition selectionWellFormed (props : SeatSelection.SeatSelectionProps) : Prop :=
  NoDup (SeatSelection.selectedSeats props) ∧
  (∀ n, n ∈ SeatSelection.selectedSeats props →
        n ∉ SeatSelection.bookedSeats props) ∧
  Z.of_nat (length (SeatSelection.selectedSeats props))
    ≤ Z.max 0 (SeatSelection.maxSeatsOrDefault props).

(** A decimal digit, and a string of decimal digits. *)
Definition isDigit (c : ascii) : bool :=
  bool_decide (48 ≤ nat_of_ascii c ≤ 57)%nat.

Fixpoint digitsOnly (s : string) : bool :=
  match s with
  | EmptyString => true
  | String c s => isDigit c && digitsOnly s
  end.

Section EngineVocabulary.
Import Engine.

(** The engine's invariant: every booking that is not cancelled has its
    seats occupied on its schedule (held while PENDING, booked
    afterwards), two such bookings on one schedule share no seat, and
    every occupied seat is the seat of such a booking. *)
Record consistent (σ : State) : Prop := {
  claims_seats : ∀ bid b,
    bookings σ !! bid = Some b → status b ≠ Types.CANCELLED →
    ∃ s, schedules σ !! scheduleRef b = Some s ∧
         (status b = Types.PENDING → seats b ⊆ held s) ∧
         (status b ≠ Types.PENDING → seats b ⊆ booked s);
  claims_disjoint : ∀ bid1 bid2 b1 b2,
    bid1 ≠ bid2 →
    bookings σ !! bid1 = Some b1 → bookings σ !! bid2 = Some b2 →
    scheduleRef b1 = scheduleRef b2 →
    status b1 ≠ Types.CANCELLED → status b2 ≠ Types.CANCELLED →
    seats b1 ## seats b2;
  claims_cover : ∀ sid s seat,
    schedules σ !! sid = Some s → seat ∈ held s ∪ booked s →
    ∃ bid b, bookings σ !! bid = Some b ∧ scheduleRef b = sid ∧
             status b ≠ Types.CANCELLED ∧ seat ∈ seats b
}.

(** The requested seat numbers as the set [reserve] hands to [tryHold]. *)
Definition wantedSeats (seatNumbers : list nat) : gset nat :=
  list_to_set seatNumbers.

(** The reservation record the ledger appends. *)
Definition reservationOf (sid : nat) (seatNumbers : list nat) (who : Passenger)
    (o : Outcome) : Reservation :=
  {| r_schedule := sid; r_seats := wantedSeats seatNumbers;
     r_requester := who; r_outcome := o |}.

(** The PENDING booking [openBooking] creates. *)
Definition pendingBooking (σ : State) (s : Schedule) (sid : nat)
    (seatNumbers : list nat) (who : Passenger) (method : PaymentMethod)
    (now : Z) : Booking :=
  {| identifier := fresh (dom (bookings σ));
     scheduleRef := sid;
     seats := wantedSeats seatNumbers;
     passenger := who;
     totalAmount := seatPrice s * Z.of_nat (size (wantedSeats seatNumbers));
     paymentMethod := method;
     paymentStatus := Types.UNPAID;
     status := Types.PENDING;
     created := now |}.

End EngineVocabulary.

(* ===================================================================== *)
(** * Sample data *)
(* ===================================================================== *)

Definition formProps : BookingForm.BookingFormProps :=
  {| BookingForm.p_scheduleId := "schedule-1";
     BookingForm.p_origin := "Kigali";
     BookingForm.p_destination := "Musanze";
     BookingForm.p_departureTime := 1700100000000;
     BookingForm.p_arrivalTime := 1700110800000;
     BookingForm.price := 5000;
     BookingForm.p_operatorName := "Virunga Express";
     BookingForm.busName := "Bus 1";
     BookingForm.availableSeats := 20;
     BookingForm.passengers := 1 |}.

Definition formData (m : BookingForm.FormPaymentMethod)
  : BookingForm.BookingFormData :=
  {| BookingForm.name := "Alice Uwase";
     BookingForm.email := "alice@example.com";
     BookingForm.phone := "0781234567";
     BookingForm.agreeToTerms := true;
     BookingForm.formPaymentMethod := m |}.

(** Two submissions a minute apart whose random draws fall into the same
    six-digit number. *)
Definition clockA : BookingForm.Clock :=
  {| BookingForm.dateNow := 1700000000000;
     BookingForm.mathRandom := 1 # 4;
     BookingForm.newDate := 1700000000001 |}.

Definition clockB : BookingForm.Clock :=
  {| BookingForm.dateNow := 1700000060000;
     BookingForm.mathRandom := 2250001 # 9000000;
     BookingForm.newDate := 1700000060001 |}.

Definition bookingA : Types.Booking :=
  BookingForm.mockBooking formProps None
    (formData BookingForm.form_mobile_money) [1%nat] clockA.

Definition bookingB : Types.Booking :=
  BookingForm.mockBooking formProps None
    (formData BookingForm.form_mobile_money) [2%nat] clockB.

(** One passenger picks seat 1 and submits. *)
Definition seatPicked : BookingForm.FormState :=
  BookingForm.toggleSeatSelection formProps 1%nat BookingForm.initialState.

(** Two schedule forms: a trip of three and a half hours, and one whose
    arrival equals its departure. *)
Definition lateArrival : ScheduleManagement.ScheduleFormData :=
  {| ScheduleManagement.routeId := "route-1";
     ScheduleManagement.busId := "bus-1";
     ScheduleManagement.departureTime := "2025-03-01T08:00";
     ScheduleManagement.arrivalTime := "2025-03-01T11:30";
     ScheduleManagement.price := 5000 |}.

Definition sameInstant : ScheduleManagement.ScheduleFormData :=
  {| ScheduleManagement.routeId := "route-1";
     ScheduleManagement.busId := "bus-1";
     ScheduleManagement.departureTime := "2025-03-01T08:00";
     ScheduleManagement.arrivalTime := "2025-03-01T08:00";
     ScheduleManagement.price := 5000 |}.

(** The scenario of the specification: schedule 1 has two seats; A books
    seat 1, B is refused seats 1 and 2, then books seat 2. *)
Definition scheduleS1 : Engine.Schedule :=
  {| Engine.routeRef := "Kigali-Musanze";
     Engine.busRef := "bus-1";
     Engine.departure := 1700100000000;
     Engine.arrival := 1700110800000;
     Engine.seatPrice := 5000;
     Engine.totalSeats := 2;
     Engine.scheduleStatus := Engine.ACTIVE;
     Engine.held := ∅;
     Engine.booked := ∅ |}.

Definition scenarioStart : Engine.State :=
  {| Engine.schedules := {[ 1%nat := scheduleS1 ]};
     Engine.ledger := [];
     Engine.bookings := ∅ |}.

Definition scenarioSteps : list Engine.Step :=
  [ Engine.Open 1 [1%nat] (Engine.Registered "A") Engine.MobileMoney 1700000000000;
    Engine.Fire 0 Engine.PaymentConfirmed;
    Engine.Open 1 [1%nat; 2%nat] (Engine.Registered "B") Engine.Card 1700000001000;
    Engine.Open 1 [2%nat] (Engine.Registered "B") Engine.Card 1700000002000;
    Engine.Fire 1 Engine.PaymentConfirmed ].

Definition scenario : Engine.State := Engine.run scenarioStart scenarioSteps.

(** The scenario after A's booking alone. *)
Definition afterA : Engine.State :=
  Engine.run scenarioStart
    [ Engine.Open 1 [1%nat] (Engine.Registered "A") Engine.MobileMoney 1700000000000;
      Engine.Fire 0 Engine.PaymentConfirmed ].

Definition scheduleAfterA : Engine.Schedule :=
  Engine.withSeats scheduleS1 ∅ {[ 1%nat ]}.

(** A payment capability that declines every charge. *)
Definition alwaysDeclined : Engine.PaymentCapability :=
  λ _ _ _, Engine.Declined.

(** A's booking and schedule 1 at the end of the scenario. *)
Definition bookingOfA : Engine.Booking :=
  {| Engine.identifier := 0;
     Engine.scheduleRef := 1;
     Engine.seats := {[ 1%nat ]};
     Engine.passenger := Engine.Registered "A";
     Engine.totalAmount := 5000;
     Engine.paymentMethod := Engine.MobileMoney;
     Engine.paymentStatus := Types.PAID;
     Engine.status := Types.CONFIRMED;
     Engine.created := 1700000000000 |}.

Definition scheduleFull : Engine.Schedule :=
  Engine.withSeats scheduleS1 ∅ {[ 1%nat; 2%nat ]}.

(** A party of 41 for a coach of 40 seats. *)
Definition coachParty : BookingForm.BookingFormProps :=
  {| BookingForm.p_scheduleId := "schedule-1";
     BookingForm.p_origin := "Kigali";
     BookingForm.p_destination := "Musanze";
     BookingForm.p_departureTime := 1700100000000;
     BookingForm.p_arrivalTime := 1700110800000;
     BookingForm.price := 5000;
     BookingForm.p_operatorName := "Virunga Express";
     BookingForm.busName := "Bus 1";
     BookingForm.availableSeats := 40;
     BookingForm.passengers := 41 |}.

(** A timetable of one trip, and a second trip to add to it. *)
Definition morningTrip : ScheduleList.Schedule :=
  {| ScheduleList.id := "schedule-1";
     ScheduleList.routeId := "route-1";
     ScheduleList.route :=
       {| Types.origin := "Kigali"; Types.destination := "Musanze" |};
     ScheduleList.busId := "bus-1";
     ScheduleList.bus_name := "Bus 1";
     ScheduleList.bus_licensePlate := "RAB123";
     ScheduleList.departureTime := "2025-03-01T08:00:00.000Z";
     ScheduleList.arrivalTime := "2025-03-01T11:30:00.000Z";
     ScheduleList.price := 5000;
     ScheduleList.availableSeats := 12;
     ScheduleList.totalSeats := 40;
     ScheduleList.status := ScheduleList.ACTIVE |}.

Definition eveningTrip : ScheduleList.Schedule :=
  {| ScheduleList.id := "schedule-2";
     ScheduleList.routeId := "route-1";
     ScheduleList.route :=
       {| Types.origin := "Kigali"; Types.destination := "Musanze" |};
     ScheduleList.busId := "bus-1";
     ScheduleList.bus_name := "Bus 1";
     ScheduleList.bus_licensePlate := "RAB123";
     ScheduleList.departureTime := "2025-03-01T17:00:00.000Z";
     ScheduleList.arrivalTime := "2025-03-01T20:30:00.000Z";
     ScheduleList.price := 5000;
     ScheduleList.availableSeats := 40;
     ScheduleList.totalSeats := 40;
     ScheduleList.status := ScheduleList.ACTIVE |}.

Definition timetable : ScheduleList.State :=
  {| ScheduleList.schedules := [morningTrip];
     ScheduleList.selectedSchedule := None;
     ScheduleList.isModalOpen := false;
     ScheduleList.isDeleteModalOpen := false;
     ScheduleList.isLoading := false;
     ScheduleList.filter_ := ScheduleList.ALL |}.

(** A search result with twelve seats left. *)
Definition kigaliMusanze : BusSearchResults.SearchResult :=
  {| BusSearchResults.scheduleId := "schedule-1";
     BusSearchResults.routeId := "route-1";
     BusSearchResults.busId := "bus-1";
     BusSearchResults.operatorId := "operator-1";
     BusSearchResults.operatorName := "Virunga Express";
     BusSearchResults.origin := "Kigali";
     BusSearchResults.destination := "Musanze";
     BusSearchResults.departureTime := 1700100000000;
     BusSearchResults.arrivalTime := 1700110800000;
     BusSearchResults.duration := 180;
     BusSearchResults.price := 5000;
     BusSearchResults.availableSeats := 12;
     BusSearchResults.busName := "Bus 1";
     BusSearchResults.amenities := ["WiFi"%string];
     BusSearchResults.rating := 9 # 2 |}.

(* ===================================================================== *)
(** * Properties of the front end *)
(* ===================================================================== *)

(** ** Time windows of [UserTickets] *)

Lemma Qgtb_div_iff (d c k : Z) :
  0 < c →
  UserTickets.Qgtb (inject_Z d / inject_Z c) (inject_Z k) = true ↔ k * c < d.
Proof.
  intros Hc. unfold UserTickets.Qgtb.
  rewrite negb_true_iff, <- not_true_iff_false, Qle_bool_iff.
  destruct c as [|c|c]; try lia.
  unfold Qle, Qdiv, Qmult, Qinv, inject_Z; simpl. lia.
Qed.

Lemma Qle_bool_div_iff (d c k : Z) :
  0 < c →
  Qle_bool (inject_Z d / inject_Z c) (inject_Z k) = true ↔ d ≤ k * c.
Proof.
  intros Hc. rewrite Qle_bool_iff.
  destruct c as [|c|c]; try lia.
  unfold Qle, Qdiv, Qmult, Qinv, inject_Z; simpl. lia.
Qed.

(** [isCancellable] in integer milliseconds. *)
Lemma isCancellable_iff (now : Z) (b : Types.Booking) :
  UserTickets.isCancellable now b = true ↔
  Types.status b ≠ Types.CANCELLED ∧ Types.status b ≠ Types.COMPLETED ∧
  24 * 3600000 < Types.departureTime b - now.
Proof.
  unfold UserTickets.isCancellable, UserTickets.hoursDiff.
  rewrite !andb_true_iff, !bool_decide_eq_true.
  change (1000 * 60 * 60) with 3600000.
  rewrite Qgtb_div_iff by lia. tauto.
Qed.

(** Pressing the button on a booking that is in the list cancels it. *)
Lemma cancelUpdater_cancels bookingId (l : list Types.Booking) b :
  b ∈ UseBooking.cancelUpdater bookingId l →
  Types.id b = bookingId → Types.status b = Types.CANCELLED.
Proof.
  unfold UseBooking.cancelUpdater. intros Hin Hid.
  apply list_elem_of_fmap in Hin as (b0 & -> & _).
  unfold UseBooking.markCancelled in *. case_bool_decide; [done|].
  congruence.
Qed.

(** C4. For every booking and every instant, [isReviewable] holds exactly
    when the booking's status is COMPLETED and the time elapsed since
    arrival is at most 7 days (604800000 ms); an arrival exactly 7 days
    ago is eligible, one 7 days and 1 second ago is not. *)
Theorem isReviewable_window (now : Z) (b : Types.Booking) :
  (UserTickets.isReviewable now b = true ↔
     Types.status b = Types.COMPLETED ∧
     now - Types.arrivalTime b ≤ 7 * 24 * 60 * 60 * 1000) ∧
  (Types.status b = Types.COMPLETED →
     UserTickets.isReviewable (Types.arrivalTime b + 7 * 24 * 60 * 60 * 1000) b
       = true) ∧
  (UserTickets.isReviewable
     (Types.arrivalTime b + 7 * 24 * 60 * 60 * 1000 + 1000) b = false).
Proof.
  assert (Hiff : ∀ t, UserTickets.isReviewable t b = true ↔
                      Types.status b = Types.COMPLETED ∧
                      t - Types.arrivalTime b ≤ 604800000).
  { intros t. unfold UserTickets.isReviewable, UserTickets.daysDiff.
    rewrite andb_true_iff, bool_decide_eq_true.
    change (1000 * 60 * 60 * 24) with 86400000.
    rewrite Qle_bool_div_iff by lia. tauto. }
  change (7 * 24 * 60 * 60 * 1000) with 604800000.
  split; [apply Hiff|]. split.
  - intros Hst. apply Hiff. split; [done | lia].
  - apply not_true_iff_false. rewrite Hiff. lia.
Qed.

(** ** The list update of [cancelBooking] *)

Lemma sameButStatus_with_status b s :
  sameButStatus b (Types.with_status b s).
Proof. repeat split. Qed.

Lemma cancelUpdater_lookup bookingId (l : list Types.Booking) i :
  UseBooking.cancelUpdater bookingId l !! i
  = UseBooking.markCancelled bookingId <$> l !! i.
Proof. unfold UseBooking.cancelUpdater. apply list_lookup_fmap. Qed.

Lemma cancelUpdater_absent bookingId (l : list Types.Booking) :
  (∀ b, b ∈ l → Types.id b ≠ bookingId) →
  UseBooking.cancelUpdater bookingId l = l.
Proof.
  induction l as [|b l IH]; intros Hl; [done|].
  unfold UseBooking.cancelUpdater in *. cbn [map]. f_equal.
  - unfold UseBooking.markCancelled. rewrite bool_decide_eq_false_2; [done|].
    apply Hl. left.
  - apply IH. intros b' Hb'. apply Hl. by right.
Qed.

(** C10. On success, [cancelBooking] of the hook and
    [handleCancelBooking] of the dashboard page both replace the list by
    the same update of it. The update keeps the list's length and order;
    at every position the booking is unchanged when its id differs from
    [bookingId], and otherwise becomes CANCELLED with every other field
    unchanged; if no booking has that id the list is unchanged. *)
Theorem cancelBooking_frame (bookingId : string) (prev : list Types.Booking) :
  (∀ st,
     UseBooking.bookings (UseBooking.cancelBooking UseBooking.Resolved bookingId st).1
     = UseBooking.cancelUpdater bookingId (UseBooking.bookings st)) ∧
  (∀ st,
     UserDashboardPage.bookings
       (UserDashboardPage.handleCancelBooking UseBooking.Resolved bookingId st).1
     = UseBooking.cancelUpdater bookingId (UserDashboardPage.bookings st)) ∧
  length (UseBooking.cancelUpdater bookingId prev) = length prev ∧
  (∀ i b, prev !! i = Some b →
     ∃ b', UseBooking.cancelUpdater bookingId prev !! i = Some b' ∧
           sameButStatus b b' ∧
           (Types.id b = bookingId → Types.status b' = Types.CANCELLED) ∧
           (Types.id b ≠ bookingId → b' = b)) ∧
  ((∀ b, b ∈ prev → Types.id b ≠ bookingId) →
     UseBooking.cancelUpdater bookingId prev = prev).
Proof.
  split; [done|]. split; [done|]. split; [|split].
  - unfold UseBooking.cancelUpdater. by rewrite length_map.
  - intros i b Hi. exists (UseBooking.markCancelled bookingId b).
    rewrite cancelUpdater_lookup, Hi. split; [done|].
    unfold UseBooking.markCancelled. case_bool_decide as Hid.
    + split; [apply sameButStatus_with_status|]. split; [done|]. tauto.
    + split; [repeat split|]. split; [tauto | done].
  - apply cancelUpdater_absent.
Qed.

(** ** The booking form *)

Section BookingFormFacts.
Import BookingForm.

Variable props : BookingFormProps.

Lemma toggleSeatSelection_seats seatNumber st :
  selectedSeats (toggleSeatSelection props seatNumber st)
  = if bool_decide (seatNumber ∈ selectedSeats st)
    then filter (λ seat, seat ≠ seatNumber) (selectedSeats st)
    else if fewerThanPassengers props (selectedSeats st)
         then selectedSeats st ++ [seatNumber]
         else selectedSeats st.
Proof.
  unfold toggleSeatSelection.
  repeat case_match; reflexivity.
Qed.

Lemma onSubmit_seats user_id response clk data st :
  selectedSeats (onSubmit props user_id response clk data st).1
  = selectedSeats st.
Proof. unfold onSubmit. by repeat case_match. Qed.

(** The form never has a seat selected twice. *)
Lemma reachable_NoDup st : reachable props st → NoDup (selectedSeats st).
Proof.
  induction 1 as [|st n _ IH|st ? ? ? ? _ IH]; [constructor| |].
  - rewrite toggleSeatSelection_seats.
    case_bool_decide as Hin.
    + by apply NoDup_filter.
    + case_match; [|done].
      apply NoDup_app. split; [done|]. split; [|apply NoDup_singleton].
      intros x Hx Hx'. apply list_elem_of_singleton in Hx' as ->. done.
  - by rewrite onSubmit_seats.
Qed.

(** The form never has more seats selected than there are passengers. *)
Lemma reachable_at_most_passengers st :
  0 ≤ passengers props →
  reachable props st →
  Z.of_nat (length (selectedSeats st)) ≤ passengers props.
Proof.
  intros Hp.
  induction 1 as [|st n _ IH|st ? ? ? ? _ IH]; [simpl; lia| |].
  - rewrite toggleSeatSelection_seats.
    case_bool_decide as Hin.
    + pose proof (length_filter (λ seat, seat ≠ n) (selectedSeats st)). lia.
    + unfold fewerThanPassengers. case_bool_decide as Hlt; [|done].
      rewrite length_app. simpl. lia.
  - by rewrite onSubmit_seats.
Qed.

(** The seat map's unavailable seats are [40 - availableSeats] numbers
    between 1 and 40, whatever [Math.random] returns; nothing ties them
    to the seats of any booking. *)
Lemma unavailableSeats_range (draws : nat → Q) :
  (∀ i, (0 <= draws i)%Q ∧ (draws i < 1)%Q) →
  length (unavailableSeats props draws)
    = Z.to_nat (totalBusSeats - availableSeats props) ∧
  ∀ seat, seat ∈ unavailableSeats props draws → 1 ≤ seat ≤ 40.
Proof.
  intros Hdraws. unfold unavailableSeats. split.
  - by rewrite length_map, length_seq.
  - intros seat Hin. apply list_elem_of_fmap in Hin as (i & -> & _).
    destruct (Hdraws i) as [H0 H1]. unfold randomSeat, totalBusSeats. split.
    + cut (0 ≤ Qfloor (draws i * inject_Z 40)); [lia|].
      rewrite <- (Qfloor_Z 0). apply Qfloor_resp_le.
      apply Qmult_le_0_compat; [done | by compute].
    + cut (Qfloor (draws i * inject_Z 40) < 40); [lia|].
      rewrite Zlt_Qlt. eapply Qle_lt_trans; [apply Qfloor_le|].
      rewrite <- (Qmult_1_l (inject_Z 40)) at 2.
      apply Qmult_lt_r; [reflexivity | done].
Qed.

(** What [onSubmit] hands to [onBookingComplete] when the API resolved
    without data: the mock booking over the selected seats, and only when
    no fewer seats than passengers are selected. *)
Lemma onSubmit_mock user_id clk data st st' b :
  onSubmit props user_id (ApiResolved None) clk data st = (st', Some b) →
  b = mockBooking props user_id data (selectedSeats st) clk ∧
  passengers props ≤ Z.of_nat (length (selectedSeats st)).
Proof.
  unfold onSubmit, fewerThanPassengers. cbn [setIsSubmitting selectedSeats].
  case_bool_decide as Hlt; intros [= _ <-]; [done..|]. split; [done | lia].
Qed.

End BookingFormFacts.

(** C6. Every booking the form builds on a successful submission has
    status CONFIRMED; its payment status is PAID for mobile money and for
    card, and UNPAID for pay-later. *)
Theorem onSubmit_status_by_payment_method
    (props : BookingForm.BookingFormProps) (user_id : option string)
    (clk : BookingForm.Clock) (data : BookingForm.BookingFormData)
    (st st' : BookingForm.FormState) (b : Types.Booking) :
  BookingForm.onSubmit props user_id (BookingForm.ApiResolved None) clk data st
    = (st', Some b) →
  Types.status b = Types.CONFIRMED ∧
  Types.paymentStatus b
    = match BookingForm.formPaymentMethod data with
      | BookingForm.form_mobile_money => Types.PAID
      | BookingForm.form_card => Types.PAID
      | BookingForm.form_pay_later => Types.UNPAID
      end ∧
  Types.paymentMethod b
    = match BookingForm.formPaymentMethod data with
      | BookingForm.form_mobile_money => Types.mobile_money
      | BookingForm.form_card => Types.credit_card
      | BookingForm.form_pay_later => Types.pay_later
      end.
Proof.
  intros Hsub. apply onSubmit_mock in Hsub as [-> _].
  cbn [BookingForm.mockBooking Types.status Types.paymentStatus Types.paymentMethod].
  by destruct (BookingForm.formPaymentMethod data).
Qed.

(** For a passenger count that is not negative (the search form
    validates a whole number from 1 to 10) and a form state brought
    about by clicking seats and earlier submissions, the booking built
    on a successful submission carries the selected seats, no seat
    twice, and its total amount is the seat price times the number of
    seats in its seat set. *)
Lemma onSubmit_totalAmount
    (props : BookingForm.BookingFormProps) (user_id : option string)
    (clk : BookingForm.Clock) (data : BookingForm.BookingFormData)
    (st st' : BookingForm.FormState) (b : Types.Booking) :
  0 ≤ BookingForm.passengers props →
  BookingForm.reachable props st →
  BookingForm.onSubmit props user_id (BookingForm.ApiResolved None) clk data st
    = (st', Some b) →
  Types.seatNumbers b = BookingForm.selectedSeats st ∧
  NoDup (Types.seatNumbers b) ∧
  Types.totalAmount b
    = BookingForm.price props
      * Z.of_nat (size (list_to_set (Types.seatNumbers b) : gset nat)).
Proof.
  intros Hp Hreach Hsub. apply onSubmit_mock in Hsub as [-> Hge].
  cbn [BookingForm.mockBooking Types.seatNumbers Types.totalAmount].
  pose proof (reachable_NoDup props st Hreach) as Hnd.
  pose proof (reachable_at_most_passengers props st Hp Hreach) as Hle.
  split; [done|]. split; [done|].
  rewrite size_list_to_set by done.
  unfold BookingForm.totalPrice. f_equal. lia.
Qed.

(** ** Booking numbers *)

Lemma pretty_N_char_alphanumeric x : isAlphanumeric (pretty_N_char x) = true.
Proof. unfold pretty_N_char. by repeat case_match. Qed.

Lemma pretty_N_go_alphanumeric x s :
  alphanumeric s = true → alphanumeric (pretty_N_go x s) = true.
Proof.
  revert s. induction (N.lt_wf_0 x) as [x _ IH]; intros s Hs.
  destruct (decide (x = 0)%N) as [->|Hx]; [by rewrite pretty_N_go_0|].
  rewrite pretty_N_go_step by lia. apply IH.
  - apply N.div_lt; lia.
  - simpl. by rewrite pretty_N_char_alphanumeric.
Qed.

(** A number with [k + 1] decimal digits prints as [k + 1] characters. *)
Lemma pretty_N_go_length (k : nat) : ∀ x s,
  (10 ^ N.of_nat k ≤ x < 10 ^ N.of_nat (S k))%N →
  String.length (pretty_N_go x s) = (S k + String.length s)%nat.
Proof.
  induction k as [|k IH]; intros x s [Hlo Hhi].
  - change (10 ^ N.of_nat 0)%N with 1%N in Hlo.
    change (10 ^ N.of_nat 1)%N with 10%N in Hhi.
    rewrite pretty_N_go_step by lia.
    rewrite N.div_small by lia. by rewrite pretty_N_go_0.
  - rewrite Nat2N.inj_succ, N.pow_succ_r' in Hlo.
    rewrite (Nat2N.inj_succ (S k)), N.pow_succ_r' in Hhi.
    assert (0 < 10 ^ N.of_nat k)%N.
    { apply N.neq_0_lt_0, N.pow_nonzero. lia. }
    rewrite pretty_N_go_step by lia.
    rewrite IH; [simpl; lia|]. split.
    + apply N.div_le_lower_bound; lia.
    + apply N.Div0.div_lt_upper_bound; lia.
Qed.

Lemma pretty_six_digits (n : Z) :
  100000 ≤ n ≤ 999999 →
  String.length (pretty n) = 6%nat ∧ alphanumeric (pretty n) = true.
Proof.
  intros Hn. destruct n as [|p|p]; try lia.
  change (pretty (Z.pos p)) with (pretty (N.pos p)).
  unfold pretty, pretty_N. rewrite decide_False by done. split.
  - rewrite (pretty_N_go_length 5); [done|].
    change (10 ^ N.of_nat 5)%N with 100000%N.
    change (10 ^ N.of_nat 6)%N with 1000000%N. lia.
  - by apply pretty_N_go_alphanumeric.
Qed.

(** [Math.random()] lies in [0, 1), so the number drawn has six digits. *)
Lemma bookingNumberDigits_range (r : Q) :
  (0 <= r)%Q → (r < 1)%Q →
  100000 ≤ BookingForm.bookingNumberDigits r ≤ 999999.
Proof.
  intros H0 H1. unfold BookingForm.bookingNumberDigits. split.
  - rewrite <- (Qfloor_Z 100000) at 1. apply Qfloor_resp_le.
    rewrite <- (Qplus_0_r (inject_Z 100000)) at 1.
    apply Qplus_le_r. apply Qmult_le_0_compat; [done|]. by compute.
  - cut (Qfloor (inject_Z 100000 + r * inject_Z 900000) < 1000000); [lia|].
    rewrite Zlt_Qlt.
    eapply Qle_lt_trans; [apply Qfloor_le|].
    change (inject_Z 1000000) with (inject_Z (100000 + 900000)).
    rewrite inject_Z_plus. apply Qplus_lt_r.
    rewrite <- (Qmult_1_l (inject_Z 900000)) at 2.
    apply Qmult_lt_r; [reflexivity | done].
Qed.

(** C9, as stated, fails: two distinct bookings (different identifiers,
    different seats, different random draws) carry the same booking
    number. *)
Lemma bookingNumber_collision :
  Types.id bookingA ≠ Types.id bookingB ∧
  BookingForm.mathRandom clockA ≠ BookingForm.mathRandom clockB ∧
  Types.bookingNumber bookingA = "BK325000" ∧
  Types.bookingNumber bookingB = "BK325000".
Proof. vm_compute. repeat split; discriminate. Qed.

(** C9, amended. Every booking the form builds carries a booking number
    made of the letters BK and six decimal digits (eight alphanumeric
    characters), different from its internal identifier; two bookings
    have the same booking number exactly when their random draws yield
    the same six-digit number. *)
Theorem bookingNumber_format
    (props : BookingForm.BookingFormProps) (user_id : option string)
    (data : BookingForm.BookingFormData) (seats : list nat)
    (clk : BookingForm.Clock) :
  (0 <= BookingForm.mathRandom clk)%Q →
  (BookingForm.mathRandom clk < 1)%Q →
  (∃ n, 100000 ≤ n ≤ 999999 ∧
        Types.bookingNumber (BookingForm.mockBooking props user_id data seats clk)
          = "BK" +:+ pretty n) ∧
  String.length
    (Types.bookingNumber (BookingForm.mockBooking props user_id data seats clk))
    = 8%nat ∧
  alphanumeric
    (Types.bookingNumber (BookingForm.mockBooking props user_id data seats clk))
    = true ∧
  Types.bookingNumber (BookingForm.mockBooking props user_id data seats clk)
    ≠ Types.id (BookingForm.mockBooking props user_id data seats clk) ∧
  (∀ props' user_id' data' seats' clk',
     Types.bookingNumber (BookingForm.mockBooking props' user_id' data' seats' clk')
       = Types.bookingNumber (BookingForm.mockBooking props user_id data seats clk)
     ↔ BookingForm.bookingNumberDigits (BookingForm.mathRandom clk')
       = BookingForm.bookingNumberDigits (BookingForm.mathRandom clk)).
Proof.
  intros H0 H1.
  pose proof (bookingNumberDigits_range _ H0 H1) as Hrange.
  destruct (pretty_six_digits _ Hrange) as [Hlen Halnum].
  cbn [BookingForm.mockBooking Types.bookingNumber Types.id].
  split; [eauto|].
  set (digits := pretty (BookingForm.bookingNumberDigits (BookingForm.mathRandom clk)))
    in *.
  assert (Happ : ∀ s, "BK" +:+ s = String "B" (String "K" s)) by done.
  split; [by rewrite Happ; cbn [String.length]; rewrite Hlen|].
  split; [by rewrite Happ; cbn [alphanumeric]; rewrite Halnum|].
  split; [by rewrite Happ; intros [=]|].
  intros _ _ _ _ clk'. subst digits. split.
  - intros Heq. apply (inj (String.append "BK")) in Heq.
    by apply (inj pretty) in Heq.
  - by intros ->.
Qed.

Lemma bookingNumber_format_witness :
  String.length (Types.bookingNumber bookingA) = 8%nat ∧
  alphanumeric (Types.bookingNumber bookingA) = true ∧
  Types.bookingNumber bookingA ≠ Types.id bookingA.
Proof.
  destruct (bookingNumber_format formProps None
              (formData BookingForm.form_mobile_money) [1%nat] clockA)
    as (_ & Hlen & Halnum & Hid & _).
  - by compute.
  - by compute.
  - exact (conj Hlen (conj Halnum Hid)).
Defined.

Lemma seatPicked_reachable : BookingForm.reachable formProps seatPicked.
Proof. apply BookingForm.reachable_toggle, BookingForm.reachable_init. Qed.

Lemma seatPicked_submitted :
  (BookingForm.onSubmit formProps None (BookingForm.ApiResolved None) clockA
     (formData BookingForm.form_mobile_money) seatPicked).2
  = Some bookingA.
Proof. reflexivity. Qed.

Lemma onSubmit_status_by_payment_method_witness :
  Types.status bookingA = Types.CONFIRMED ∧
  Types.paymentStatus bookingA = Types.PAID ∧
  Types.paymentMethod bookingA = Types.mobile_money.
Proof.
  apply (onSubmit_status_by_payment_method formProps None clockA
           (formData BookingForm.form_mobile_money) seatPicked
           (BookingForm.onSubmit formProps None (BookingForm.ApiResolved None)
              clockA (formData BookingForm.form_mobile_money) seatPicked).1
           bookingA).
  reflexivity.
Defined.

Lemma onSubmit_totalAmount_witness :
  Types.seatNumbers bookingA = [1%nat] ∧
  NoDup (Types.seatNumbers bookingA) ∧
  Types.totalAmount bookingA
    = 5000 * Z.of_nat (size (list_to_set (Types.seatNumbers bookingA) : gset nat)).
Proof.
  apply (onSubmit_totalAmount formProps None clockA
           (formData BookingForm.form_mobile_money) seatPicked
           (BookingForm.onSubmit formProps None (BookingForm.ApiResolved None)
              clockA (formData BookingForm.form_mobile_money) seatPicked).1
           bookingA).
  - simpl. lia.
  - apply seatPicked_reachable.
  - reflexivity.
Defined.

(** ** The schedule form *)

Section ScheduleFormFacts.
Import ScheduleManagement.

Variable parseDate : string → option Z.

Lemma dateGt_Some a b :
  dateGt a b = true ↔ ∃ x y, a = Some x ∧ b = Some y ∧ y < x.
Proof.
  destruct a as [x|], b as [y|]; simpl; rewrite ?bool_decide_eq_true.
  - split; [eauto 6 | by intros (? & ? & [= <-] & [= <-] & ?)].
  - split; [done | by intros (? & ? & _ & [=] & _)].
  - split; [done | by intros (? & ? & [=] & _)].
  - split; [done | by intros (? & ? & [=] & _)].
Qed.

Lemma accepts_refinement data :
  accepts parseDate data = true → arrivalAfterDeparture parseDate data = true.
Proof.
  unfold accepts, scheduleFormSchema. rewrite bool_decide_eq_true.
  intros Hnil.
  repeat (apply app_eq_nil in Hnil as [_ Hnil]).
  by destruct (arrivalAfterDeparture parseDate data).
Qed.

Lemma refinement_issue data :
  arrivalAfterDeparture parseDate data = false →
  {| path := ["arrivalTime"];
     message := "Arrival time must be after departure time" |}
    ∈ scheduleFormSchema parseDate data.
Proof.
  intros Hre. unfold scheduleFormSchema. rewrite Hre.
  rewrite !elem_of_app. do 5 right. apply list_elem_of_singleton. done.
Qed.

End ScheduleFormFacts.

(** C8. Whatever the date parser, form data the schedule schema accepts
    has a valid departure and a valid arrival with the arrival strictly
    later; data whose arrival is not strictly after its departure (or
    whose dates are invalid) is rejected with the issue "Arrival time
    must be after departure time" and sends no request; and every create
    or update request the form sends has arrival > departure. *)
Theorem scheduleFormSchema_arrival_after_departure
    (parseDate : string → option Z)
    (data : ScheduleManagement.ScheduleFormData) :
  (ScheduleManagement.accepts parseDate data = true →
     ∃ dep arr,
       parseDate (ScheduleManagement.departureTime data) = Some dep ∧
       parseDate (ScheduleManagement.arrivalTime data) = Some arr ∧
       dep < arr) ∧
  (ScheduleManagement.arrivalAfterDeparture parseDate data = false →
     {| ScheduleManagement.path := ["arrivalTime"];
        ScheduleManagement.message := "Arrival time must be after departure time" |}
       ∈ ScheduleManagement.scheduleFormSchema parseDate data ∧
     ScheduleManagement.accepts parseDate data = false ∧
     ∀ sel, ScheduleManagement.handleSubmit parseDate sel data = None) ∧
  (∀ sel request,
     ScheduleManagement.handleSubmit parseDate sel data = Some request →
     parseDate (ScheduleManagement.departureTime data)
       = Some (ScheduleManagement.requestDeparture request) ∧
     parseDate (ScheduleManagement.arrivalTime data)
       = Some (ScheduleManagement.requestArrival request) ∧
     ScheduleManagement.requestDeparture request
       < ScheduleManagement.requestArrival request).
Proof.
  assert (Hacc : ScheduleManagement.accepts parseDate data = true →
     ∃ dep arr,
       parseDate (ScheduleManagement.departureTime data) = Some dep ∧
       parseDate (ScheduleManagement.arrivalTime data) = Some arr ∧
       dep < arr).
  { intros Hok. apply accepts_refinement in Hok.
    unfold ScheduleManagement.arrivalAfterDeparture in Hok.
    apply dateGt_Some in Hok as (arr & dep & ? & ? & ?). eauto. }
  split; [exact Hacc|]. split.
  - intros Hre.
    assert (ScheduleManagement.accepts parseDate data = false) as Hrej.
    { apply not_true_iff_false. intros Hok.
      apply accepts_refinement in Hok. congruence. }
    split; [by apply refinement_issue|]. split; [done|].
    intros sel. unfold ScheduleManagement.handleSubmit. by rewrite Hrej.
  - intros sel request. unfold ScheduleManagement.handleSubmit.
    destruct (ScheduleManagement.accepts parseDate data) eqn:Hok; [|done].
    destruct (Hacc eq_refl) as (dep & arr & Hd & Ha & Hlt).
    unfold ScheduleManagement.onSubmit. rewrite Hd, Ha.
    intros [= <-]. by destruct sel.
Qed.

(** The schema on two concrete forms, for any date parser that reads
    their two strings as the instants given: one form is accepted and
    sent, the other (arrival equal to departure) is rejected. *)
Lemma scheduleFormSchema_examples (parseDate : string → option Z) :
  parseDate "2025-03-01T08:00" = Some 1740816000000 →
  parseDate "2025-03-01T11:30" = Some 1740828600000 →
  ScheduleManagement.handleSubmit parseDate
    ScheduleManagement.NoSelection lateArrival
  = Some (ScheduleManagement.Post "route-1" "bus-1"
            1740816000000 1740828600000 5000) ∧
  ScheduleManagement.scheduleFormSchema parseDate sameInstant
  = [ {| ScheduleManagement.path := ["arrivalTime"];
         ScheduleManagement.message :=
           "Arrival time must be after departure time" |} ].
Proof.
  intros Hdep Harr.
  unfold ScheduleManagement.handleSubmit, ScheduleManagement.accepts,
    ScheduleManagement.onSubmit, ScheduleManagement.scheduleFormSchema,
    ScheduleManagement.arrivalAfterDeparture.
  cbn [lateArrival sameInstant ScheduleManagement.departureTime
       ScheduleManagement.arrivalTime ScheduleManagement.routeId
       ScheduleManagement.busId ScheduleManagement.price].
  rewrite Hdep, Harr. by vm_compute.
Qed.

(* ===================================================================== *)
(** * Properties of the booking engine *)
(* ===================================================================== *)

Section EngineFacts.
Import Engine.

(** ** Seat states *)

Lemma seatState_FREE s n :
  seatState s n = FREE ↔ (n ∉ held s) ∧ (n ∉ booked s).
Proof. unfold seatState. repeat case_decide; split; try done; tauto. Qed.

Lemma seatState_HELD s n :
  seatState s n = HELD ↔ (n ∈ held s) ∧ (n ∉ booked s).
Proof. unfold seatState. repeat case_decide; split; try done; tauto. Qed.

Lemma seatState_BOOKED s n : seatState s n = BOOKED ↔ n ∈ booked s.
Proof. unfold seatState. repeat case_decide; split; try done; tauto. Qed.

Lemma unavailable_spec s wanted n :
  n ∈ unavailable s wanted ↔ n ∈ wanted ∧ seatState s n ≠ FREE.
Proof. unfold unavailable. rewrite elem_of_filter. tauto. Qed.

Lemma unavailable_empty s wanted :
  unavailable s wanted = ∅ ↔ ∀ n, n ∈ wanted → seatState s n = FREE.
Proof.
  split.
  - intros Hempty n Hn. destruct (decide (seatState s n = FREE)) as [|Hne]; [done|].
    assert (n ∈ unavailable s wanted) as Hin by by apply unavailable_spec.
    rewrite Hempty in Hin. set_solver.
  - intros Hfree. apply set_eq. intros n. rewrite unavailable_spec.
    split; [|set_solver]. intros [Hn Hne]. destruct Hne. by apply Hfree.
Qed.

Lemma all_free_disjoint s wanted :
  (∀ n, n ∈ wanted → seatState s n = FREE) ↔ wanted ## held s ∪ booked s.
Proof.
  split.
  - intros Hfree n Hn Hocc. apply Hfree, seatState_FREE in Hn.
    apply elem_of_union in Hocc. tauto.
  - intros Hdisj n Hn. apply seatState_FREE.
    split; intros Hocc; apply (Hdisj n Hn); apply elem_of_union; tauto.
Qed.

(** ** The consistency invariant *)

Lemma consistent_ext σ σ' :
  schedules σ' = schedules σ → bookings σ' = bookings σ →
  consistent σ → consistent σ'.
Proof.
  intros Hs Hb [H1 H2 H3]. split; rewrite ?Hs, ?Hb; done.
Qed.

Lemma consistent_initial σ : initial σ → consistent σ.
Proof.
  intros (Hb & _ & Hfree). split.
  - rewrite Hb. intros *. by rewrite lookup_empty.
  - rewrite Hb. intros *. by rewrite !lookup_empty.
  - intros sid s seat Hs Hocc. destruct (Hfree sid s Hs) as [Hh Hk].
    rewrite Hh, Hk in Hocc.
    apply elem_of_union in Hocc as [Hocc|Hocc]; by apply not_elem_of_empty in Hocc.
Qed.

(** The seats of a booking that is not cancelled are occupied. *)
Lemma consistent_occupied σ bid b s :
  consistent σ → bookings σ !! bid = Some b → status b ≠ Types.CANCELLED →
  schedules σ !! scheduleRef b = Some s →
  seats b ⊆ held s ∪ booked s.
Proof.
  intros Hc Hb Hst Hs.
  destruct (claims_seats σ Hc bid b Hb Hst) as (s' & Hs' & Hp & Hnp).
  assert (s' = s) as -> by congruence.
  destruct (decide (status b = Types.PENDING)); set_solver.
Qed.

Lemma withSeats_held s h b : held (withSeats s h b) = h.
Proof. done. Qed.
Lemma withSeats_booked s h b : booked (withSeats s h b) = b.
Proof. done. Qed.

(** Releasing the seats of a booking while cancelling or dropping it. *)
Lemma consistent_release σ σ' bid b s (after : option Booking) :
  consistent σ →
  bookings σ !! bid = Some b →
  status b ≠ Types.CANCELLED →
  schedules σ !! scheduleRef b = Some s →
  schedules σ' = <[scheduleRef b := withSeats s (held s ∖ seats b) (booked s ∖ seats b)]>
                   (schedules σ) →
  bookings σ' = match after with
                | Some b' => <[bid := b']> (bookings σ)
                | None => delete bid (bookings σ)
                end →
  (∀ b', after = Some b' → status b' = Types.CANCELLED) →
  consistent σ'.
Proof.
  intros Hc Hb Hlive Hs Hs' Hb' Hafter.
  assert (Hother : ∀ bid2 b2, bookings σ' !! bid2 = Some b2 →
            status b2 ≠ Types.CANCELLED → bid2 ≠ bid ∧ bookings σ !! bid2 = Some b2).
  { intros bid2 b2. rewrite Hb'. destruct after as [b'|].
    - rewrite lookup_insert. case_decide as Heq.
      + intros [= <-] Hst. destruct Hst. by apply Hafter.
      + intros ? _. split; [congruence | done].
    - rewrite lookup_delete. case_decide as Heq; [done|].
      intros ? _. split; [congruence | done]. }
  split.
  - intros bid2 b2 Hb2 Hst2.
    destruct (Hother _ _ Hb2 Hst2) as [Hne Hold].
    destruct (claims_seats σ Hc bid2 b2 Hold Hst2) as (s2 & Hs2 & Hp & Hnp).
    rewrite Hs'. destruct (decide (scheduleRef b = scheduleRef b2)) as [Heq|Hneq].
    + rewrite <- Heq, lookup_insert_eq. eexists; split; [done|].
      assert (s2 = s) as -> by congruence.
      pose proof (claims_disjoint σ Hc bid2 bid b2 b Hne Hold Hb (eq_sym Heq) Hst2 Hlive)
        as Hdisj.
      rewrite withSeats_held, withSeats_booked. clear -Hdisj Hp Hnp. set_solver.
    + rewrite lookup_insert_ne by done. eauto.
  - intros bid1 bid2 b1 b2 Hne Hb1 Hb2 Href Hst1 Hst2.
    destruct (Hother _ _ Hb1 Hst1) as [_ Hold1].
    destruct (Hother _ _ Hb2 Hst2) as [_ Hold2].
    by apply (claims_disjoint σ Hc bid1 bid2).
  - intros sid s1 seat Hs1 Hocc. rewrite Hs' in Hs1.
    assert (∃ s0, schedules σ !! sid = Some s0 ∧ seat ∈ held s0 ∪ booked s0 ∧
                  (scheduleRef b = sid → seat ∉ seats b)) as (s0 & Hs0 & Hocc0 & Hnot).
    { destruct (decide (scheduleRef b = sid)) as [<-|Hneq].
      - rewrite lookup_insert_eq in Hs1. injection Hs1 as <-.
        rewrite withSeats_held, withSeats_booked in Hocc.
        exists s. split; [done|].
        rewrite elem_of_union, !elem_of_difference in Hocc.
        rewrite elem_of_union. tauto.
      - rewrite lookup_insert_ne in Hs1 by done.
        exists s1. split; [done|]. split; [done|]. by intros ?. }
    destruct (claims_cover σ Hc sid s0 seat Hs0 Hocc0)
      as (bid2 & b2 & Hb2 & Hr2 & Hst2 & Hin2).
    assert (bid ≠ bid2) as Hne.
    { intros <-. rewrite Hb in Hb2. injection Hb2 as <-. by apply Hnot. }
    exists bid2, b2. split; [|done]. rewrite Hb'.
    destruct after; [by rewrite lookup_insert_ne | by rewrite lookup_delete_ne].
Qed.

(** Committing the seats of a PENDING booking while confirming it. *)
Lemma consistent_commit σ σ' bid b b' s :
  consistent σ →
  bookings σ !! bid = Some b →
  status b = Types.PENDING →
  schedules σ !! scheduleRef b = Some s →
  schedules σ' = <[scheduleRef b := withSeats s (held s ∖ seats b) (booked s ∪ seats b)]>
                   (schedules σ) →
  bookings σ' = <[bid := b']> (bookings σ) →
  scheduleRef b' = scheduleRef b → seats b' = seats b →
  status b' ≠ Types.PENDING → status b' ≠ Types.CANCELLED →
  consistent σ'.
Proof.
  intros Hc Hb Hpend Hs Hs' Hb' Href Hseats Hst' Hlive'.
  assert (Hlive : status b ≠ Types.CANCELLED) by (by rewrite Hpend).
  assert (Hother : ∀ bid2 b2, bookings σ' !! bid2 = Some b2 →
            (bid2 = bid ∧ b2 = b') ∨ (bid2 ≠ bid ∧ bookings σ !! bid2 = Some b2)).
  { intros bid2 b2. rewrite Hb', lookup_insert. case_decide as Heq.
    - intros [= <-]. by left.
    - intros ?. right. split; [congruence | done]. }
  split.
  - intros bid2 b2 Hb2 Hst2. rewrite Hs'.
    destruct (Hother _ _ Hb2) as [[-> ->]|[Hne Hold]].
    + rewrite Href, lookup_insert_eq. eexists; split; [done|].
      rewrite withSeats_held, withSeats_booked, Hseats.
      split; [done|]. intros _. apply union_subseteq_r.
    + destruct (claims_seats σ Hc bid2 b2 Hold Hst2) as (s2 & Hs2 & Hp & Hnp).
      destruct (decide (scheduleRef b = scheduleRef b2)) as [Heq|Hneq].
      * rewrite <- Heq, lookup_insert_eq. eexists; split; [done|].
        assert (s2 = s) as -> by congruence.
        pose proof (claims_disjoint σ Hc bid2 bid b2 b Hne Hold Hb (eq_sym Heq) Hst2 Hlive)
        as Hdisj.
        rewrite withSeats_held, withSeats_booked. clear -Hdisj Hp Hnp. set_solver.
      * rewrite lookup_insert_ne by done. eauto.
  - intros bid1 bid2 b1 b2 Hne Hb1 Hb2 Hr Hst1 Hst2.
    destruct (Hother _ _ Hb1) as [[-> ->]|[Hne1 Hold1]];
      destruct (Hother _ _ Hb2) as [[-> ->]|[Hne2 Hold2]]; try done.
    + rewrite Hseats. rewrite Href in Hr.
      by apply (claims_disjoint σ Hc bid bid2 b b2).
    + rewrite Hseats. rewrite Href in Hr.
      by apply (claims_disjoint σ Hc bid1 bid b1 b).
    + by apply (claims_disjoint σ Hc bid1 bid2).
  - intros sid s1 seat Hs1 Hocc. rewrite Hs' in Hs1.
    destruct (decide (scheduleRef b = sid ∧ seat ∈ seats b)) as [[Hr Hin]|Hnot].
    { exists bid, b'. rewrite Hb', lookup_insert_eq, Href, Hseats. done. }
    assert (∃ s0, schedules σ !! sid = Some s0 ∧ seat ∈ held s0 ∪ booked s0)
      as (s0 & Hs0 & Hocc0).
    { destruct (decide (scheduleRef b = sid)) as [<-|Hneq].
      - rewrite lookup_insert_eq in Hs1. injection Hs1 as <-.
        rewrite withSeats_held, withSeats_booked in Hocc.
        exists s. split; [done|].
        assert (seat ∉ seats b) by tauto.
        rewrite !elem_of_union, elem_of_difference in Hocc.
        rewrite elem_of_union. tauto.
      - rewrite lookup_insert_ne in Hs1 by done. eauto. }
    destruct (claims_cover σ Hc sid s0 seat Hs0 Hocc0)
      as (bid2 & b2 & Hb2 & Hr2 & Hst2 & Hin2).
    assert (bid ≠ bid2) as Hne.
    { intros <-. rewrite Hb in Hb2. injection Hb2 as <-. tauto. }
    exists bid2, b2. split; [|done]. by rewrite Hb', lookup_insert_ne.
Qed.

(** Changing a booking without touching seats: same schedule, same
    seats, and the PENDING or not-PENDING side is kept. *)
Lemma consistent_restatus σ σ' bid b b' :
  consistent σ →
  bookings σ !! bid = Some b →
  status b ≠ Types.CANCELLED →
  schedules σ' = schedules σ →
  bookings σ' = <[bid := b']> (bookings σ) →
  scheduleRef b' = scheduleRef b → seats b' = seats b →
  status b ≠ Types.PENDING → status b' ≠ Types.PENDING →
  status b' ≠ Types.CANCELLED →
  consistent σ'.
Proof.
  intros Hc Hb Hlive Hs' Hb' Href Hseats Hst Hst' Hlive'.
  assert (Hother : ∀ bid2 b2, bookings σ' !! bid2 = Some b2 →
            (bid2 = bid ∧ b2 = b') ∨ (bid2 ≠ bid ∧ bookings σ !! bid2 = Some b2)).
  { intros bid2 b2. rewrite Hb', lookup_insert. case_decide as Heq.
    - intros [= <-]. by left.
    - intros ?. right. split; [congruence | done]. }
  split.
  - intros bid2 b2 Hb2 Hst2. rewrite Hs'.
    destruct (Hother _ _ Hb2) as [[-> ->]|[Hne Hold]].
    + destruct (claims_seats σ Hc bid b Hb Hlive) as (s & Hs & Hp & Hnp).
      rewrite Href, Hseats. eexists; split; [done|]. split; [done|]. auto.
    + by apply (claims_seats σ Hc bid2).
  - intros bid1 bid2 b1 b2 Hne Hb1 Hb2 Hr Hst1 Hst2.
    destruct (Hother _ _ Hb1) as [[-> ->]|[Hne1 Hold1]];
      destruct (Hother _ _ Hb2) as [[-> ->]|[Hne2 Hold2]]; try done.
    + rewrite Hseats. rewrite Href in Hr.
      by apply (claims_disjoint σ Hc bid bid2 b b2).
    + rewrite Hseats. rewrite Href in Hr.
      by apply (claims_disjoint σ Hc bid1 bid b1 b).
    + by apply (claims_disjoint σ Hc bid1 bid2).
  - intros sid s1 seat Hs1 Hocc. rewrite Hs' in Hs1.
    destruct (claims_cover σ Hc sid s1 seat Hs1 Hocc)
      as (bid2 & b2 & Hb2 & Hr2 & Hst2 & Hin2).
    destruct (decide (bid = bid2)) as [<-|Hne].
    + rewrite Hb in Hb2. injection Hb2 as <-.
      exists bid, b'. rewrite Hb', lookup_insert_eq, Href, Hseats. done.
    + exists bid2, b2. split; [|done]. by rewrite Hb', lookup_insert_ne.
Qed.

(** Holding free seats for a new PENDING booking. *)
Lemma consistent_open σ σ' sid s bid b :
  consistent σ →
  bookings σ !! bid = None →
  schedules σ !! sid = Some s →
  seats b ## held s ∪ booked s →
  scheduleRef b = sid →
  status b = Types.PENDING →
  schedules σ' = <[sid := withSeats s (held s ∪ seats b) (booked s)]> (schedules σ) →
  bookings σ' = <[bid := b]> (bookings σ) →
  consistent σ'.
Proof.
  intros Hc Hfresh Hs Hfree Href Hpend Hs' Hb'.
  assert (Hother : ∀ bid2 b2, bookings σ' !! bid2 = Some b2 →
            (bid2 = bid ∧ b2 = b) ∨ (bid2 ≠ bid ∧ bookings σ !! bid2 = Some b2)).
  { intros bid2 b2. rewrite Hb', lookup_insert. case_decide as Heq.
    - intros [= <-]. by left.
    - intros ?. right. split; [congruence | done]. }
  assert (Hocc : ∀ bid2 b2, bookings σ !! bid2 = Some b2 →
            scheduleRef b2 = sid → status b2 ≠ Types.CANCELLED →
            seats b2 ⊆ held s ∪ booked s).
  { intros bid2 b2 Hold Hr Hst. apply (consistent_occupied σ bid2); try done.
    by rewrite Hr. }
  split.
  - intros bid2 b2 Hb2 Hst2. rewrite Hs'.
    destruct (Hother _ _ Hb2) as [[-> ->]|[Hne Hold]].
    + rewrite Href, lookup_insert_eq. eexists; split; [done|].
      rewrite withSeats_held. split; [intros _; apply union_subseteq_r | done].
    + destruct (claims_seats σ Hc bid2 b2 Hold Hst2) as (s2 & Hs2 & Hp & Hnp).
      destruct (decide (sid = scheduleRef b2)) as [Heq|Hneq].
      * rewrite <- Heq, lookup_insert_eq. eexists; split; [done|].
        assert (s2 = s) as -> by congruence.
        rewrite withSeats_held, withSeats_booked.
        split; [|done]. intros Hp2. specialize (Hp Hp2).
        clear -Hp. set_solver.
      * rewrite lookup_insert_ne by done. eauto.
  - intros bid1 bid2 b1 b2 Hne Hb1 Hb2 Hr Hst1 Hst2.
    destruct (Hother _ _ Hb1) as [[-> ->]|[Hne1 Hold1]];
      destruct (Hother _ _ Hb2) as [[-> ->]|[Hne2 Hold2]]; try done.
    + rewrite Href in Hr. specialize (Hocc _ _ Hold2 (eq_sym Hr) Hst2).
      clear -Hocc Hfree. set_solver.
    + rewrite Href in Hr. specialize (Hocc _ _ Hold1 Hr Hst1).
      clear -Hocc Hfree. set_solver.
    + by apply (claims_disjoint σ Hc bid1 bid2).
  - intros sid0 s1 seat Hs1 Hocc1. rewrite Hs' in Hs1.
    destruct (decide (sid = sid0 ∧ seat ∈ seats b)) as [[Hr Hin]|Hnot].
    { exists bid, b. rewrite Hb', lookup_insert_eq, Href, Hpend. done. }
    assert (∃ s0, schedules σ !! sid0 = Some s0 ∧ seat ∈ held s0 ∪ booked s0)
      as (s0 & Hs0 & Hocc0).
    { destruct (decide (sid = sid0)) as [<-|Hneq].
      - rewrite lookup_insert_eq in Hs1. injection Hs1 as <-.
        rewrite withSeats_held, withSeats_booked in Hocc1.
        exists s. split; [done|].
        assert (seat ∉ seats b) by tauto.
        rewrite !elem_of_union in Hocc1. rewrite elem_of_union. tauto.
      - rewrite lookup_insert_ne in Hs1 by done. eauto. }
    destruct (claims_cover σ Hc sid0 s0 seat Hs0 Hocc0)
      as (bid2 & b2 & Hb2 & Hr2 & Hst2 & Hin2).
    assert (bid ≠ bid2) as Hne by (intros <-; congruence).
    exists bid2, b2. split; [|done]. by rewrite Hb', lookup_insert_ne.
Qed.

(** ** The operations, case by case *)

Lemma tryHold_granted σ sid s wanted :
  schedules σ !! sid = Some s →
  (∀ n, n ∈ wanted → seatState s n = FREE) →
  tryHold σ sid wanted
  = inr (setSchedule σ sid (withSeats s (held s ∪ wanted) (booked s)), Held).
Proof.
  intros Hs Hfree. unfold tryHold, bind, findSchedule. rewrite Hs.
  apply unavailable_empty in Hfree. by rewrite decide_True.
Qed.

Lemma tryHold_rejected σ sid s wanted :
  schedules σ !! sid = Some s →
  ¬ (∀ n, n ∈ wanted → seatState s n = FREE) →
  tryHold σ sid wanted = inr (σ, Unavailable (unavailable s wanted)).
Proof.
  intros Hs Hfree. unfold tryHold, bind, findSchedule. rewrite Hs.
  rewrite <- unavailable_empty in Hfree. by rewrite decide_False.
Qed.

Lemma reserve_granted σ sid s seatNumbers who :
  schedules σ !! sid = Some s →
  validSeatNumbers s seatNumbers = true →
  (∀ n, n ∈ wantedSeats seatNumbers → seatState s n = FREE) →
  reserve σ sid seatNumbers who
  = inr (record (setSchedule σ sid
                   (withSeats s (held s ∪ wantedSeats seatNumbers) (booked s)))
                (reservationOf sid seatNumbers who GRANTED),
         reservationOf sid seatNumbers who GRANTED).
Proof.
  intros Hs Hvalid Hfree. unfold reserve, bind at 1, findSchedule at 1.
  rewrite Hs, Hvalid. cbv zeta. fold (wantedSeats seatNumbers).
  by rewrite (tryHold_granted σ sid s _ Hs Hfree).
Qed.

Lemma reserve_rejected σ sid s seatNumbers who :
  schedules σ !! sid = Some s →
  validSeatNumbers s seatNumbers = true →
  ¬ (∀ n, n ∈ wantedSeats seatNumbers → seatState s n = FREE) →
  reserve σ sid seatNumbers who
  = inr (record σ (reservationOf sid seatNumbers who
                     (REJECTED (unavailable s (wantedSeats seatNumbers)))),
         reservationOf sid seatNumbers who
           (REJECTED (unavailable s (wantedSeats seatNumbers)))).
Proof.
  intros Hs Hvalid Hfree. unfold reserve, bind at 1, findSchedule at 1.
  rewrite Hs, Hvalid. cbv zeta. fold (wantedSeats seatNumbers).
  by rewrite (tryHold_rejected σ sid s _ Hs Hfree).
Qed.

Lemma openBooking_granted σ sid s seatNumbers who method now :
  schedules σ !! sid = Some s →
  scheduleStatus s = ACTIVE →
  validSeatNumbers s seatNumbers = true →
  (∀ n, n ∈ wantedSeats seatNumbers → seatState s n = FREE) →
  openBooking σ sid seatNumbers who method now
  = (setBooking
       (record (setSchedule σ sid
                  (withSeats s (held s ∪ wantedSeats seatNumbers) (booked s)))
               (reservationOf sid seatNumbers who GRANTED))
       (fresh (dom (bookings σ)))
       (pendingBooking σ s sid seatNumbers who method now),
     inr (pendingBooking σ s sid seatNumbers who method now)).
Proof.
  intros Hs Hact Hvalid Hfree. unfold openBooking, findSchedule.
  rewrite Hs, decide_True by done.
  by rewrite (reserve_granted σ sid s _ who Hs Hvalid Hfree).
Qed.

Lemma openBooking_rejected σ sid s seatNumbers who method now :
  schedules σ !! sid = Some s →
  scheduleStatus s = ACTIVE →
  validSeatNumbers s seatNumbers = true →
  ¬ (∀ n, n ∈ wantedSeats seatNumbers → seatState s n = FREE) →
  openBooking σ sid seatNumbers who method now
  = (record σ (reservationOf sid seatNumbers who
                 (REJECTED (unavailable s (wantedSeats seatNumbers)))),
     inl (SeatsUnavailable (unavailable s (wantedSeats seatNumbers)))).
Proof.
  intros Hs Hact Hvalid Hfree. unfold openBooking, findSchedule.
  rewrite Hs, decide_True by done.
  by rewrite (reserve_rejected σ sid s _ who Hs Hvalid Hfree).
Qed.

(** Every outcome of [openBooking]: an error that leaves schedules and
    bookings alone, or a grant. *)
Lemma openBooking_cases σ sid seatNumbers who method now :
  (∃ e, (openBooking σ sid seatNumbers who method now).2 = inl e ∧
        schedules (openBooking σ sid seatNumbers who method now).1 = schedules σ ∧
        bookings (openBooking σ sid seatNumbers who method now).1 = bookings σ) ∨
  (∃ s, schedules σ !! sid = Some s ∧ scheduleStatus s = ACTIVE ∧
        validSeatNumbers s seatNumbers = true ∧
        (∀ n, n ∈ wantedSeats seatNumbers → seatState s n = FREE)).
Proof.
  destruct (schedules σ !! sid) as [s|] eqn:Hs.
  2: { left. unfold openBooking, findSchedule. rewrite Hs. eauto. }
  destruct (decide (scheduleStatus s = ACTIVE)) as [Hact|Hact].
  2: { left. unfold openBooking, findSchedule. rewrite Hs, decide_False by done.
       eauto. }
  destruct (validSeatNumbers s seatNumbers) eqn:Hvalid.
  2: { left. unfold openBooking, findSchedule, reserve, bind, findSchedule.
       rewrite Hs, decide_True, Hvalid by done. eauto. }
  destruct (decide (unavailable s (wantedSeats seatNumbers) = ∅)) as [He|He].
  - right. exists s. by rewrite <- unavailable_empty.
  - left. rewrite unavailable_empty in He.
    rewrite (openBooking_rejected σ sid s) by done. eauto.
Qed.

(** ** Every step keeps the state consistent *)

Lemma fresh_booking σ : bookings σ !! fresh (dom (bookings σ)) = None.
Proof. apply not_elem_of_dom, is_fresh. Qed.

Lemma consistent_openBooking σ sid seatNumbers who method now :
  consistent σ →
  consistent (openBooking σ sid seatNumbers who method now).1.
Proof.
  intros Hc.
  destruct (openBooking_cases σ sid seatNumbers who method now)
    as [(e & _ & Hs & Hb)|(s & Hs & Hact & Hvalid & Hfree)].
  - by apply (consistent_ext σ).
  - rewrite (openBooking_granted σ sid s) by done.
    eapply (consistent_open σ _ sid s (fresh (dom (bookings σ)))
              (pendingBooking σ s sid seatNumbers who method now));
      try done.
    + apply fresh_booking.
    + by apply all_free_disjoint.
Qed.

Lemma consistent_cancelled σ σ' bid b s :
  consistent σ →
  bookings σ !! bid = Some b →
  schedules σ !! scheduleRef b = Some s →
  status b ≠ Types.CANCELLED →
  cancelled σ bid b = inr σ' →
  consistent σ'.
Proof.
  intros Hc Hb Hs Hlive. unfold cancelled, release, bind, findSchedule.
  rewrite Hs. intros [= <-].
  by eapply (consistent_release σ _ bid b s
               (Some (withStatus b Types.CANCELLED (paymentStatus b))));
    [..|intros ? [= <-]].
Qed.

Lemma consistent_confirmed σ σ' bid b s pay :
  consistent σ →
  bookings σ !! bid = Some b →
  schedules σ !! scheduleRef b = Some s →
  status b = Types.PENDING →
  confirmed σ bid b pay = inr σ' →
  consistent σ'.
Proof.
  intros Hc Hb Hs Hpend. unfold confirmed, commit, bind, findSchedule.
  rewrite Hs. case_decide; intros [= <-].
  by eapply (consistent_commit σ _ bid b (withStatus b Types.CONFIRMED pay) s).
Qed.

Lemma consistent_transition σ σ' bid ev :
  consistent σ → transition σ bid ev = inr σ' → consistent σ'.
Proof.
  intros Hc. unfold transition, bind at 1 2, findBooking, findSchedule.
  destruct (bookings σ !! bid) as [b|] eqn:Hb; [|done].
  destruct (schedules σ !! scheduleRef b) as [s|] eqn:Hs; [|done].
  destruct (status b) eqn:Hst, ev; try done;
    repeat case_decide; try done;
    try (apply (consistent_cancelled σ σ' bid b s); by rewrite ?Hst);
    try (apply (consistent_confirmed σ σ' bid b s); by rewrite ?Hst).
  intros [= <-].
  eapply (consistent_restatus σ _ bid b
            (withStatus b Types.COMPLETED (paymentStatus b)));
    by rewrite ?Hst.
Qed.

Lemma consistent_abandon σ σ' bid :
  consistent σ → abandon σ bid = inr σ' → consistent σ'.
Proof.
  intros Hc. unfold abandon, bind at 1, findBooking.
  destruct (bookings σ !! bid) as [b|] eqn:Hb; [|done].
  destruct (status b) eqn:Hst; try done.
  unfold release, bind, findSchedule.
  destruct (schedules σ !! scheduleRef b) as [s|] eqn:Hs; [|done].
  intros [= <-].
  by eapply (consistent_release σ _ bid b s None); rewrite ?Hst.
Qed.

Lemma consistent_step σ st : consistent σ → consistent (step σ st).
Proof.
  intros Hc. destruct st as [sid l who m now|bid ev|bid]; simpl.
  - by apply consistent_openBooking.
  - destruct (transition σ bid ev) eqn:Ht; [done|].
    by eapply consistent_transition.
  - destruct (abandon σ bid) eqn:Ha; [done|].
    by eapply consistent_abandon.
Qed.

Lemma consistent_run σ steps : consistent σ → consistent (run σ steps).
Proof.
  revert σ. induction steps as [|st steps IH]; intros σ Hc; [done|].
  apply IH. by apply consistent_step.
Qed.

Lemma reachable_consistent σ : reachable σ → consistent σ.
Proof.
  intros (σ0 & steps & Hinit & ->).
  by apply consistent_run, consistent_initial.
Qed.

Lemma reachable_run σ steps : reachable σ → reachable (run σ steps).
Proof.
  intros (σ0 & steps0 & Hinit & ->). exists σ0, (steps0 ++ steps).
  split; [done|]. unfold run. by rewrite foldl_app.
Qed.

(** The orchestrator's operations are runs of steps. *)
Lemma createBooking_run charge σ sid seatNumbers who method now :
  ∃ steps,
    (createBooking charge σ sid seatNumbers who method now).1 = run σ steps.
Proof.
  unfold createBooking.
  destruct (openBooking σ sid seatNumbers who method now) as [σ1 [e|b]] eqn:Ho.
  - exists [Open sid seatNumbers who method now]. simpl. by rewrite Ho.
  - assert (σ1 = step σ (Open sid seatNumbers who method now)) as Hσ1
      by (simpl; by rewrite Ho).
    unfold settle, drive.
    destruct (paymentMethod b);
      [destruct (charge _ _ _)..|].
    1, 3: exists [Open sid seatNumbers who method now;
                  Fire (identifier b) PaymentConfirmed].
    3, 4: exists [Open sid seatNumbers who method now; Abandon (identifier b)].
    5: exists [Open sid seatNumbers who method now;
               Fire (identifier b) PayLaterAccepted].
    all: cbn [run foldl]; rewrite <- Hσ1; cbn [step];
      by repeat case_match.
Qed.

Lemma cancelBooking_run authorized σ bid now :
  ∃ steps, (cancelBooking authorized σ bid now).1 = run σ steps.
Proof.
  destruct authorized; simpl.
  - exists [Fire bid (PassengerCancels now)]. unfold drive. simpl.
    by destruct (transition σ bid (PassengerCancels now)).
  - by exists [].
Qed.

End EngineFacts.

(** ** No overbooking *)

Lemma reserve_granted_inv σ sid seatNumbers who σ' r :
  Engine.reserve σ sid seatNumbers who = inr (σ', r) →
  Engine.r_outcome r = Engine.GRANTED →
  ∃ s, Engine.schedules σ !! sid = Some s ∧
       Engine.r_seats r = wantedSeats seatNumbers ∧
       (∀ n, n ∈ wantedSeats seatNumbers → Engine.seatState s n = Engine.FREE) ∧
       Engine.schedules σ'
       = <[sid := Engine.withSeats s (Engine.held s ∪ wantedSeats seatNumbers)
                    (Engine.booked s)]> (Engine.schedules σ).
Proof.
  intros Hres Hout.
  destruct (Engine.schedules σ !! sid) as [s|] eqn:Hs.
  2: { unfold Engine.reserve, Engine.bind, Engine.findSchedule in Hres.
       by rewrite Hs in Hres. }
  destruct (Engine.validSeatNumbers s seatNumbers) eqn:Hvalid.
  2: { unfold Engine.reserve, Engine.bind, Engine.findSchedule in Hres.
       by rewrite Hs, Hvalid in Hres. }
  destruct (decide (∀ n, n ∈ wantedSeats seatNumbers →
                         Engine.seatState s n = Engine.FREE)) as [Hfree|Hfree].
  - rewrite (reserve_granted σ sid s) in Hres by done.
    injection Hres as <- <-. exists s. by repeat split.
  - rewrite (reserve_rejected σ sid s) in Hres by done.
    injection Hres as <- <-. done.
Qed.

(** C1. In every state the engine can reach, by any interleaving of its
    atomic steps, two distinct bookings on the same schedule that are not
    cancelled (in particular, two that are PENDING or CONFIRMED) share no
    seat, and every seat that is HELD or BOOKED is the seat of exactly
    one such booking; a reservation is granted only seats that no such
    booking holds, and two reservations granted one after the other on a
    schedule do not overlap; and the orchestrator's operations lead from
    reachable states to reachable states. *)
Theorem no_overbooking (σ : Engine.State) :
  Engine.reachable σ →
  (∀ bid1 bid2 b1 b2,
     bid1 ≠ bid2 →
     Engine.bookings σ !! bid1 = Some b1 →
     Engine.bookings σ !! bid2 = Some b2 →
     Engine.scheduleRef b1 = Engine.scheduleRef b2 →
     Engine.status b1 ≠ Types.CANCELLED →
     Engine.status b2 ≠ Types.CANCELLED →
     ∀ seat, seat ∈ Engine.seats b1 → seat ∉ Engine.seats b2) ∧
  (∀ sid bid1 bid2 b1 b2,
     bid1 ≠ bid2 →
     Engine.bookingsOn σ sid bid1 b1 → Engine.bookingsOn σ sid bid2 b2 →
     Engine.live b1 → Engine.live b2 →
     Engine.seats b1 ## Engine.seats b2) ∧
  (∀ sid s seat,
     Engine.schedules σ !! sid = Some s →
     Engine.seatState s seat ≠ Engine.FREE →
     ∃ bid b,
       Engine.bookingsOn σ sid bid b ∧
       Engine.status b ≠ Types.CANCELLED ∧ seat ∈ Engine.seats b ∧
       ∀ bid' b',
         Engine.bookingsOn σ sid bid' b' →
         Engine.status b' ≠ Types.CANCELLED → seat ∈ Engine.seats b' →
         bid' = bid) ∧
  (∀ sid seatNumbers who σ1 r1,
     Engine.reserve σ sid seatNumbers who = inr (σ1, r1) →
     Engine.r_outcome r1 = Engine.GRANTED →
     (∀ bid b,
        Engine.bookingsOn σ sid bid b →
        Engine.status b ≠ Types.CANCELLED →
        Engine.r_seats r1 ## Engine.seats b) ∧
     (∀ seatNumbers' who' σ2 r2,
        Engine.reserve σ1 sid seatNumbers' who' = inr (σ2, r2) →
        Engine.r_outcome r2 = Engine.GRANTED →
        Engine.r_seats r1 ## Engine.r_seats r2)) ∧
  (∀ steps, Engine.reachable (Engine.run σ steps)) ∧
  (∀ charge sid seatNumbers who method now,
     Engine.reachable
       (Engine.createBooking charge σ sid seatNumbers who method now).1) ∧
  (∀ authorized bid now,
     Engine.reachable (Engine.cancelBooking authorized σ bid now).1).
Proof.
  intros Hreach. pose proof (reachable_consistent σ Hreach) as Hc.
  split; [|split; [|split; [|split; [|split; [|split]]]]].
  - intros bid1 bid2 b1 b2 Hne Hb1 Hb2 Href Hst1 Hst2 seat Hin1 Hin2.
    by apply (claims_disjoint σ Hc bid1 bid2 b1 b2 Hne Hb1 Hb2 Href Hst1 Hst2 seat).
  - intros sid bid1 bid2 b1 b2 Hne [Hb1 Hr1] [Hb2 Hr2] Hl1 Hl2.
    apply (claims_disjoint σ Hc bid1 bid2 b1 b2); try done; try congruence.
    + by destruct Hl1 as [->| ->].
    + by destruct Hl2 as [->| ->].
  - intros sid s seat Hs Hocc.
    assert (seat ∈ Engine.held s ∪ Engine.booked s) as Hin.
    { rewrite elem_of_union.
      destruct (decide (seat ∈ Engine.held s)); [tauto|].
      destruct (decide (seat ∈ Engine.booked s)); [tauto|].
      destruct Hocc. by apply seatState_FREE. }
    destruct (claims_cover σ Hc sid s seat Hs Hin)
      as (bid & b & Hb & Hr & Hst & Hseat).
    exists bid, b. split; [done|]. split; [done|]. split; [done|].
    intros bid' b' [Hb' Hr'] Hst' Hseat'.
    destruct (decide (bid' = bid)) as [|Hne]; [done|]. exfalso.
    apply (claims_disjoint σ Hc bid' bid b' b Hne Hb' Hb) with seat;
      try done; congruence.
  - intros sid seatNumbers who σ1 r1 Hres Hout.
    destruct (reserve_granted_inv _ _ _ _ _ _ Hres Hout)
      as (s & Hs & Hseats & Hfree & Hs1).
    split.
    + intros bid b [Hb Href] Hst. rewrite Hseats.
      apply all_free_disjoint in Hfree.
      assert (Engine.seats b ⊆ Engine.held s ∪ Engine.booked s) as Hocc.
      { apply (consistent_occupied σ bid); try done. by rewrite Href. }
      clear -Hfree Hocc. set_solver.
    + intros seatNumbers' who' σ2 r2 Hres2 Hout2.
      destruct (reserve_granted_inv _ _ _ _ _ _ Hres2 Hout2)
        as (s1 & Hs1' & Hseats2 & Hfree2 & _).
      rewrite Hs1, lookup_insert_eq in Hs1'. injection Hs1' as <-.
      rewrite Hseats, Hseats2. apply all_free_disjoint in Hfree2.
      rewrite withSeats_held in Hfree2. clear -Hfree2. set_solver.
  - intros steps. by apply reachable_run.
  - intros charge sid seatNumbers who method now.
    destruct (createBooking_run charge σ sid seatNumbers who method now)
      as [steps ->]. by apply reachable_run.
  - intros authorized bid now.
    destruct (cancelBooking_run authorized σ bid now) as [steps ->].
    by apply reachable_run.
Qed.

Lemma scenarioStart_initial : Engine.initial scenarioStart.
Proof.
  split; [done|]. split; [done|].
  intros sid s Hs. cbn in Hs. apply lookup_singleton_Some in Hs as [_ <-]. done.
Qed.

Lemma scenario_reachable : Engine.reachable scenario.
Proof. exists scenarioStart, scenarioSteps. split; [apply scenarioStart_initial | done]. Qed.

Lemma scenario_bookings :
  ∃ b1 b2,
    Engine.bookings scenario !! 0%nat = Some b1 ∧
    Engine.bookings scenario !! 1%nat = Some b2 ∧
    Engine.scheduleRef b1 = 1%nat ∧ Engine.scheduleRef b2 = 1%nat ∧
    Engine.status b1 = Types.CONFIRMED ∧ Engine.status b2 = Types.CONFIRMED ∧
    Engine.seats b1 = {[ 1%nat ]} ∧ Engine.seats b2 = {[ 2%nat ]}.
Proof. vm_compute. eexists _, _. repeat split. Qed.

Lemma no_overbooking_witness :
  ∃ b1 b2,
    Engine.bookings scenario !! 0%nat = Some b1 ∧
    Engine.bookings scenario !! 1%nat = Some b2 ∧
    Engine.seats b1 ## Engine.seats b2.
Proof.
  destruct scenario_bookings as (b1 & b2 & Hb1 & Hb2 & Hr1 & Hr2 & Hs1 & Hs2 & _).
  exists b1, b2. split; [done|]. split; [done|].
  destruct (no_overbooking scenario scenario_reachable) as (_ & Hlive & _).
  apply (Hlive 1%nat 0%nat 1%nat); try done; by right.
Defined.

(** ** Holding seats *)

Lemma held_after_hold s wanted n :
  (∀ n, n ∈ wanted → Engine.seatState s n = Engine.FREE) →
  Engine.seatState
    (Engine.withSeats s (Engine.held s ∪ wanted) (Engine.booked s)) n
  = if decide (n ∈ wanted) then Engine.HELD else Engine.seatState s n.
Proof.
  intros Hfree. case_decide as Hn.
  - apply seatState_HELD. rewrite withSeats_held, withSeats_booked.
    pose proof (proj1 (seatState_FREE s n) (Hfree n Hn)) as [_ Hnb].
    split; [|done]. apply elem_of_union. by right.
  - assert (n ∈ Engine.held s ∪ wanted ↔ n ∈ Engine.held s) as Hiff
      by (rewrite elem_of_union; tauto).
    unfold Engine.seatState. rewrite withSeats_held, withSeats_booked.
    repeat case_decide; try done; exfalso; tauto.
Qed.

Lemma tryHold_Held_inv σ sid s wanted σ' :
  Engine.schedules σ !! sid = Some s →
  Engine.tryHold σ sid wanted = inr (σ', Engine.Held) →
  (∀ n, n ∈ wanted → Engine.seatState s n = Engine.FREE) ∧
  σ' = Engine.setSchedule σ sid
         (Engine.withSeats s (Engine.held s ∪ wanted) (Engine.booked s)).
Proof.
  intros Hs. unfold Engine.tryHold, Engine.bind, Engine.findSchedule.
  rewrite Hs. case_decide as He; [|done].
  intros [= <-]. split; [|done]. by apply unavailable_empty.
Qed.

(** C2. [tryHold] is all or nothing. It reports [Held] exactly when every
    requested seat is FREE; then every requested seat is HELD afterwards
    and no other seat, schedule or booking changes. Otherwise the state
    is returned unchanged together with the non-empty set of exactly the
    requested seats that were not FREE, and [createBooking] answers
    [SeatsUnavailable] with that set, a recoverable error, leaving
    seats and bookings as they were. On the front end a failed request
    hands no booking on and leaves the form ready for another try. *)
Theorem tryHold_all_or_nothing
    (σ : Engine.State) (sid : nat) (s : Engine.Schedule) (wanted : gset nat) :
  Engine.schedules σ !! sid = Some s →
  ((∃ σ', Engine.tryHold σ sid wanted = inr (σ', Engine.Held)) ↔
   (∀ n, n ∈ wanted → Engine.seatState s n = Engine.FREE)) ∧
  (∀ σ', Engine.tryHold σ sid wanted = inr (σ', Engine.Held) →
     (∃ s', Engine.schedules σ' !! sid = Some s' ∧
            (∀ n, n ∈ wanted → Engine.seatState s' n = Engine.HELD) ∧
            (∀ n, n ∉ wanted → Engine.seatState s' n = Engine.seatState s n)) ∧
     (∀ sid', sid' ≠ sid →
              Engine.schedules σ' !! sid' = Engine.schedules σ !! sid') ∧
     Engine.bookings σ' = Engine.bookings σ) ∧
  (¬ (∀ n, n ∈ wanted → Engine.seatState s n = Engine.FREE) →
     Engine.tryHold σ sid wanted
       = inr (σ, Engine.Unavailable (Engine.unavailable s wanted)) ∧
     Engine.unavailable s wanted ≠ ∅ ∧
     (∀ n, n ∈ Engine.unavailable s wanted ↔
           n ∈ wanted ∧ Engine.seatState s n ≠ Engine.FREE)) ∧
  (∀ charge seatNumbers who method now,
     wanted = list_to_set seatNumbers →
     Engine.scheduleStatus s = Engine.ACTIVE →
     Engine.validSeatNumbers s seatNumbers = true →
     ¬ (∀ n, n ∈ wanted → Engine.seatState s n = Engine.FREE) →
     (Engine.createBooking charge σ sid seatNumbers who method now).2
       = inl (Engine.SeatsUnavailable (Engine.unavailable s wanted)) ∧
     Engine.recoverable (Engine.SeatsUnavailable (Engine.unavailable s wanted))
       = true ∧
     Engine.schedules
       (Engine.createBooking charge σ sid seatNumbers who method now).1
       = Engine.schedules σ ∧
     Engine.bookings
       (Engine.createBooking charge σ sid seatNumbers who method now).1
       = Engine.bookings σ) ∧
  (∀ props user_id clk data st,
     (BookingForm.onSubmit props user_id BookingForm.ApiThrew clk data st).2
       = None ∧
     BookingForm.selectedSeats
       (BookingForm.onSubmit props user_id BookingForm.ApiThrew clk data st).1
       = BookingForm.selectedSeats st ∧
     BookingForm.isSubmitting
       (BookingForm.onSubmit props user_id BookingForm.ApiThrew clk data st).1
       = false).
Proof.
  intros Hs. split; [|split; [|split; [|split]]].
  - split.
    + intros [σ' Hheld]. by destruct (tryHold_Held_inv _ _ _ _ _ Hs Hheld).
    + intros Hfree. rewrite (tryHold_granted σ sid s) by done. eauto.
  - intros σ' Hheld.
    destruct (tryHold_Held_inv _ _ _ _ _ Hs Hheld) as [Hfree ->].
    cbn [Engine.setSchedule Engine.schedules Engine.bookings].
    split; [|split; [|done]].
    + eexists. split; [apply lookup_insert_eq|]. split.
      * intros n Hn. rewrite held_after_hold by done. by rewrite decide_True.
      * intros n Hn. rewrite held_after_hold by done. by rewrite decide_False.
    + intros sid' Hne. by rewrite lookup_insert_ne.
  - intros Hfree. split; [by apply tryHold_rejected|]. split.
    + by rewrite unavailable_empty.
    + intros n. apply unavailable_spec.
  - intros charge seatNumbers who method now -> Hact Hvalid Hfree.
    unfold Engine.createBooking.
    rewrite (openBooking_rejected σ sid s) by done. done.
  - intros props user_id clk data st. unfold BookingForm.onSubmit.
    by case_match.
Qed.

Lemma tryHold_all_or_nothing_witness :
  Engine.tryHold afterA 1 {[ 1%nat; 2%nat ]}
  = inr (afterA, Engine.Unavailable {[ 1%nat ]}).
Proof.
  destruct (tryHold_all_or_nothing afterA 1 scheduleAfterA {[ 1%nat; 2%nat ]})
    as (_ & _ & Hrej & _).
  - by vm_compute.
  - destruct Hrej as (Heq & _).
    + intros Hfree. specialize (Hfree 1%nat).
      assert (Engine.seatState scheduleAfterA 1 = Engine.BOOKED) as Hb
        by by vm_compute.
      rewrite Hb in Hfree. discriminate Hfree. set_solver.
    + rewrite Heq. by vm_compute.
Defined.

(** ** Payment failure *)

Lemma release_after_hold s wanted :
  wanted ## Engine.held s ∪ Engine.booked s →
  Engine.withSeats
    (Engine.withSeats s (Engine.held s ∪ wanted) (Engine.booked s))
    ((Engine.held s ∪ wanted) ∖ wanted) (Engine.booked s ∖ wanted)
  = s.
Proof.
  intros Hdisj. destruct s as [? ? ? ? ? ? ? h b]. unfold Engine.withSeats.
  cbn in *. f_equal.
  - apply set_eq. intros n. rewrite elem_of_difference, elem_of_union.
    split; [tauto|]. intros Hn. split; [tauto|]. intros Hw.
    apply (Hdisj n Hw). apply elem_of_union. tauto.
  - apply set_eq. intros n. rewrite elem_of_difference.
    split; [tauto|]. intros Hn. split; [done|]. intros Hw.
    apply (Hdisj n Hw). apply elem_of_union. tauto.
Qed.

Lemma createBooking_declined charge σ sid s seatNumbers who method now :
  Engine.schedules σ !! sid = Some s →
  Engine.scheduleStatus s = Engine.ACTIVE →
  Engine.validSeatNumbers s seatNumbers = true →
  (∀ n, n ∈ wantedSeats seatNumbers → Engine.seatState s n = Engine.FREE) →
  method ≠ Engine.PayLater →
  charge (Engine.seatPrice s * Z.of_nat (size (wantedSeats seatNumbers)))
         method who = Engine.Declined →
  Engine.createBooking charge σ sid seatNumbers who method now
  = ({| Engine.schedules := Engine.schedules σ;
        Engine.ledger :=
          Engine.ledger σ ++ [reservationOf sid seatNumbers who Engine.GRANTED];
        Engine.bookings := Engine.bookings σ |},
     inl Engine.PaymentFailed).
Proof.
  intros Hs Hact Hvalid Hfree Hmethod Hcharge.
  unfold Engine.createBooking.
  rewrite (openBooking_granted σ sid s) by done.
  unfold Engine.settle.
  cbn [pendingBooking Engine.paymentMethod Engine.totalAmount Engine.passenger
       Engine.identifier].
  rewrite Hcharge.
  assert (Engine.abandon
            (Engine.setBooking
               (Engine.record
                  (Engine.setSchedule σ sid
                     (Engine.withSeats s (Engine.held s ∪ wantedSeats seatNumbers)
                        (Engine.booked s)))
                  (reservationOf sid seatNumbers who Engine.GRANTED))
               (fresh (dom (Engine.bookings σ)))
               (pendingBooking σ s sid seatNumbers who method now))
            (fresh (dom (Engine.bookings σ)))
          = inr {| Engine.schedules := Engine.schedules σ;
                   Engine.ledger :=
                     Engine.ledger σ
                     ++ [reservationOf sid seatNumbers who Engine.GRANTED];
                   Engine.bookings := Engine.bookings σ |}) as ->.
  { unfold Engine.abandon, Engine.bind, Engine.findBooking, Engine.release,
      Engine.bind, Engine.findSchedule.
    cbn [Engine.setBooking Engine.record Engine.setSchedule Engine.bookings
         Engine.schedules Engine.ledger Engine.dropBooking].
    rewrite lookup_insert_eq.
    cbn [pendingBooking Engine.status Engine.scheduleRef Engine.seats].
    rewrite lookup_insert_eq.
    cbn [Engine.setBooking Engine.record Engine.setSchedule Engine.bookings
         Engine.schedules Engine.ledger Engine.dropBooking].
    rewrite withSeats_held, withSeats_booked.
    rewrite release_after_hold by by apply all_free_disjoint.
    unfold Engine.dropBooking, Engine.setSchedule, Engine.setBooking,
      Engine.record.
    cbn [Engine.bookings Engine.schedules Engine.ledger].
    rewrite insert_insert_eq, insert_id by done.
    rewrite delete_insert_id by apply fresh_booking.
    done. }
  by destruct method.
Qed.

(** C5. If the reservation is granted and the payment capability answers
    Declined for a mobile-money or card payment, [createBooking] returns
    [PaymentFailed], a recoverable error; afterwards every schedule has
    the occupancy it had before, the availability snapshot lists each
    requested seat as free, the set of bookings is what it was, and in
    particular no booking, PENDING or other, exists under the identifier
    drawn for the request. On the front end, a request that fails hands
    no booking on, and the payment form ends in its error state. *)
Theorem declined_payment_releases_seats
    (charge : Engine.PaymentCapability) (σ : Engine.State) (sid : nat)
    (s : Engine.Schedule) (seatNumbers : list nat) (who : Engine.Passenger)
    (method : Engine.PaymentMethod) (now : Z) :
  Engine.schedules σ !! sid = Some s →
  Engine.scheduleStatus s = Engine.ACTIVE →
  Engine.validSeatNumbers s seatNumbers = true →
  (∀ n, n ∈ wantedSeats seatNumbers → Engine.seatState s n = Engine.FREE) →
  method ≠ Engine.PayLater →
  charge (Engine.seatPrice s * Z.of_nat (size (wantedSeats seatNumbers)))
         method who = Engine.Declined →
  (Engine.createBooking charge σ sid seatNumbers who method now).2
    = inl Engine.PaymentFailed ∧
  Engine.recoverable Engine.PaymentFailed = true ∧
  Engine.schedules (Engine.createBooking charge σ sid seatNumbers who method now).1
    = Engine.schedules σ ∧
  (∃ a, Engine.snapshotAvailability
          (Engine.createBooking charge σ sid seatNumbers who method now).1 sid
        = inr a ∧
        ∀ n, n ∈ wantedSeats seatNumbers → n ∈ Engine.freeSeats a) ∧
  Engine.bookings (Engine.createBooking charge σ sid seatNumbers who method now).1
    = Engine.bookings σ ∧
  Engine.bookings (Engine.createBooking charge σ sid seatNumbers who method now).1
    !! fresh (dom (Engine.bookings σ)) = None ∧
  (∀ props user_id clk data st,
     (BookingForm.onSubmit props user_id BookingForm.ApiThrew clk data st).2
       = None) ∧
  (∀ m amount t st,
     PaymentForm.paymentStatus
       (PaymentForm.onSubmit m amount t PaymentForm.CallbackThrew st).1
       = PaymentForm.error).
Proof.
  intros Hs Hact Hvalid Hfree Hmethod Hcharge.
  rewrite (createBooking_declined charge σ sid s) by done.
  cbn [fst snd Engine.schedules Engine.bookings].
  split; [done|]. split; [done|]. split; [done|]. split; [|split; [done|split]].
  - unfold Engine.snapshotAvailability, Engine.bind, Engine.findSchedule.
    cbn [Engine.schedules]. rewrite Hs. eexists. split; [done|].
    cbn [Engine.freeSeats]. intros n Hn. apply elem_of_filter.
    split; [by apply Hfree|].
    unfold Engine.allSeats. apply elem_of_list_to_set, elem_of_seq.
    unfold Engine.validSeatNumbers in Hvalid.
    apply andb_true_iff in Hvalid as [_ Hrange].
    rewrite forallb_forall in Hrange.
    unfold wantedSeats in Hn. apply elem_of_list_to_set in Hn.
    apply list_elem_of_In, Hrange, bool_decide_eq_true in Hn. lia.
  - apply fresh_booking.
  - split; [|done]. intros props user_id clk data st.
    unfold BookingForm.onSubmit. by case_match.
Qed.

Lemma declined_payment_releases_seats_witness :
  (Engine.createBooking alwaysDeclined afterA 1 [2%nat]
     (Engine.Registered "B") Engine.Card 1700000002000).2
  = inl Engine.PaymentFailed ∧
  Engine.schedules
    (Engine.createBooking alwaysDeclined afterA 1 [2%nat]
       (Engine.Registered "B") Engine.Card 1700000002000).1
  = Engine.schedules afterA.
Proof.
  destruct (declined_payment_releases_seats alwaysDeclined afterA 1
              scheduleAfterA [2%nat] (Engine.Registered "B") Engine.Card
              1700000002000)
    as (Hres & _ & Hsched & _); try done.
  intros n Hn. unfold wantedSeats in Hn.
  apply elem_of_list_to_set, list_elem_of_singleton in Hn as ->.
  by vm_compute.
Defined.

(** ** The cancellation window *)

Lemma released_seats_free s taken n :
  n ∈ taken →
  Engine.seatState
    (Engine.withSeats s (Engine.held s ∖ taken) (Engine.booked s ∖ taken)) n
  = Engine.FREE.
Proof.
  intros Hn. apply seatState_FREE. rewrite withSeats_held, withSeats_booked.
  rewrite !elem_of_difference. tauto.
Qed.

Lemma cancelBooking_confirmed σ bid b s now :
  Engine.bookings σ !! bid = Some b →
  Engine.status b = Types.CONFIRMED →
  Engine.schedules σ !! Engine.scheduleRef b = Some s →
  Engine.cancelBooking true σ bid now
  = if decide (Engine.cancellationWindow < Engine.departure s - now)
    then (Engine.setBooking
            (Engine.setSchedule σ (Engine.scheduleRef b)
               (Engine.withSeats s (Engine.held s ∖ Engine.seats b)
                  (Engine.booked s ∖ Engine.seats b)))
            bid (Engine.withStatus b Types.CANCELLED (Engine.paymentStatus b)),
          inr (Engine.withStatus b Types.CANCELLED (Engine.paymentStatus b)))
    else (σ, inl Engine.CancellationWindowClosed).
Proof.
  intros Hb Hst Hs.
  unfold Engine.cancelBooking, Engine.drive, Engine.transition,
    Engine.bind at 1 2, Engine.findBooking at 1, Engine.findSchedule at 1.
  rewrite Hb, Hs, Hst. case_decide; [|done].
  unfold Engine.cancelled, Engine.release, Engine.bind, Engine.findSchedule.
  rewrite Hs. unfold Engine.findBooking, Engine.setBooking.
  cbn [Engine.bookings]. by rewrite lookup_insert_eq.
Qed.

(** The engine's side of the cancellation window. For a CONFIRMED
    booking, [cancelBooking] succeeds exactly when more than 24 hours
    remain before departure: the booking becomes CANCELLED, nothing else
    about it changes and its seats are free again. With 24 hours or less
    it fails with [CancellationWindowClosed] and the state is unchanged.
    One second before the cut-off it succeeds, one second after it
    fails. The front end's [isCancellable] offers the cancellation of a
    CONFIRMED booking in exactly the same instants. *)
Lemma engine_cancellation_window
    (σ : Engine.State) (bid : nat) (b : Engine.Booking) (s : Engine.Schedule)
    (now : Z) :
  Engine.bookings σ !! bid = Some b →
  Engine.status b = Types.CONFIRMED →
  Engine.schedules σ !! Engine.scheduleRef b = Some s →
  (24 * 60 * 60 * 1000 < Engine.departure s - now →
     ∃ σ' b' s',
       Engine.cancelBooking true σ bid now = (σ', inr b') ∧
       Engine.bookings σ' !! bid = Some b' ∧
       b' = Engine.withStatus b Types.CANCELLED (Engine.paymentStatus b) ∧
       Engine.status b' = Types.CANCELLED ∧
       Engine.schedules σ' !! Engine.scheduleRef b = Some s' ∧
       ∀ n, n ∈ Engine.seats b → Engine.seatState s' n = Engine.FREE) ∧
  (Engine.departure s - now ≤ 24 * 60 * 60 * 1000 →
     Engine.cancelBooking true σ bid now
     = (σ, inl Engine.CancellationWindowClosed)) ∧
  (∃ σ' b',
     Engine.cancelBooking true σ bid
       (Engine.departure s - 24 * 60 * 60 * 1000 - 1000) = (σ', inr b') ∧
     Engine.status b' = Types.CANCELLED) ∧
  Engine.cancelBooking true σ bid
    (Engine.departure s - 24 * 60 * 60 * 1000 + 1000)
  = (σ, inl Engine.CancellationWindowClosed) ∧
  (∀ fb : Types.Booking,
     Types.status fb = Types.CONFIRMED →
     Types.departureTime fb = Engine.departure s →
     (UserTickets.isCancellable now fb = true ↔
      24 * 60 * 60 * 1000 < Engine.departure s - now)).
Proof.
  intros Hb Hst Hs.
  pose proof (λ t, cancelBooking_confirmed σ bid b s t Hb Hst Hs) as Hcb.
  change Engine.cancellationWindow with 86400000 in Hcb.
  change (24 * 60 * 60 * 1000) with 86400000.
  split; [|split; [|split; [|split]]].
  - intros Hwin. rewrite Hcb, decide_True by done.
    eexists _, _, _. split; [done|].
    cbn [Engine.setBooking Engine.setSchedule Engine.bookings Engine.schedules].
    rewrite !lookup_insert_eq. split; [done|]. split; [done|]. split; [done|].
    split; [done|]. intros n Hn. by apply released_seats_free.
  - intros Hwin. rewrite Hcb, decide_False by lia. done.
  - rewrite Hcb, decide_True by lia. by eexists _, _.
  - rewrite Hcb, decide_False by lia. done.
  - intros fb Hfst Hdep. rewrite isCancellable_iff, Hfst, Hdep.
    change (24 * 3600000) with 86400000. split; [tauto|]. by intros.
Qed.

(** A cancels with more than 27 hours to go. *)
Lemma engine_cancellation_window_example :
  ∃ σ' b',
    Engine.cancelBooking true scenario 0 1700000003000 = (σ', inr b') ∧
    Engine.status b' = Types.CANCELLED.
Proof.
  destruct (engine_cancellation_window scenario 0 bookingOfA scheduleFull
              1700000003000)
    as (Hok & _).
  - by vm_compute.
  - reflexivity.
  - by vm_compute.
  - destruct Hok as (σ' & b' & s' & Hcb & _ & _ & Hst & _).
    + simpl. lia.
    + by exists σ', b'.
Qed.

(** ** The cancellation, from the ticket to the engine *)

(** What the page's list holds after the ticket's handler has run. *)
Lemma handleCancelBooking_bookings post bookingId st :
  UserDashboardPage.bookings (CancelButton.handleCancelBooking post bookingId st).1
  = match post with
    | UseBooking.Resolved =>
        UseBooking.cancelUpdater bookingId (UserDashboardPage.bookings st)
    | UseBooking.Threw => UserDashboardPage.bookings st
    end ∧
  (CancelButton.handleCancelBooking post bookingId st).2
  = match post with UseBooking.Resolved => true | UseBooking.Threw => false end.
Proof. by destruct post. Qed.

(** C3. For every CONFIRMED booking, the engine's cancellation for the
    passenger succeeds exactly when more than 24 hours (86400000 ms)
    remain before departure at the instant of the request: the booking
    becomes CANCELLED with nothing else about it changed, and its seats
    are FREE again.  With 24 hours or less it fails with
    [CancellationWindowClosed] and the engine's state is unchanged.  One
    second before the cut-off it succeeds, one second after it fails.
    The ticket's button is rendered exactly when more than 24 hours
    remain at the instant of the render and its handler tests no time,
    so end to end, for a ticket of the page's list rendered before the
    click: the attempt succeeds exactly when more than 24 hours remain at
    the click, and then the page's list is updated by [cancelUpdater]
    and holds the ticket as CANCELLED; otherwise the engine and the list
    are unchanged, the request being refused with
    [CancellationWindowClosed] if the button was still rendered and not
    sent at all if it was not. *)
Theorem passenger_cancellation_window
    (σ : Engine.State) (bid : nat) (b : Engine.Booking) (s : Engine.Schedule)
    (ticket : Types.Booking) (st : UserDashboardPage.PageState)
    (rendered clicked : Z) :
  Engine.bookings σ !! bid = Some b →
  Engine.status b = Types.CONFIRMED →
  Engine.schedules σ !! Engine.scheduleRef b = Some s →
  Types.status ticket = Types.CONFIRMED →
  Types.departureTime ticket = Engine.departure s →
  ticket ∈ UserDashboardPage.bookings st →
  rendered ≤ clicked →
  let day := 24 * 60 * 60 * 1000 in
  let cancelledBooking :=
    Engine.withStatus b Types.CANCELLED (Engine.paymentStatus b) in
  let run :=
    PassengerCancellation.passengerCancels rendered clicked ticket bid σ st in
  (∀ now, day < Engine.departure s - now →
     ∃ σ' s',
       Engine.cancelBooking true σ bid now = (σ', inr cancelledBooking) ∧
       Engine.bookings σ' !! bid = Some cancelledBooking ∧
       Engine.status cancelledBooking = Types.CANCELLED ∧
       Engine.schedules σ' !! Engine.scheduleRef b = Some s' ∧
       ∀ n, n ∈ Engine.seats b → Engine.seatState s' n = Engine.FREE) ∧
  (∀ now, Engine.departure s - now ≤ day →
     Engine.cancelBooking true σ bid now
     = (σ, inl Engine.CancellationWindowClosed)) ∧
  (∃ σ', Engine.cancelBooking true σ bid (Engine.departure s - day - 1000)
         = (σ', inr cancelledBooking)) ∧
  Engine.cancelBooking true σ bid (Engine.departure s - day + 1000)
  = (σ, inl Engine.CancellationWindowClosed) ∧
  (∀ now, UserTickets.isCancellable now ticket = true ↔
          day < Types.departureTime ticket - now) ∧
  (PassengerCancellation.outcome run = CancelButton.Requested true ↔
   day < Engine.departure s - clicked) ∧
  (day < Engine.departure s - clicked →
     PassengerCancellation.engineAnswer run = Some (inr cancelledBooking) ∧
     Engine.bookings (PassengerCancellation.engineAfter run) !! bid
       = Some cancelledBooking ∧
     (∃ s', Engine.schedules (PassengerCancellation.engineAfter run)
              !! Engine.scheduleRef b = Some s' ∧
            ∀ n, n ∈ Engine.seats b → Engine.seatState s' n = Engine.FREE) ∧
     UserDashboardPage.bookings (PassengerCancellation.pageAfter run)
       = UseBooking.cancelUpdater (Types.id ticket)
           (UserDashboardPage.bookings st) ∧
     Types.with_status ticket Types.CANCELLED
       ∈ UserDashboardPage.bookings (PassengerCancellation.pageAfter run)) ∧
  (Engine.departure s - clicked ≤ day →
     PassengerCancellation.engineAfter run = σ ∧
     UserDashboardPage.bookings (PassengerCancellation.pageAfter run)
       = UserDashboardPage.bookings st ∧
     if decide (day < Engine.departure s - rendered)
     then PassengerCancellation.outcome run = CancelButton.Requested false ∧
          PassengerCancellation.engineAnswer run
            = Some (inl Engine.CancellationWindowClosed)
     else PassengerCancellation.outcome run = CancelButton.NotOffered ∧
          PassengerCancellation.engineAnswer run = None ∧
          PassengerCancellation.pageAfter run = st).
Proof.
  intros Hb Hst Hs Htst Hdep Hin Hle day cancelledBooking run.
  pose proof (λ t, cancelBooking_confirmed σ bid b s t Hb Hst Hs) as Hcb.
  change Engine.cancellationWindow with 86400000 in Hcb.
  assert (Hiff : ∀ t, UserTickets.isCancellable t ticket = true ↔
                      86400000 < Engine.departure s - t).
  { intros t. rewrite isCancellable_iff, Htst, Hdep.
    change (24 * 3600000) with 86400000. split; [tauto|]. by intros. }
  assert (Hopen : ∀ now, 86400000 < Engine.departure s - now →
     ∃ σ' s',
       Engine.cancelBooking true σ bid now = (σ', inr cancelledBooking) ∧
       Engine.bookings σ' !! bid = Some cancelledBooking ∧
       Engine.status cancelledBooking = Types.CANCELLED ∧
       Engine.schedules σ' !! Engine.scheduleRef b = Some s' ∧
       ∀ n, n ∈ Engine.seats b → Engine.seatState s' n = Engine.FREE).
  { intros now Hwin. rewrite Hcb, decide_True by done.
    eexists _, _. split; [done|].
    cbn [Engine.setBooking Engine.setSchedule Engine.bookings Engine.schedules].
    rewrite !lookup_insert_eq. split; [done|]. split; [done|]. split; [done|].
    intros n Hn. by apply released_seats_free. }
  assert (Hclosed : ∀ now, Engine.departure s - now ≤ 86400000 →
     Engine.cancelBooking true σ bid now
     = (σ, inl Engine.CancellationWindowClosed)).
  { intros now Hwin. by rewrite Hcb, decide_False by lia. }
  assert (Hlate : Engine.departure s - clicked ≤ 86400000 →
     PassengerCancellation.engineAfter run = σ ∧
     UserDashboardPage.bookings (PassengerCancellation.pageAfter run)
       = UserDashboardPage.bookings st ∧
     if decide (86400000 < Engine.departure s - rendered)
     then PassengerCancellation.outcome run = CancelButton.Requested false ∧
          PassengerCancellation.engineAnswer run
            = Some (inl Engine.CancellationWindowClosed)
     else PassengerCancellation.outcome run = CancelButton.NotOffered ∧
          PassengerCancellation.engineAnswer run = None ∧
          PassengerCancellation.pageAfter run = st).
  { intros Hwin. subst run. unfold PassengerCancellation.passengerCancels.
    case_decide as Hr.
    - rewrite (proj2 (Hiff rendered) Hr), (Hclosed clicked Hwin). done.
    - destruct (UserTickets.isCancellable rendered ticket) eqn:Hc; [|done].
      by apply Hiff in Hc. }
  assert (Hearly : 86400000 < Engine.departure s - clicked →
     PassengerCancellation.outcome run = CancelButton.Requested true ∧
     PassengerCancellation.engineAnswer run = Some (inr cancelledBooking) ∧
     Engine.bookings (PassengerCancellation.engineAfter run) !! bid
       = Some cancelledBooking ∧
     (∃ s', Engine.schedules (PassengerCancellation.engineAfter run)
              !! Engine.scheduleRef b = Some s' ∧
            ∀ n, n ∈ Engine.seats b → Engine.seatState s' n = Engine.FREE) ∧
     UserDashboardPage.bookings (PassengerCancellation.pageAfter run)
       = UseBooking.cancelUpdater (Types.id ticket)
           (UserDashboardPage.bookings st)).
  { intros Hwin. subst run. unfold PassengerCancellation.passengerCancels.
    rewrite (proj2 (Hiff rendered)) by lia.
    destruct (Hopen clicked Hwin) as (σ' & s' & -> & Hb' & _ & Hs' & Hfree).
    cbn [fst snd PassengerCancellation.answer PassengerCancellation.outcome
         PassengerCancellation.engineAnswer PassengerCancellation.engineAfter
         PassengerCancellation.pageAfter].
    split; [done|]. split; [done|]. split; [done|]. split; [by eauto|]. done. }
  change day with 86400000.
  split; [exact Hopen|]. split; [exact Hclosed|]. split.
  { destruct (Hopen (Engine.departure s - 86400000 - 1000)) as (σ' & _ & Hc & _);
      [lia|]. by exists σ'. }
  split; [apply Hclosed; lia|]. split.
  { intros now. rewrite Hdep. apply Hiff. }
  split; [|split; [|exact Hlate]].
  - split; [|by intros Hwin; apply Hearly].
    intros Hout.
    destruct (decide (86400000 < Engine.departure s - clicked)) as [|Hno]; [done|].
    destruct (Hlate ltac:(lia)) as (_ & _ & Hcase).
    case_decide; destruct Hcase as [Hcase _]; congruence.
  - intros Hwin. destruct (Hearly Hwin) as (_ & Ha & Hb' & Hs' & Hl).
    split; [done|]. split; [done|]. split; [done|]. split; [done|].
    rewrite Hl. unfold UseBooking.cancelUpdater.
    apply list_elem_of_fmap. exists ticket. split; [|done].
    unfold UseBooking.markCancelled. by rewrite bool_decide_eq_true_2.
Qed.

(** A's ticket, rendered some 27 hours before departure and clicked a
    second later. *)
Lemma passenger_cancellation_window_witness :
  PassengerCancellation.outcome
    (PassengerCancellation.passengerCancels 1700000003000 1700000004000
       bookingA 0 scenario
       {| UserDashboardPage.bookings := [bookingA; bookingB];
          UserDashboardPage.toasts := [] |})
  = CancelButton.Requested true.
Proof.
  pose proof (passenger_cancellation_window scenario 0 bookingOfA scheduleFull
                bookingA
                {| UserDashboardPage.bookings := [bookingA; bookingB];
                   UserDashboardPage.toasts := [] |}
                1700000003000 1700000004000) as H.
  cbv zeta in H.
  destruct H as (_ & _ & _ & _ & _ & Hiff & _).
  - by vm_compute.
  - reflexivity.
  - by vm_compute.
  - reflexivity.
  - reflexivity.
  - apply list_elem_of_here.
  - lia.
  - apply Hiff. simpl. lia.
Defined.

(** ** The engine's bookings on success *)

(** A granted and settled [createBooking] returns a CONFIRMED booking,
    PAID for mobile money and card, UNPAID for pay-later, whose total
    amount is the seat price times the number of seats. *)
Lemma createBooking_settled charge σ sid s seatNumbers who method now :
  Engine.schedules σ !! sid = Some s →
  Engine.scheduleStatus s = Engine.ACTIVE →
  Engine.validSeatNumbers s seatNumbers = true →
  (∀ n, n ∈ wantedSeats seatNumbers → Engine.seatState s n = Engine.FREE) →
  (method ≠ Engine.PayLater →
   charge (Engine.seatPrice s * Z.of_nat (size (wantedSeats seatNumbers)))
          method who = Engine.Paid) →
  (Engine.createBooking charge σ sid seatNumbers who method now).2
  = inr (Engine.withStatus (pendingBooking σ s sid seatNumbers who method now)
           Types.CONFIRMED
           (if decide (method = Engine.PayLater) then Types.UNPAID else Types.PAID)).
Proof.
  intros Hs Hact Hvalid Hfree Hcharge.
  unfold Engine.createBooking.
  rewrite (openBooking_granted σ sid s) by done.
  set (b := pendingBooking σ s sid seatNumbers who method now).
  set (bid := fresh (dom (Engine.bookings σ))).
  set (σ1 := Engine.setBooking _ bid b).
  assert (Hb : Engine.bookings σ1 !! bid = Some b) by apply lookup_insert_eq.
  assert (Hs1 : Engine.schedules σ1 !! sid
                = Some (Engine.withSeats s (Engine.held s ∪ wantedSeats seatNumbers)
                          (Engine.booked s))) by apply lookup_insert_eq.
  assert (Hdrive : ∀ ev pay,
            (ev = Engine.PaymentConfirmed ∧ pay = Types.PAID) ∨
            (ev = Engine.PayLaterAccepted ∧ pay = Types.UNPAID) →
            (Engine.drive σ1 bid ev).2
            = inr (Engine.withStatus b Types.CONFIRMED pay)).
  { intros ev pay Hev.
    assert (Engine.transition σ1 bid ev
            = Engine.confirmed σ1 bid b pay) as Htr.
    { unfold Engine.transition, Engine.bind, Engine.findBooking,
        Engine.findSchedule. rewrite Hb. cbn [b pendingBooking Engine.scheduleRef].
      rewrite Hs1. by destruct Hev as [[-> ->]|[-> ->]]. }
    unfold Engine.drive. rewrite Htr.
    unfold Engine.confirmed, Engine.commit, Engine.bind, Engine.findSchedule.
    cbn [b pendingBooking Engine.scheduleRef Engine.seats]. rewrite Hs1.
    rewrite decide_True.
    - unfold Engine.findBooking, Engine.setBooking. cbn [Engine.bookings snd].
      by rewrite lookup_insert_eq.
    - intros n Hn. rewrite held_after_hold by done. by rewrite decide_True. }
  unfold Engine.settle. cbn [b pendingBooking Engine.paymentMethod
    Engine.totalAmount Engine.passenger Engine.identifier].
  fold b. fold bid.
  destruct method.
  - rewrite Hcharge by done.
    by rewrite (Hdrive Engine.PaymentConfirmed Types.PAID) by auto.
  - rewrite Hcharge by done.
    by rewrite (Hdrive Engine.PaymentConfirmed Types.PAID) by auto.
  - by rewrite (Hdrive Engine.PayLaterAccepted Types.UNPAID) by auto.
Qed.

(** ** Review eligibility on both sides *)

(** The front end's [isReviewable] computes the engine's review
    eligibility for a booking with the same status and arrival time. *)
Lemma isReviewable_agrees_with_engine
    (now : Z) (fb : Types.Booking) (s : Engine.Schedule) (b : Engine.Booking) :
  Types.status fb = Engine.status b →
  Types.arrivalTime fb = Engine.arrival s →
  UserTickets.isReviewable now fb = Engine.reviewEligible s b now.
Proof.
  intros Hst Harr. unfold UserTickets.isReviewable, Engine.reviewEligible,
    UserTickets.daysDiff.
  rewrite Hst, Harr. f_equal.
  change (1000 * 60 * 60 * 24) with 86400000.
  change Engine.reviewWindow with (7 * 86400000).
  apply eq_true_iff_eq.
  rewrite Qle_bool_div_iff by lia. by rewrite bool_decide_eq_true.
Qed.

(* ===================================================================== *)
(** * Further properties of the front end *)
(* ===================================================================== *)

(** ** Tickets: buttons and tabs *)

Lemma isReviewable_completed now b :
  UserTickets.isReviewable now b = true → Types.status b = Types.COMPLETED.
Proof.
  unfold UserTickets.isReviewable. rewrite andb_true_iff, bool_decide_eq_true.
  tauto.
Qed.

(** X1. No ticket offers "Cancel Booking" and "Rate Trip" together:
    whatever the instants at which [isCancellable] and [isReviewable]
    read the clock, they are never both true of one booking. *)
Theorem cancel_and_rate_exclusive (now now' : Z) (b : Types.Booking) :
  UserTickets.isCancellable now b && UserTickets.isReviewable now' b = false.
Proof.
  destruct (UserTickets.isCancellable now b) eqn:Hc; [|done].
  destruct (UserTickets.isReviewable now' b) eqn:Hr; [|done].
  apply isCancellable_iff in Hc as (_ & Hc & _).
  by apply isReviewable_completed in Hr.
Qed.

(** X2. For a booking that does not change, once [isCancellable] is
    false it is false at every later instant: the "Cancel Booking"
    button never comes back. *)
Theorem cancel_button_never_returns (now now' : Z) (b : Types.Booking) :
  now ≤ now' →
  UserTickets.isCancellable now b = false →
  UserTickets.isCancellable now' b = false.
Proof.
  intros Hle Hno. apply not_true_is_false. intros Hyes.
  apply isCancellable_iff in Hyes as (H1 & H2 & H3).
  assert (UserTickets.isCancellable now b = true) as Habs; [|congruence].
  apply isCancellable_iff. repeat split; [done..|lia].
Qed.

Lemma cancel_button_never_returns_witness :
  UserTickets.isCancellable 1700013600001 bookingA = false ∧
  UserTickets.isCancellable 1700100000000 bookingA = false.
Proof.
  split; [reflexivity|].
  apply (cancel_button_never_returns 1700013600001 1700100000000 bookingA);
    [lia | reflexivity].
Defined.

Lemma filteredBookings_elem tab clock l b :
  b ∈ TicketTabs.filteredBookings tab clock l ↔
  ∃ i, l !! i = Some b ∧ TicketTabs.matchesFilter tab (clock i) b = true.
Proof.
  unfold TicketTabs.filteredBookings. rewrite list_elem_of_fmap. split.
  - intros ([i b'] & -> & Hin). apply list_elem_of_filter in Hin as [Hm Hin].
    apply list_elem_of_lookup in Hin as [j Hj].
    apply list_lookup_imap_Some in Hj as (b'' & Hl & [= <- <-]).
    by eexists.
  - intros (i & Hl & Hm). exists (i, b). split; [done|].
    apply list_elem_of_filter. split; [done|].
    apply list_elem_of_lookup. exists i.
    apply list_lookup_imap_Some. by exists b.
Qed.

Lemma imap_pair_snd {A} (l : list A) : (imap pair l).*2 = l.
Proof.
  apply list_eq. intros i.
  rewrite list_lookup_fmap, list_lookup_imap. by destruct (l !! i).
Qed.

Lemma filter_true_id {A} (P : A → Prop) `{∀ x, Decision (P x)} (l : list A) :
  (∀ x, x ∈ l → P x) → filter P l = l.
Proof.
  induction l as [|x l IH]; intros Hl; [done|].
  rewrite filter_cons_True by (apply Hl; left).
  f_equal. apply IH. intros y Hy. apply Hl. by right.
Qed.

(** X3. The tabs of the ticket list: "all" shows the whole list; every
    tab shows a sublist of it, in the list's order; a booking is on a tab
    exactly when it stands at some index of the list and the tab's test
    holds at the instant read for that index; and the bookings no tab
    but "all" shows are exactly the PENDING and CONFIRMED ones whose
    departure is not after that instant. *)
Theorem ticket_tabs (clock : nat → Z) (l : list Types.Booking) :
  TicketTabs.filteredBookings TicketTabs.all clock l = l ∧
  (∀ tab, TicketTabs.filteredBookings tab clock l `sublist_of` l) ∧
  (∀ tab b,
     b ∈ TicketTabs.filteredBookings tab clock l ↔
     ∃ i, l !! i = Some b ∧ TicketTabs.matchesFilter tab (clock i) b = true) ∧
  (∀ now b,
     (∀ tab, tab ≠ TicketTabs.all → TicketTabs.matchesFilter tab now b = false) ↔
     (Types.status b = Types.PENDING ∨ Types.status b = Types.CONFIRMED) ∧
     Types.departureTime b ≤ now).
Proof.
  split; [|split; [|split]].
  - unfold TicketTabs.filteredBookings.
    rewrite filter_true_id by done. apply imap_pair_snd.
  - intros tab. unfold TicketTabs.filteredBookings.
    rewrite <- (imap_pair_snd l) at 2.
    apply fmap_sublist, sublist_filter.
  - intros tab b. apply filteredBookings_elem.
  - intros now b. split.
    + intros Hno.
      pose proof (Hno TicketTabs.upcoming ltac:(done)) as Hu.
      pose proof (Hno TicketTabs.completed ltac:(done)) as Hc.
      pose proof (Hno TicketTabs.cancelled ltac:(done)) as Hx.
      cbn in Hu, Hc, Hx.
      apply bool_decide_eq_false in Hc, Hx.
      rewrite bool_decide_eq_true_2 in Hu by done. cbn in Hu.
      apply bool_decide_eq_false in Hu.
      split; [destruct (Types.status b); tauto | lia].
    + intros [Hst Hdep] tab Htab. destruct tab; [done| | |]; cbn.
      * rewrite (bool_decide_eq_false_2 (now < _)) by lia.
        apply andb_false_r.
      * apply bool_decide_eq_false_2. destruct Hst as [-> | ->]; done.
      * apply bool_decide_eq_false_2. destruct Hst as [-> | ->]; done.
Qed.

(** X4. A ticket that offers "Cancel Booking" is on the "upcoming" tab,
    and on neither the "completed" nor the "cancelled" tab, provided the
    filter read the clock no later than [isCancellable] does (it runs
    first in a render). *)
Theorem cancellable_ticket_is_upcoming
    (clock : nat → Z) (l : list Types.Booking) (i : nat) (b : Types.Booking)
    (now : Z) :
  l !! i = Some b →
  clock i ≤ now →
  UserTickets.isCancellable now b = true →
  b ∈ TicketTabs.filteredBookings TicketTabs.upcoming clock l ∧
  (b ∉ TicketTabs.filteredBookings TicketTabs.cancelled clock l) ∧
  (b ∉ TicketTabs.filteredBookings TicketTabs.completed clock l).
Proof.
  intros Hl Hclock Hc. apply isCancellable_iff in Hc as (Hx & Hd & Hw).
  rewrite !filteredBookings_elem. split; [|split].
  - exists i. split; [done|]. cbn.
    rewrite !bool_decide_eq_true_2; [done | lia | done].
  - intros (j & _ & Hm). cbn in Hm. by apply bool_decide_eq_true in Hm.
  - intros (j & _ & Hm). cbn in Hm. by apply bool_decide_eq_true in Hm.
Qed.

Lemma cancellable_ticket_is_upcoming_witness :
  bookingA ∈ TicketTabs.filteredBookings TicketTabs.upcoming
               (λ _, 1700000003000) [bookingA; bookingB].
Proof.
  apply (cancellable_ticket_is_upcoming (λ _, 1700000003000)
           [bookingA; bookingB] 0 bookingA 1700000003000);
    [reflexivity | lia | reflexivity].
Defined.

Lemma page_cancel_lookup bookingId (l : list Types.Booking) :
  map (λ booking,
         if bool_decide (Types.id booking = bookingId)
         then Types.with_status booking Types.CANCELLED
         else booking) l
  = UseBooking.cancelUpdater bookingId l.
Proof. reflexivity. Qed.

(** X5. After a cancellation through the ticket's button has succeeded,
    the list still holds a booking of that id, and every booking of that
    id in it is never offered cancellation again, at any instant; it is
    on the "cancelled" tab and off the "upcoming" one. *)
Theorem cancelled_ticket_stays_cancelled
    (now : Z) (post : UseBooking.ApiOutcome) (booking : Types.Booking)
    (st st' : UserDashboardPage.PageState) :
  booking ∈ UserDashboardPage.bookings st →
  CancelButton.pressCancel now post booking st
    = (st', CancelButton.Requested true) →
  (∃ b', b' ∈ UserDashboardPage.bookings st' ∧
         Types.id b' = Types.id booking) ∧
  ∀ b', b' ∈ UserDashboardPage.bookings st' →
        Types.id b' = Types.id booking →
        (∀ now' post',
           CancelButton.pressCancel now' post' b' st'
             = (st', CancelButton.NotOffered)) ∧
        (∀ now', TicketTabs.matchesFilter TicketTabs.cancelled now' b' = true ∧
                 TicketTabs.matchesFilter TicketTabs.upcoming now' b' = false).
Proof.
  intros Hin Hpress. unfold CancelButton.pressCancel in Hpress.
  destruct (UserTickets.isCancellable now booking); [|done].
  destruct post; cbn in Hpress; [|done].
  injection Hpress as <-. cbn [UserDashboardPage.bookings].
  rewrite page_cancel_lookup.
  assert (∀ b', b' ∈ UseBooking.cancelUpdater (Types.id booking)
                        (UserDashboardPage.bookings st) →
                Types.id b' = Types.id booking →
                Types.status b' = Types.CANCELLED) as Hcancelled.
  { intros b' Hb' Hid. by eapply cancelUpdater_cancels. }
  split.
  - exists (UseBooking.markCancelled (Types.id booking) booking). split.
    + unfold UseBooking.cancelUpdater. apply list_elem_of_fmap. eauto.
    + unfold UseBooking.markCancelled. by rewrite bool_decide_eq_true_2.
  - intros b' Hb' Hid. specialize (Hcancelled b' Hb' Hid). split.
    + intros now' post'. unfold CancelButton.pressCancel.
      destruct (UserTickets.isCancellable now' b') eqn:Hc; [|done].
      apply isCancellable_iff in Hc as (Hc & _). done.
    + intros now'. cbn. rewrite Hcancelled. done.
Qed.

Lemma cancelled_ticket_stays_cancelled_witness :
  ∃ b', b' ∈ UserDashboardPage.bookings
               (CancelButton.pressCancel 1700000003000 UseBooking.Resolved bookingA
                  {| UserDashboardPage.bookings := [bookingA; bookingB];
                     UserDashboardPage.toasts := [] |}).1 ∧
        Types.id b' = Types.id bookingA.
Proof.
  apply (cancelled_ticket_stays_cancelled 1700000003000 UseBooking.Resolved
           bookingA
           {| UserDashboardPage.bookings := [bookingA; bookingB];
              UserDashboardPage.toasts := [] |}).
  - apply list_elem_of_here.
  - reflexivity.
Defined.

(** X6. The operator's dashboard and the passenger's ticket list offer
    cancellation differently.  The operator is offered it exactly for
    CONFIRMED bookings, at any time; only the passenger is offered it
    exactly for PENDING bookings more than 24 hours before departure;
    only the operator is offered it exactly for CONFIRMED bookings with
    24 hours or less to departure.  For a CONFIRMED booking the
    operator's confirmed cancellation sends the request and updates the
    list as [cancelUpdater] does. *)
Theorem operator_and_passenger_cancellation
    (now : Z) (b : Types.Booking) (st : BookingManagement.State) :
  (BookingManagement.cancelOffered b = true ↔
     Types.status b = Types.CONFIRMED) ∧
  (UserTickets.isCancellable now b = true ∧
   BookingManagement.cancelOffered b = false ↔
     Types.status b = Types.PENDING ∧
     24 * 60 * 60 * 1000 < Types.departureTime b - now) ∧
  (BookingManagement.cancelOffered b = true ∧
   UserTickets.isCancellable now b = false ↔
     Types.status b = Types.CONFIRMED ∧
     Types.departureTime b - now ≤ 24 * 60 * 60 * 1000) ∧
  (Types.status b = Types.CONFIRMED →
     BookingManagement.pressCancel UseBooking.Resolved b st
       = ((BookingManagement.pressCancel UseBooking.Resolved b st).1,
          CancelButton.Requested true) ∧
     BookingManagement.bookings
       (BookingManagement.pressCancel UseBooking.Resolved b st).1
       = UseBooking.cancelUpdater (Types.id b) (BookingManagement.bookings st)).
Proof.
  assert (BookingManagement.cancelOffered b = true ↔
          Types.status b = Types.CONFIRMED) as Hop.
  { unfold BookingManagement.cancelOffered. apply bool_decide_eq_true. }
  assert (BookingManagement.cancelOffered b = false ↔
          Types.status b ≠ Types.CONFIRMED) as Hop'.
  { rewrite <- Hop. by destruct (BookingManagement.cancelOffered b). }
  assert (UserTickets.isCancellable now b = false ↔
          ¬ (Types.status b ≠ Types.CANCELLED ∧
             Types.status b ≠ Types.COMPLETED ∧
             24 * 3600000 < Types.departureTime b - now)) as Hno.
  { rewrite <- isCancellable_iff.
    by destruct (UserTickets.isCancellable now b). }
  split; [done|]. split; [|split].
  - rewrite isCancellable_iff, Hop'.
    destruct (Types.status b); split; intros; intuition (try done; try lia).
  - rewrite Hop, Hno.
    destruct (Types.status b); split; intros; intuition (try done; try lia).
  - intros Hst. apply Hop in Hst.
    unfold BookingManagement.pressCancel. rewrite Hst. done.
Qed.

Lemma markCancelled_idem a b :
  UseBooking.markCancelled a (UseBooking.markCancelled a b)
  = UseBooking.markCancelled a b.
Proof.
  unfold UseBooking.markCancelled.
  destruct (decide (Types.id b = a)) as [Ha|Ha].
  - rewrite (bool_decide_eq_true_2 _ Ha). cbn [Types.id Types.with_status].
    by rewrite (bool_decide_eq_true_2 _ Ha).
  - by rewrite !(bool_decide_eq_false_2 _ Ha).
Qed.

Lemma markCancelled_comm a a' b :
  UseBooking.markCancelled a (UseBooking.markCancelled a' b)
  = UseBooking.markCancelled a' (UseBooking.markCancelled a b).
Proof.
  unfold UseBooking.markCancelled.
  destruct (decide (Types.id b = a)) as [Ha|Ha],
           (decide (Types.id b = a')) as [Ha'|Ha'];
    repeat (first [ rewrite (bool_decide_eq_true_2 _ Ha)
                  | rewrite (bool_decide_eq_true_2 _ Ha')
                  | rewrite (bool_decide_eq_false_2 _ Ha)
                  | rewrite (bool_decide_eq_false_2 _ Ha')
                  | progress cbn [Types.id Types.with_status] ]);
    done.
Qed.

(** X7. The list update of a cancellation is idempotent, two of them
    commute, it keeps the ids position by position, and every booking of
    the result is CANCELLED or was in the list before. *)
Theorem cancelUpdater_algebra (a a' : string) (l : list Types.Booking) :
  UseBooking.cancelUpdater a (UseBooking.cancelUpdater a l)
    = UseBooking.cancelUpdater a l ∧
  UseBooking.cancelUpdater a (UseBooking.cancelUpdater a' l)
    = UseBooking.cancelUpdater a' (UseBooking.cancelUpdater a l) ∧
  Types.id <$> UseBooking.cancelUpdater a l = Types.id <$> l ∧
  (∀ b, b ∈ UseBooking.cancelUpdater a l →
        Types.status b = Types.CANCELLED ∨ b ∈ l).
Proof.
  unfold UseBooking.cancelUpdater. split; [|split; [|split]].
  - rewrite map_map. apply map_ext. intros. apply markCancelled_idem.
  - rewrite !map_map. apply map_ext. intros. apply markCancelled_comm.
  - change (@map) with (@fmap list _). rewrite <- list_fmap_compose.
    apply list_fmap_ext. intros _ b _. cbn.
    unfold UseBooking.markCancelled. by case_bool_decide.
  - intros b Hb. apply list_elem_of_fmap in Hb as (b0 & -> & Hb0).
    unfold UseBooking.markCancelled. case_bool_decide; [by left | by right].
Qed.

(** ** The API hook *)

Lemma orString_nonempty a b : b ≠ "" → UseApi.orString a b ≠ "".
Proof.
  intros Hb. unfold UseApi.orString. destruct a as [s|]; [|done].
  by case_bool_decide.
Qed.

Lemma errorMsg_nonempty options message :
  UseApi.errorMsg options message ≠ "".
Proof. unfold UseApi.errorMsg. by do 2 apply orString_nonempty. Qed.

(** X8. [request] always ends with [loading] false.  It leaves no error
    exactly when the call was fulfilled; then it returns the response
    data, stores it, and shows the success message (by default
    'Operation completed successfully') only if [showSuccessToast] is
    set.  When the call is rejected it rethrows, resets [data] to the
    initial state and stores an error that is never empty: the caller's
    [errorMessage] if not empty, else the server's message if not empty,
    else the default; the error toast, shown unless [showErrorToast] is
    false, carries the same text. *)
Theorem request_outcome {T} (initialState : option T)
    (options : UseApi.UseApiOptions) (outcome : UseApi.AxiosOutcome T)
    (toasts : list UseApi.Toast) :
  let r := UseApi.request initialState options outcome toasts in
  UseApi.loading r.1.1 = false ∧
  (UseApi.error r.1.1 = None ↔ ∃ d, outcome = UseApi.Fulfilled d) ∧
  (∀ d, outcome = UseApi.Fulfilled d →
        r.2 = UseApi.Returned d ∧ UseApi.data r.1.1 = Some d ∧
        r.1.2 = if default false (UseApi.showSuccessToast options)
                then toasts ++ [(default "Operation completed successfully"
                                   (UseApi.successMessage options),
                                 BookingForm.success)]
                else toasts) ∧
  (∀ message, outcome = UseApi.Rejected message →
        ∃ m, UseApi.error r.1.1 = Some m ∧ m ≠ "" ∧
             r.2 = UseApi.Thrown ∧ UseApi.data r.1.1 = initialState ∧
             r.1.2 = (if default true (UseApi.showErrorToast options)
                      then toasts ++ [(m, BookingForm.toast_error)]
                      else toasts) ∧
             m = match UseApi.errorMessage options, message with
                 | Some own, _ =>
                     if bool_decide (own ≠ "") then own
                     else match message with
                          | Some server =>
                              if bool_decide (server ≠ "") then server
                              else UseApi.API_ERROR_MESSAGES_DEFAULT
                          | None => UseApi.API_ERROR_MESSAGES_DEFAULT
                          end
                 | None, Some server =>
                     if bool_decide (server ≠ "") then server
                     else UseApi.API_ERROR_MESSAGES_DEFAULT
                 | None, None => UseApi.API_ERROR_MESSAGES_DEFAULT
                 end).
Proof.
  intros r. subst r. destruct outcome as [d|message]; cbn.
  - split; [done|]. split; [split; [by eauto | done]|]. split.
    + by intros ? [= <-].
    + by intros ? [=].
  - split; [done|]. split; [by split; [|intros [? [=]]]|]. split.
    + by intros ? [=].
    + intros ? [= <-]. exists (UseApi.errorMsg options message).
      split; [done|]. split; [apply errorMsg_nonempty|].
      do 3 (split; [done|]).
      unfold UseApi.errorMsg, UseApi.orString.
      destruct (UseApi.errorMessage options) as [own|], message as [server|];
        repeat case_bool_decide; try done; try congruence.
Qed.

(** X9. [cancelBooking] of the hook, run over [request], leaves the
    hook state and returns the boolean that its model by the outcome of
    [api.post] gives.  On success it shows one toast, 'Booking cancelled
    successfully'; on failure it shows two error toasts, the server's
    message (or the default one) and then 'Failed to cancel booking'. *)
Theorem cancelBooking_over_request {T} (outcome : UseApi.AxiosOutcome T)
    (bookingId : string) (st : UseBookingApi.State) :
  (UseBookingApi.hook (UseBookingApi.cancelBooking outcome bookingId st).1,
   (UseBookingApi.cancelBooking outcome bookingId st).2)
  = UseBooking.cancelBooking (UseBookingApi.settled outcome) bookingId
      (UseBookingApi.hook st) ∧
  UseBookingApi.toasts (UseBookingApi.cancelBooking outcome bookingId st).1
  = UseBookingApi.toasts st ++
    match outcome with
    | UseApi.Fulfilled _ =>
        [("Booking cancelled successfully"%string, BookingForm.success)]
    | UseApi.Rejected message =>
        [(UseApi.orString message UseApi.API_ERROR_MESSAGES_DEFAULT,
          BookingForm.toast_error);
         ("Failed to cancel booking"%string, BookingForm.toast_error)]
    end.
Proof.
  destruct outcome as [d|message]; cbn; (split; [done|]).
  - done.
  - unfold UseBookingApi.showToast. by rewrite <- app_assoc.
Qed.

(** X10. [createBooking] of the hook always ends with [isLoading]
    false.  On success it returns the response's booking, clears the
    error, shows 'Booking successful!', and puts the booking at the head
    of the list for an authenticated user while a guest's list stays as
    it is; cancelling that booking afterwards leaves it CANCELLED at
    the head.  The posted body carries the guest's name, e-mail and
    phone only when the user is not authenticated.  On failure it
    rethrows, keeps the list, and shows two error toasts. *)
Theorem createBooking_list (isAuthenticated : bool)
    (outcome : UseApi.AxiosOutcome Types.Booking) (st : UseBookingApi.State) :
  let r := UseBookingApi.createBooking isAuthenticated outcome st in
  UseBooking.isLoading (UseBookingApi.hook r.1) = false ∧
  (∀ data, outcome = UseApi.Fulfilled data →
     r.2 = UseApi.Returned data ∧
     UseBooking.error (UseBookingApi.hook r.1) = None ∧
     UseBooking.bookings (UseBookingApi.hook r.1)
       = (if isAuthenticated then [data] else [])
         ++ UseBooking.bookings (UseBookingApi.hook st) ∧
     UseBookingApi.toasts r.1
       = UseBookingApi.toasts st
         ++ [("Booking successful!"%string, BookingForm.success)] ∧
     ∀ (T : Type) (cancelled : T),
       UseBooking.bookings
         (UseBookingApi.hook
            (UseBookingApi.cancelBooking (UseApi.Fulfilled cancelled)
               (Types.id data) r.1).1)
       = (if isAuthenticated
          then [Types.with_status data Types.CANCELLED] else [])
         ++ UseBooking.cancelUpdater (Types.id data)
              (UseBooking.bookings (UseBookingApi.hook st))) ∧
  (∀ params,
     UseBookingApi.payload_seatNumbers
       (UseBookingApi.bookingPayload isAuthenticated params)
       = UseBookingApi.seatNumbers params ∧
     (UseBookingApi.payload_guestName
        (UseBookingApi.bookingPayload isAuthenticated params),
      UseBookingApi.payload_guestEmail
        (UseBookingApi.bookingPayload isAuthenticated params),
      UseBookingApi.payload_guestPhone
        (UseBookingApi.bookingPayload isAuthenticated params))
     = if isAuthenticated then (None, None, None)
       else (UseBookingApi.guestName params,
             UseBookingApi.guestEmail params,
             UseBookingApi.guestPhone params)) ∧
  (∀ message, outcome = UseApi.Rejected message →
     r.2 = UseApi.Thrown ∧
     UseBooking.error (UseBookingApi.hook r.1)
       = Some "Failed to create booking"%string ∧
     UseBooking.bookings (UseBookingApi.hook r.1)
       = UseBooking.bookings (UseBookingApi.hook st) ∧
     UseBookingApi.toasts r.1
       = UseBookingApi.toasts st
         ++ [(UseApi.orString message UseApi.API_ERROR_MESSAGES_DEFAULT,
              BookingForm.toast_error);
             ("Failed to create booking"%string, BookingForm.toast_error)]).
Proof.
  intros r. subst r. destruct outcome as [d|message]; cbn.
  - split; [done|]. split; [|split; [by destruct isAuthenticated|by intros ? [=]]].
    intros ? [= <-]. do 4 (split; [by destruct isAuthenticated|]).
    intros T cancelled. destruct isAuthenticated; cbn; [|done].
    unfold UseBooking.markCancelled at 1. by rewrite bool_decide_eq_true_2.
  - split; [done|]. split; [by intros ? [=]|].
    split; [by destruct isAuthenticated|].
    intros ? [= <-]. do 3 (split; [done|]).
    unfold UseBookingApi.showToast. by rewrite <- app_assoc.
Qed.

(** ** The booking form, once more *)

Lemma reachable_length_max props st :
  BookingForm.reachable props st →
  Z.of_nat (length (BookingForm.selectedSeats st))
    ≤ Z.max 0 (BookingForm.passengers props).
Proof.
  induction 1 as [|st n _ IH|st ? ? ? ? _ IH]; [simpl; lia| |].
  - rewrite toggleSeatSelection_seats.
    case_bool_decide as Hin.
    + pose proof (length_filter (λ seat, seat ≠ n) (BookingForm.selectedSeats st)).
      lia.
    + unfold BookingForm.fewerThanPassengers. case_bool_decide; [|done].
      rewrite length_app. simpl. lia.
  - by rewrite onSubmit_seats.
Qed.

(** X11. In every state the booking form can reach, no seat is selected
    twice and at most [passengers] seats are selected (none when
    [passengers] is negative). *)
Theorem form_selection_invariant
    (props : BookingForm.BookingFormProps) (st : BookingForm.FormState) :
  BookingForm.reachable props st →
  NoDup (BookingForm.selectedSeats st) ∧
  Z.of_nat (length (BookingForm.selectedSeats st))
    ≤ Z.max 0 (BookingForm.passengers props).
Proof.
  intros Hreach. split.
  - by apply (reachable_NoDup props).
  - by apply reachable_length_max.
Qed.

Lemma form_selection_invariant_witness :
  NoDup (BookingForm.selectedSeats seatPicked) ∧
  Z.of_nat (length (BookingForm.selectedSeats seatPicked)) ≤ 1.
Proof.
  apply (form_selection_invariant formProps seatPicked), seatPicked_reachable.
Defined.

Lemma filter_ne_snoc (n : nat) (l : list nat) :
  n ∉ l → filter (λ seat, seat ≠ n) (l ++ [n]) = l.
Proof.
  intros Hn. rewrite filter_app, filter_cons_False, filter_nil, app_nil_r by auto.
  apply filter_true_id. intros x Hx ->. done.
Qed.

(** X12. Selecting a seat that is not selected, while fewer than
    [passengers] seats are, selects it; clicking it again gives back the
    state before the first click. *)
Theorem toggleSeatSelection_round_trip
    (props : BookingForm.BookingFormProps) (seatNumber : nat)
    (st : BookingForm.FormState) :
  seatNumber ∉ BookingForm.selectedSeats st →
  Z.of_nat (length (BookingForm.selectedSeats st)) < BookingForm.passengers props →
  seatNumber ∈ BookingForm.selectedSeats
                 (BookingForm.toggleSeatSelection props seatNumber st) ∧
  BookingForm.toggleSeatSelection props seatNumber
    (BookingForm.toggleSeatSelection props seatNumber st) = st.
Proof.
  intros Hn Hroom.
  assert (BookingForm.toggleSeatSelection props seatNumber st
          = BookingForm.setSelectedSeats
              (BookingForm.selectedSeats st ++ [seatNumber]) st) as ->.
  { unfold BookingForm.toggleSeatSelection, BookingForm.fewerThanPassengers.
    by rewrite (bool_decide_eq_false_2 _ Hn), (bool_decide_eq_true_2 _ Hroom). }
  assert (seatNumber ∈ BookingForm.selectedSeats st ++ [seatNumber]) as Hin.
  { apply elem_of_app. right. apply list_elem_of_here. }
  split; [exact Hin|].
  unfold BookingForm.toggleSeatSelection, BookingForm.setSelectedSeats.
  cbn [BookingForm.selectedSeats BookingForm.isSubmitting BookingForm.toasts].
  rewrite (bool_decide_eq_true_2 _ Hin), filter_ne_snoc by done.
  by destruct st.
Qed.

Lemma toggleSeatSelection_round_trip_witness :
  BookingForm.toggleSeatSelection formProps 1%nat seatPicked
  = BookingForm.initialState.
Proof.
  apply (toggleSeatSelection_round_trip formProps 1%nat BookingForm.initialState).
  - apply not_elem_of_nil.
  - reflexivity.
Defined.

(** X13. [onSubmit] of the booking form always ends with
    [isSubmitting] false, keeps the selection and adds exactly one
    toast, a success toast if a booking is handed on and an error toast
    otherwise.  A booking is handed on exactly when at least
    [passengers] seats are selected and the API call did not throw; it
    is the response's booking, or else one holding the selected
    seats. *)
Theorem onSubmit_contract
    (props : BookingForm.BookingFormProps) (user_id : option string)
    (response : BookingForm.ApiResponse) (clk : BookingForm.Clock)
    (data : BookingForm.BookingFormData) (st : BookingForm.FormState) :
  let r := BookingForm.onSubmit props user_id response clk data st in
  BookingForm.isSubmitting r.1 = false ∧
  BookingForm.selectedSeats r.1 = BookingForm.selectedSeats st ∧
  (∃ text, BookingForm.toasts r.1
           = BookingForm.toasts st
             ++ [(text, match r.2 with
                        | Some _ => BookingForm.success
                        | None => BookingForm.toast_error
                        end)]) ∧
  (is_Some r.2 ↔
     BookingForm.passengers props
       ≤ Z.of_nat (length (BookingForm.selectedSeats st)) ∧
     response ≠ BookingForm.ApiThrew) ∧
  (∀ b, r.2 = Some b →
        response = BookingForm.ApiResolved (Some b) ∨
        (response = BookingForm.ApiResolved None ∧
         Types.seatNumbers b = BookingForm.selectedSeats st)).
Proof.
  intros r. subst r. unfold BookingForm.onSubmit, BookingForm.fewerThanPassengers.
  cbn [BookingForm.setIsSubmitting BookingForm.selectedSeats].
  case_bool_decide as Hlt.
  - cbn. split; [done|]. split; [done|]. split; [by eauto|].
    split; [|by intros ? [=]].
    split; [by intros [? [=]] | lia].
  - destruct response as [[b0|]|]; cbn.
    + split; [done|]. split; [done|]. split; [by eauto|].
      split; [split; [intros _; split; [lia | done] | by eauto]|].
      intros ? [= <-]. by left.
    + split; [done|]. split; [done|]. split; [by eauto|].
      split; [split; [intros _; split; [lia | done] | by eauto]|].
      intros ? [= <-]. by right.
    + split; [done|]. split; [done|]. split; [by eauto|].
      split; [|by intros ? [=]].
      split; [by intros [? [=]] | by intros [_ ?]].
Qed.

Lemma seatButtons_NoDup : NoDup SeatGrid.seatButtons.
Proof.
  unfold SeatGrid.seatButtons. apply NoDup_fmap_2; [|apply NoDup_seq].
  intros x y. lia.
Qed.

Lemma seatButtons_elem n : n ∈ SeatGrid.seatButtons ↔ (1 ≤ n ≤ 40)%nat.
Proof.
  unfold SeatGrid.seatButtons. rewrite list_elem_of_fmap.
  change (Z.to_nat BookingForm.totalBusSeats) with 40%nat. split.
  - intros (i & -> & Hi). apply elem_of_seq in Hi. lia.
  - intros Hn. exists (n - 1)%nat. split; [lia|]. apply elem_of_seq. lia.
Qed.

Lemma length_enabled (u : list Z) (l : list nat) :
  NoDup l →
  (length l ≤ length (filter (λ n, SeatGrid.isUnavailable u n = false) l)
             + length u)%nat.
Proof.
  intros Hl.
  pose proof (filter_app_complement
                (λ n, SeatGrid.isUnavailable u n = false) l) as Hperm.
  apply Permutation_length in Hperm. rewrite length_app in Hperm.
  set (bad := filter (λ n, ¬ SeatGrid.isUnavailable u n = false) l) in *.
  assert (length bad ≤ length u)%nat; [|lia].
  rewrite <- (length_fmap Z.of_nat bad). apply submseteq_length.
  apply NoDup_submseteq.
  - apply NoDup_fmap_2; [apply _|]. by apply NoDup_filter.
  - intros z Hz. apply list_elem_of_fmap in Hz as (n & -> & Hn).
    apply list_elem_of_filter in Hn as [Hn _].
    unfold SeatGrid.isUnavailable in Hn.
    apply not_false_is_true, bool_decide_eq_true in Hn. done.
Qed.

(** X14. One render of the seat grid draws [40 - availableSeats]
    unavailable seats (none if that is negative) and leaves at least
    [min 40 availableSeats] buttons enabled; an enabled button carries a
    seat number from 1 to 40 that was not drawn. *)
Theorem enabled_seats_suffice
    (props : BookingForm.BookingFormProps) (draws : nat → Q) :
  length (BookingForm.unavailableSeats props draws)
    = Z.to_nat (40 - BookingForm.availableSeats props) ∧
  Z.min 40 (BookingForm.availableSeats props)
    ≤ Z.of_nat (length (SeatGrid.enabledSeats props draws)) ∧
  (∀ seatNumber, seatNumber ∈ SeatGrid.enabledSeats props draws →
     (1 ≤ seatNumber ≤ 40)%nat ∧
     Z.of_nat seatNumber ∉ BookingForm.unavailableSeats props draws).
Proof.
  assert (length (BookingForm.unavailableSeats props draws)
          = Z.to_nat (40 - BookingForm.availableSeats props)) as Hlen.
  { unfold BookingForm.unavailableSeats. by rewrite length_map, length_seq. }
  split; [done|]. split.
  - pose proof (length_enabled (BookingForm.unavailableSeats props draws)
                  SeatGrid.seatButtons seatButtons_NoDup) as Hle.
    fold (SeatGrid.enabledSeats props draws) in Hle.
    assert (length SeatGrid.seatButtons = 40%nat) as H40 by reflexivity.
    lia.
  - intros n Hn. unfold SeatGrid.enabledSeats in Hn.
    apply list_elem_of_filter in Hn as [Hfree Hn].
    split; [by apply seatButtons_elem|].
    unfold SeatGrid.isUnavailable in Hfree.
    by apply bool_decide_eq_false in Hfree.
Qed.

(** X15. Two bookings made up by the form have the same [id] exactly
    when [Date.now()] gave the same value for both. *)
Theorem mockBooking_id_by_clock
    (props props' : BookingForm.BookingFormProps) (user_id user_id' : option string)
    (data data' : BookingForm.BookingFormData) (seats seats' : list nat)
    (clk clk' : BookingForm.Clock) :
  Types.id (BookingForm.mockBooking props user_id data seats clk)
  = Types.id (BookingForm.mockBooking props' user_id' data' seats' clk')
  ↔ BookingForm.dateNow clk = BookingForm.dateNow clk'.
Proof.
  cbn [BookingForm.mockBooking Types.id]. split; [|by intros ->].
  assert (∀ s, "booking-" +:+ s
               = String "b" (String "o" (String "o" (String "k"
                   (String "i" (String "n" (String "g" (String "-" s))))))))
    as Happ by done.
  rewrite !Happ. intros [= Heq]. by apply (inj pretty) in Heq.
Qed.

Lemma grid_reachable props st :
  SeatGrid.reachable props st → BookingForm.reachable props st.
Proof.
  induction 1; [constructor | by constructor | by constructor].
Qed.

Lemma grid_selection props st :
  SeatGrid.reachable props st →
  ∀ n, n ∈ BookingForm.selectedSeats st → n ∈ SeatGrid.seatButtons.
Proof.
  induction 1 as [|st n Hn _ IH|st ? ? ? ? _ IH]; intros m Hm.
  - by apply not_elem_of_nil in Hm.
  - rewrite toggleSeatSelection_seats in Hm.
    case_bool_decide.
    + apply list_elem_of_filter in Hm as [_ Hm]. by apply IH.
    + case_match; [|by apply IH].
      apply elem_of_app in Hm as [Hm|Hm]; [by apply IH|].
      by apply list_elem_of_singleton in Hm as ->.
  - rewrite onSubmit_seats in Hm. by apply IH.
Qed.

(** X16. By clicking the buttons of the seat grid, at most 40 seats are
    ever selected, all numbered 1 to 40; so for a party of more than 40
    no submission hands on a booking. *)
Theorem grid_limits_party
    (props : BookingForm.BookingFormProps) (st : BookingForm.FormState) :
  SeatGrid.reachable props st →
  (length (BookingForm.selectedSeats st) ≤ 40)%nat ∧
  (∀ n, n ∈ BookingForm.selectedSeats st → (1 ≤ n ≤ 40)%nat) ∧
  (40 < BookingForm.passengers props →
     ∀ user_id response clk data,
       (BookingForm.onSubmit props user_id response clk data st).2 = None).
Proof.
  intros Hreach.
  assert (length (BookingForm.selectedSeats st) ≤ 40)%nat as Hlen.
  { change 40%nat with (length SeatGrid.seatButtons).
    apply submseteq_length, NoDup_submseteq.
    - by apply (reachable_NoDup props), grid_reachable.
    - by apply (grid_selection props). }
  split; [done|]. split.
  - intros n Hn. by apply seatButtons_elem, (grid_selection props st).
  - intros Hparty user_id response clk data.
    unfold BookingForm.onSubmit, BookingForm.fewerThanPassengers.
    cbn [BookingForm.setIsSubmitting BookingForm.selectedSeats].
    rewrite bool_decide_eq_true_2 by lia. done.
Qed.

Lemma grid_limits_party_witness :
  (BookingForm.onSubmit coachParty None (BookingForm.ApiResolved None) clockA
     (formData BookingForm.form_mobile_money) BookingForm.initialState).2
  = None.
Proof.
  refine (proj2 (proj2 (grid_limits_party coachParty BookingForm.initialState _))
            _ None (BookingForm.ApiResolved None) clockA
            (formData BookingForm.form_mobile_money)).
  - apply SeatGrid.grid_init.
  - reflexivity.
Defined.

(** X17. While the "Complete Booking" button is enabled, a
    submission hands on a booking exactly when the API call does not
    throw, and its one toast is 'Booking successful!' or 'Booking
    failed. Please try again.', never the request to select seats; in a
    state the form can reach, the button is enabled only with exactly
    [passengers] seats selected (none when [passengers] is
    negative). *)
Theorem submit_button_guard
    (props : BookingForm.BookingFormProps) (user_id : option string)
    (response : BookingForm.ApiResponse) (clk : BookingForm.Clock)
    (data : BookingForm.BookingFormData) (st : BookingForm.FormState) :
  SeatGrid.submitDisabled props st = false →
  let r := BookingForm.onSubmit props user_id response clk data st in
  (is_Some r.2 ↔ response ≠ BookingForm.ApiThrew) ∧
  (BookingForm.toasts r.1
   = BookingForm.toasts st
     ++ [match response with
         | BookingForm.ApiThrew =>
             ("Booking failed. Please try again."%string,
              BookingForm.toast_error)
         | BookingForm.ApiResolved _ =>
             ("Booking successful!"%string, BookingForm.success)
         end]) ∧
  (BookingForm.reachable props st →
   Z.of_nat (length (BookingForm.selectedSeats st))
   = Z.max 0 (BookingForm.passengers props)).
Proof.
  intros Hbutton r. subst r.
  unfold SeatGrid.submitDisabled in Hbutton.
  apply orb_false_iff in Hbutton as [_ Hfewer].
  split; [|split].
  - unfold BookingForm.onSubmit.
    cbn [BookingForm.setIsSubmitting BookingForm.selectedSeats].
    rewrite Hfewer. destruct response as [d|]; cbn.
    + split; [done | by eauto].
    + split; [by intros [? [=]] | done].
  - unfold BookingForm.onSubmit.
    cbn [BookingForm.setIsSubmitting BookingForm.selectedSeats].
    rewrite Hfewer. by destruct response as [d|].
  - intros Hreach.
    unfold BookingForm.fewerThanPassengers in Hfewer.
    apply bool_decide_eq_false in Hfewer.
    pose proof (reachable_length_max props st Hreach). lia.
Qed.

Lemma submit_button_guard_witness :
  is_Some (BookingForm.onSubmit formProps None (BookingForm.ApiResolved None)
             clockA (formData BookingForm.form_mobile_money) seatPicked).2.
Proof.
  refine (proj2 (proj1 (submit_button_guard formProps None
                          (BookingForm.ApiResolved None) clockA
                          (formData BookingForm.form_mobile_money) seatPicked _))
            _).
  - reflexivity.
  - discriminate.
Defined.

(** ** The total amount of a negative party *)

(** C7. The total amount is [price * passengers], and the form ties the
    number of seats to [passengers] only by refusing fewer.  The search
    page takes the count from the URL without the check the search form
    makes: with [passengers=-3] "Book Now" navigates, the booking page
    hands the count to the form, the "Complete Booking" button is enabled
    on the untouched form, and the submission hands on a booking of no
    seat whose total amount is -15000, where the seat price times the
    number of seats is 0. *)
Theorem totalAmount_of_negative_party :
  ∃ path state props booking,
    BusSearchResults.handleBookNow
      (SearchResultsPage.passengersProp (Some (-3))) kigaliMusanze
      = BusSearchResults.Navigated path state ∧
    BookingPage.useEffect (Some state) None None = BookingPage.Form props ∧
    BookingForm.price props = 5000 ∧
    BookingForm.passengers props = -3 ∧
    SeatGrid.submitDisabled props BookingForm.initialState = false ∧
    (BookingForm.onSubmit props None (BookingForm.ApiResolved None) clockA
       (formData BookingForm.form_mobile_money) BookingForm.initialState).2
      = Some booking ∧
    Types.seatNumbers booking = [] ∧
    Types.totalAmount booking = -15000 ∧
    BookingForm.price props
      * Z.of_nat (size (list_to_set (Types.seatNumbers booking) : gset nat))
      = 0.
Proof.
  eexists _, _, _, _.
  split; [reflexivity|]. split; [reflexivity|]. split; [reflexivity|].
  split; [reflexivity|]. split; [reflexivity|]. split; [reflexivity|].
  split; [reflexivity|]. split; [reflexivity|].
  change (5000 * Z.of_nat (size (list_to_set [] : gset nat)) = 0).
  change (list_to_set [] : gset nat) with (∅ : gset nat).
  by rewrite size_empty.
Qed.

(** ** The seat map of [SeatSelection] *)

Lemma click_frame props n :
  SeatSelection.bookedSeats (SeatSelection.click props n)
    = SeatSelection.bookedSeats props ∧
  SeatSelection.maxSeats (SeatSelection.click props n)
    = SeatSelection.maxSeats props ∧
  SeatSelection.busCapacity (SeatSelection.click props n)
    = SeatSelection.busCapacity props.
Proof. unfold SeatSelection.click. by destruct (SeatSelection.toggleSeat props n). Qed.

Lemma click_selectionWellFormed props n :
  selectionWellFormed props → selectionWellFormed (SeatSelection.click props n).
Proof.
  intros (Hnd & Hfree & Hmax).
  unfold SeatSelection.click, SeatSelection.toggleSeat.
  case_bool_decide as Hb; [done|].
  case_bool_decide as Hs.
  - split; [|split]; cbn.
    + by apply NoDup_filter.
    + intros m Hm. apply list_elem_of_filter in Hm as [_ Hm]. by apply Hfree.
    + pose proof (length_filter (λ seat, seat ≠ n)
                    (SeatSelection.selectedSeats props)).
      unfold SeatSelection.maxSeatsOrDefault in *. cbn. lia.
  - case_bool_decide as Hroom; [|done].
    split; [|split]; cbn.
    + apply NoDup_app. split; [done|]. split; [|apply NoDup_singleton].
      intros m Hm ->%list_elem_of_singleton. done.
    + intros m [Hm| ->%list_elem_of_singleton]%elem_of_app; [by apply Hfree|done].
    + rewrite length_app. unfold SeatSelection.maxSeatsOrDefault in *.
      cbn in *. lia.
Qed.

Lemma clicks_selectionWellFormed seatNumbers : ∀ props,
  selectionWellFormed props → selectionWellFormed (SeatSelection.clicks props seatNumbers).
Proof.
  unfold SeatSelection.clicks.
  induction seatNumbers as [|n l IH]; intros props Hwf; [done|].
  cbn. by apply IH, click_selectionWellFormed.
Qed.

Lemma clicks_frame seatNumbers : ∀ props,
  SeatSelection.bookedSeats (SeatSelection.clicks props seatNumbers)
    = SeatSelection.bookedSeats props ∧
  SeatSelection.maxSeats (SeatSelection.clicks props seatNumbers)
    = SeatSelection.maxSeats props.
Proof.
  unfold SeatSelection.clicks.
  induction seatNumbers as [|n l IH]; intros props; [done|].
  cbn. destruct (IH (SeatSelection.click props n)) as [-> ->].
  by destruct (click_frame props n) as (-> & -> & _).
Qed.

Lemma clicks_clicked seatNumbers : ∀ props m,
  m ∈ SeatSelection.selectedSeats (SeatSelection.clicks props seatNumbers) →
  m ∈ SeatSelection.selectedSeats props ∨ m ∈ seatNumbers.
Proof.
  unfold SeatSelection.clicks.
  induction seatNumbers as [|n l IH]; intros props m Hm; [by left|].
  cbn in Hm. apply IH in Hm as [Hm|Hm]; [|right; by right].
  unfold SeatSelection.click, SeatSelection.toggleSeat in Hm.
  repeat case_bool_decide; cbn in Hm; try by left.
  - apply list_elem_of_filter in Hm as [_ Hm]. by left.
  - apply elem_of_app in Hm as [Hm| ->%list_elem_of_singleton]; [by left|].
    right. by left.
Qed.

(** X18. Starting from an empty selection, any sequence of clicks on
    the seat map leaves a selection without repetition, of seats that
    are not booked and were clicked, of at most [maxSeats] seats (10 by
    default, none if negative); a click on a booked seat changes
    nothing. *)
Theorem seat_map_selection
    (props : SeatSelection.SeatSelectionProps) (seatNumbers : list nat) :
  let start := SeatSelection.withSelection props [] in
  let selected :=
    SeatSelection.selectedSeats (SeatSelection.clicks start seatNumbers) in
  NoDup selected ∧
  (∀ n, n ∈ selected →
        (n ∉ SeatSelection.bookedSeats props) ∧ n ∈ seatNumbers) ∧
  Z.of_nat (length selected) ≤ Z.max 0 (SeatSelection.maxSeatsOrDefault props) ∧
  (∀ n, n ∈ SeatSelection.bookedSeats props →
        SeatSelection.click (SeatSelection.clicks start seatNumbers) n
        = SeatSelection.clicks start seatNumbers).
Proof.
  intros start selected.
  assert (selectionWellFormed start) as Hwf.
  { split; [constructor|]. split; [by intros n Hn%not_elem_of_nil|].
    cbn. lia. }
  apply (clicks_selectionWellFormed seatNumbers) in Hwf as (Hnd & Hfree & Hmax).
  destruct (clicks_frame seatNumbers start) as [Hb Hm].
  split; [done|]. split; [|split].
  - intros n Hn. split.
    + apply Hfree in Hn. by rewrite Hb in Hn.
    + apply clicks_clicked in Hn as [Hn%not_elem_of_nil|Hn]; done.
  - unfold SeatSelection.maxSeatsOrDefault in *. rewrite Hm in Hmax. done.
  - intros n Hn. unfold SeatSelection.click, SeatSelection.toggleSeat.
    rewrite Hb. by rewrite bool_decide_eq_true_2.
Qed.

(** ** The list of schedules *)

Lemma filter_id_ne_app (new : ScheduleList.Schedule) (l : list ScheduleList.Schedule) :
  (∀ s, s ∈ l → ScheduleList.id s ≠ ScheduleList.id new) →
  filter (λ schedule, ScheduleList.id schedule ≠ ScheduleList.id new) (l ++ [new])
  = l.
Proof.
  intros Hfresh.
  rewrite filter_app, filter_cons_False, filter_nil, app_nil_r by auto.
  by apply filter_true_id.
Qed.

(** X19. Creating a schedule appends the response's schedule to the
    list and closes the form; if no schedule of the list had its id,
    deleting it again gives back the list as it was. *)
Theorem schedule_create_then_delete
    (new : ScheduleList.Schedule) (st : ScheduleList.State) :
  (∀ s, s ∈ ScheduleList.schedules st →
        ScheduleList.id s ≠ ScheduleList.id new) →
  let created :=
    ScheduleList.onSubmit (ScheduleList.Responded new)
      (ScheduleList.handleAddSchedule st) in
  let deleted :=
    ScheduleList.handleDeleteSchedule true
      (ScheduleList.handleDeleteClick new created) in
  ScheduleList.schedules created = ScheduleList.schedules st ++ [new] ∧
  ScheduleList.schedules deleted = ScheduleList.schedules st ∧
  ScheduleList.isModalOpen created = false ∧
  ScheduleList.isDeleteModalOpen deleted = false.
Proof.
  intros Hfresh created deleted. subst created deleted. cbn.
  split; [done|]. split; [|done]. by apply filter_id_ne_app.
Qed.

Lemma schedule_create_then_delete_witness :
  ScheduleList.schedules
    (ScheduleList.handleDeleteSchedule true
       (ScheduleList.handleDeleteClick eveningTrip
          (ScheduleList.onSubmit (ScheduleList.Responded eveningTrip)
             (ScheduleList.handleAddSchedule timetable))))
  = [morningTrip].
Proof.
  refine (proj1 (proj2 (schedule_create_then_delete eveningTrip timetable _))).
  intros s Hs. apply list_elem_of_singleton in Hs as ->. discriminate.
Defined.

(** X20. A confirmed deletion removes every schedule with the selected
    schedule's id and nothing else, keeps the order of the rest, and
    shortens the list if the selected schedule was in it; a deletion the
    API refuses leaves the list as it is. *)
Theorem schedule_delete_removes_id
    (selected : ScheduleList.Schedule) (st : ScheduleList.State) :
  let deleted :=
    ScheduleList.handleDeleteSchedule true
      (ScheduleList.handleDeleteClick selected st) in
  (∀ s, s ∈ ScheduleList.schedules deleted ↔
        s ∈ ScheduleList.schedules st ∧
        ScheduleList.id s ≠ ScheduleList.id selected) ∧
  ScheduleList.schedules deleted `sublist_of` ScheduleList.schedules st ∧
  (selected ∈ ScheduleList.schedules st →
     (length (ScheduleList.schedules deleted)
      < length (ScheduleList.schedules st))%nat) ∧
  ScheduleList.schedules
    (ScheduleList.handleDeleteSchedule false
       (ScheduleList.handleDeleteClick selected st))
  = ScheduleList.schedules st.
Proof.
  intros deleted. subst deleted. cbn. split; [|split; [|split]].
  - intros s. rewrite list_elem_of_filter. tauto.
  - apply sublist_filter.
  - intros Hin. by apply (length_filter_lt _ _ selected); [|intros ?].
  - done.
Qed.

Lemma filter_status_length (l : list ScheduleList.Schedule) :
  (length (filter (λ s, ScheduleList.status s = ScheduleList.ACTIVE) l)
   + length (filter (λ s, ScheduleList.status s = ScheduleList.CANCELLED) l)
   + length (filter (λ s, ScheduleList.status s = ScheduleList.COMPLETED) l)
   = length l)%nat.
Proof.
  induction l as [|s l IH]; [done|].
  rewrite !filter_cons. destruct (ScheduleList.status s) eqn:Hs;
    repeat case_decide; try done; cbn; lia.
Qed.

(** X21. The status filter of the schedule list: 'ALL' shows the whole
    list, a status shows exactly the schedules of that status, and the
    three status views together hold as many schedules as the list. *)
Theorem schedule_filter_partition (st : ScheduleList.State) :
  let shown f := ScheduleList.filteredSchedules (ScheduleList.setFilter f st) in
  shown ScheduleList.ALL = ScheduleList.schedules st ∧
  (∀ f s, s ∈ shown f ↔
          s ∈ ScheduleList.schedules st ∧
          (f = ScheduleList.ALL ∨ f = ScheduleList.Only (ScheduleList.status s))) ∧
  (length (shown (ScheduleList.Only ScheduleList.ACTIVE))
   + length (shown (ScheduleList.Only ScheduleList.CANCELLED))
   + length (shown (ScheduleList.Only ScheduleList.COMPLETED))
   = length (ScheduleList.schedules st))%nat.
Proof.
  intros shown. subst shown. cbn. split; [done|]. split.
  - intros [|x] s; cbn.
    + split; [by auto | tauto].
    + rewrite list_elem_of_filter. split.
      * intros [<- Hs]. by auto.
      * intros [Hs [|[= ->]]]; done.
  - apply filter_status_length.
Qed.

(** X22. A row of the schedule list offers a change to each of the two
    statuses the schedule does not have, and to no other; none of the
    three statuses is final.  When the API answers a status change with
    the body it was sent, the list keeps its ids position by
    position. *)
Theorem schedule_status_buttons (schedule : ScheduleList.Schedule) :
  (∀ target, target ∈ ScheduleList.statusButtons schedule ↔
             target ≠ ScheduleList.status schedule) ∧
  length (ScheduleList.statusButtons schedule) = 2%nat ∧
  (∀ target st,
     ScheduleList.id <$> ScheduleList.schedules
       (ScheduleList.handleUpdateStatus schedule
          (ScheduleList.Responded (ScheduleList.with_status schedule target)) st)
     = ScheduleList.id <$> ScheduleList.schedules st).
Proof.
  split; [|split].
  - intros target. unfold ScheduleList.statusButtons.
    rewrite list_elem_of_filter.
    split; [by intros [? _] ?|].
    intros Hne. split; [done|]. destruct target; set_solver.
  - unfold ScheduleList.statusButtons.
    by destruct (ScheduleList.status schedule).
  - intros target st. cbn.
    change (@map) with (@fmap list _). rewrite <- list_fmap_compose.
    apply list_fmap_ext. intros _ s _. cbn. by case_bool_decide.
Qed.

(** ** Durations *)

Lemma pretty_N_char_digit x : isDigit (pretty_N_char x) = true.
Proof. unfold pretty_N_char. by repeat case_match. Qed.

Lemma pretty_N_go_digits x s :
  digitsOnly s = true → digitsOnly (pretty_N_go x s) = true.
Proof.
  revert s. induction (N.lt_wf_0 x) as [x _ IH]; intros s Hs.
  destruct (decide (x = 0)%N) as [->|Hx]; [by rewrite pretty_N_go_0|].
  rewrite pretty_N_go_step by lia. apply IH.
  - apply N.div_lt; lia.
  - cbn. by rewrite pretty_N_char_digit, Hs.
Qed.

Lemma pretty_nonneg_digits (n : Z) : 0 ≤ n → digitsOnly (pretty n) = true.
Proof.
  intros Hn. destruct n as [|p|p]; [done| |lia].
  change (pretty (Z.pos p)) with (pretty (N.pos p)).
  unfold pretty, pretty_N. rewrite decide_False by done.
  by apply pretty_N_go_digits.
Qed.

Lemma digits_split s1 : ∀ s2 c1 c2 r1 r2,
  digitsOnly s1 = true → digitsOnly s2 = true →
  isDigit c1 = false → isDigit c2 = false →
  s1 +:+ String c1 r1 = s2 +:+ String c2 r2 →
  s1 = s2 ∧ c1 = c2 ∧ r1 = r2.
Proof.
  induction s1 as [|a s1 IH]; intros [|b s2] c1 c2 r1 r2 H1 H2 Hc1 Hc2 Heq;
    cbn in *.
  - by injection Heq as -> ->.
  - injection Heq as -> _. apply andb_true_iff in H2 as [H2 _]. congruence.
  - injection Heq as -> _. apply andb_true_iff in H1 as [H1 _]. congruence.
  - injection Heq as -> Heq.
    apply andb_true_iff in H1 as [_ H1]. apply andb_true_iff in H2 as [_ H2].
    destruct (IH _ _ _ _ _ H1 H2 Hc1 Hc2 Heq) as (-> & -> & ->). done.
Qed.

Lemma pretty_suffix_inj (a b : Z) (c1 c2 : ascii) (r1 r2 : string) :
  0 ≤ a → 0 ≤ b → isDigit c1 = false → isDigit c2 = false →
  pretty a +:+ String c1 r1 = pretty b +:+ String c2 r2 →
  a = b ∧ c1 = c2 ∧ r1 = r2.
Proof.
  intros Ha Hb Hc1 Hc2 Heq.
  apply digits_split in Heq as (Heq & -> & ->);
    [|by apply pretty_nonneg_digits..|done|done].
  by apply (inj pretty) in Heq.
Qed.

Lemma formatDuration_nonneg (d : Z) :
  0 ≤ d →
  DateUtils.formatDuration d
  = if bool_decide (d / 60 = 0) then pretty (d mod 60) +:+ String "m" ""
    else if bool_decide (d mod 60 = 0) then pretty (d / 60) +:+ String "h" ""
    else pretty (d / 60) +:+ String "h" (String " " (pretty (d mod 60) +:+ String "m" "")).
Proof.
  intros Hd. unfold DateUtils.formatDuration.
  rewrite Z.rem_mod_nonneg by lia. done.
Qed.

(** X23. Two different durations of zero minutes or more are rendered
    differently, by [formatDuration] of date.ts and by the one of the
    search results. *)
Theorem formatDuration_injective (d1 d2 : Z) :
  0 ≤ d1 → 0 ≤ d2 → d1 ≠ d2 →
  DateUtils.formatDuration d1 ≠ DateUtils.formatDuration d2 ∧
  BusSearchResults.formatDuration d1 ≠ BusSearchResults.formatDuration d2.
Proof.
  intros H1 H2 Hne.
  pose proof (Z.div_mod d1 60 ltac:(lia)) as E1.
  pose proof (Z.div_mod d2 60 ltac:(lia)) as E2.
  pose proof (Z.mod_pos_bound d1 60 ltac:(lia)) as B1.
  pose proof (Z.mod_pos_bound d2 60 ltac:(lia)) as B2.
  assert (0 ≤ d1 / 60) as Q1 by (apply Z.div_pos; lia).
  assert (0 ≤ d2 / 60) as Q2 by (apply Z.div_pos; lia).
  split.
  - rewrite !formatDuration_nonneg by done.
    repeat case_bool_decide; intros Heq;
      apply pretty_suffix_inj in Heq as (Hh & Hc & Hr);
      try done; try lia; try discriminate.
    injection Hr as Hr.
    apply pretty_suffix_inj in Hr as (Hm & _ & _); [lia|lia..|done|done].
  - unfold BusSearchResults.formatDuration.
    rewrite !Z.rem_mod_nonneg by lia.
    intros Heq.
    change (pretty (d1 / 60) +:+ String "h" (String " " (pretty (d1 mod 60) +:+ String "m" ""))
            = pretty (d2 / 60) +:+ String "h" (String " " (pretty (d2 mod 60) +:+ String "m" "")))
      in Heq.
    apply pretty_suffix_inj in Heq as (Hh & _ & Hr); [|lia..|done|done].
    injection Hr as Hr.
    apply pretty_suffix_inj in Hr as (Hm & _ & _); [lia|lia..|done|done].
Qed.

Lemma formatDuration_injective_witness :
  DateUtils.formatDuration 90 ≠ DateUtils.formatDuration 150 ∧
  BusSearchResults.formatDuration 90 ≠ BusSearchResults.formatDuration 150.
Proof. apply (formatDuration_injective 90 150); lia. Defined.

Lemma round_div (d c : Z) :
  0 < c →
  DateUtils.round (inject_Z d / inject_Z c) = (2 * d + c) / (2 * c).
Proof.
  intros Hc. destruct c as [|c|c]; try lia.
  unfold DateUtils.round, Qfloor, Qplus, Qdiv, Qmult, Qinv, inject_Z. simpl.
  f_equal; lia.
Qed.

(** X24. [calculateDurationInMinutes] is within half a minute of the
    elapsed time (a tie goes up), exact on whole minutes, not negative
    when the end is not before the start, and monotone in the end. *)
Theorem calculateDurationInMinutes_nearest (start end_ : Z) :
  let minutes := DateUtils.calculateDurationInMinutes start end_ in
  -30000 ≤ (end_ - start) - 60000 * minutes < 30000 ∧
  (∀ k, end_ - start = 60000 * k → minutes = k) ∧
  (start ≤ end_ → 0 ≤ minutes) ∧
  (∀ later, end_ ≤ later →
     minutes ≤ DateUtils.calculateDurationInMinutes start later).
Proof.
  intros minutes. subst minutes. unfold DateUtils.calculateDurationInMinutes.
  change (1000 * 60) with 60000. rewrite round_div by lia.
  change (2 * 60000) with 120000.
  pose proof (Z.div_mod (2 * (end_ - start) + 60000) 120000 ltac:(lia)) as E.
  pose proof (Z.mod_pos_bound (2 * (end_ - start) + 60000) 120000 ltac:(lia)) as B.
  split; [lia|]. split; [intros k Hk; lia|]. split; [intros Hle; lia|].
  intros later Hlater. rewrite round_div by lia.
  apply Z.div_le_mono; lia.
Qed.

(** X25. Both [formatDuration]s render an hours part and a minutes
    part.  For a duration of zero or more the minutes part is between 0
    and 59 and the two parts add up to the duration.  For a negative
    duration the hours part is negative and the minutes part is between
    -59 and 0; the two add up to the duration only when it is a whole
    number of hours, and to an hour less otherwise. *)
Theorem formatDuration_parts (d : Z) :
  ∃ hours minutes,
    DateUtils.formatDuration d
    = (if bool_decide (hours = 0) then pretty minutes +:+ "m"
       else if bool_decide (minutes = 0) then pretty hours +:+ "h"
       else pretty hours +:+ "h " +:+ pretty minutes +:+ "m") ∧
    BusSearchResults.formatDuration d
    = pretty hours +:+ "h " +:+ pretty minutes +:+ "m" ∧
    (0 ≤ d → 0 ≤ minutes < 60 ∧ 60 * hours + minutes = d) ∧
    (d < 0 → -60 < minutes ≤ 0 ∧ hours < 0 ∧
             60 * hours + minutes = if bool_decide (minutes = 0) then d else d - 60).
Proof.
  exists (d / 60), (Z.rem d 60). split; [done|]. split; [done|].
  pose proof (Z.div_mod d 60 ltac:(lia)) as E.
  pose proof (Z.mod_pos_bound d 60 ltac:(lia)) as B.
  pose proof (Z.rem_bound_pos_neg d 60) as Bn.
  pose proof (Z.quot_rem d 60 ltac:(lia)) as Er.
  split.
  - intros Hd. rewrite Z.rem_mod_nonneg by lia. lia.
  - intros Hd. specialize (Bn ltac:(lia) ltac:(lia)).
    assert (d / 60 < 0) by (apply Z.div_lt_upper_bound; lia).
    split; [lia|]. split; [done|].
    case_bool_decide as Hm; [rewrite Hm in *|].
    + assert (d mod 60 = 0); [|lia].
      apply Z.rem_divide in Hm as [q Hq]; [|lia]. subst d.
      apply Z_mod_mult.
    + assert (d mod 60 = Z.rem d 60 + 60); [|lia].
      symmetry. apply (Z.mod_unique_pos _ _ (Z.quot d 60 - 1)); lia.
Qed.

(** ** From a search result to the booking form *)

(** X26. From a search result to the booking form.  The passenger count
    handed to the results is never 0.  "Book Now" is refused, with a
    toast, exactly when its button is disabled, that is when the result
    has fewer seats than passengers.  Otherwise the booking page shows
    the form for the result's schedule with the same passenger count and
    the result's price; the form is told that 20 seats are available
    whatever the result says, and draws 20 unavailable seats. *)
Theorem search_result_to_form
    (searchParams_passengers : option Z)
    (result : BusSearchResults.SearchResult)
    (scheduleId : option string) (fetched : option BookingPage.FetchedSchedule)
    (draws : nat → Q) :
  let passengers := SearchResultsPage.passengersProp searchParams_passengers in
  passengers ≠ 0 ∧
  (BusSearchResults.bookNowDisabled passengers result = true ↔
     ∃ toast, BusSearchResults.handleBookNow passengers result
              = BusSearchResults.Refused toast) ∧
  ∀ path state,
    BusSearchResults.handleBookNow passengers result
      = BusSearchResults.Navigated path state →
    BusSearchResults.scheduleId result ≠ "" →
    passengers ≤ BusSearchResults.availableSeats result ∧
    ∃ props,
      BookingPage.useEffect (Some state) scheduleId fetched
        = BookingPage.Form props ∧
      BookingForm.p_scheduleId props = BusSearchResults.scheduleId result ∧
      BookingForm.passengers props = passengers ∧
      BookingForm.totalPrice props
        = BusSearchResults.price result * passengers ∧
      BookingForm.availableSeats props = 20 ∧
      length (BookingForm.unavailableSeats props draws) = 20%nat.
Proof.
  intros passengers.
  assert (passengers ≠ 0) as Hp.
  { subst passengers. unfold SearchResultsPage.passengersProp, orNumber.
    destruct searchParams_passengers as [v|]; [|done]. by case_bool_decide. }
  clearbody passengers. split; [done|]. split.
  - unfold BusSearchResults.bookNowDisabled, BusSearchResults.handleBookNow.
    case_bool_decide; split; try done; [by eauto | by intros [? [=]]].
  - intros path state Hnav Hsid.
    unfold BusSearchResults.handleBookNow in Hnav.
    case_bool_decide as Hlt; [done|]. injection Hnav as <- <-.
    split; [lia|]. eexists. unfold BookingPage.useEffect.
    cbn [state_scheduleId]. rewrite (bool_decide_eq_true_2 _ Hsid).
    split; [done|]. split; [done|].
    assert (orNumber (Some passengers) 1 = passengers) as Hor.
    { unfold orNumber. by rewrite bool_decide_eq_false_2. }
    split; [exact Hor|]. split.
    + unfold BookingForm.totalPrice.
      cbn [BookingPage.fromLocationState BookingForm.price
           BookingForm.passengers state_price state_passengers].
      by rewrite Hor.
    + split; [done|].
      unfold BookingForm.unavailableSeats. by rewrite length_map, length_seq.
Qed.

(** X27. A negative passenger count in the search URL reaches the
    booking form: "Book Now" navigates, the form takes the count as it
    is, and submitting it untouched hands on a CONFIRMED booking without
    seats whose total is the price times that count. *)
Theorem negative_party_reaches_form
    (p : Z) (result : BusSearchResults.SearchResult)
    (user_id : option string) (clk : BookingForm.Clock)
    (data : BookingForm.BookingFormData) :
  p < 0 →
  0 ≤ BusSearchResults.availableSeats result →
  BusSearchResults.scheduleId result ≠ "" →
  ∃ path state props booking,
    BusSearchResults.handleBookNow
      (SearchResultsPage.passengersProp (Some p)) result
      = BusSearchResults.Navigated path state ∧
    BookingPage.useEffect (Some state) None None = BookingPage.Form props ∧
    BookingForm.passengers props = p ∧
    (BookingForm.onSubmit props user_id (BookingForm.ApiResolved None) clk data
       BookingForm.initialState).2 = Some booking ∧
    Types.seatNumbers booking = [] ∧
    Types.status booking = Types.CONFIRMED ∧
    Types.totalAmount booking = BusSearchResults.price result * p.
Proof.
  intros Hp Hseats Hsid.
  assert (SearchResultsPage.passengersProp (Some p) = p) as ->.
  { unfold SearchResultsPage.passengersProp, orNumber.
    rewrite bool_decide_eq_false_2; [done|lia]. }
  unfold BusSearchResults.handleBookNow.
  rewrite bool_decide_eq_false_2 by lia.
  eexists _, _, _, _. split; [reflexivity|].
  unfold BookingPage.useEffect. cbn [state_scheduleId].
  rewrite (bool_decide_eq_true_2 _ Hsid). split; [reflexivity|].
  assert (orNumber (Some p) 1 = p) as Hor.
  { unfold orNumber. rewrite bool_decide_eq_false_2; [done|lia]. }
  split; [exact Hor|].
  unfold BookingForm.onSubmit, BookingForm.fewerThanPassengers.
  cbn [BookingForm.setIsSubmitting BookingForm.selectedSeats
       BookingForm.initialState BookingPage.fromLocationState
       BookingForm.passengers state_passengers length].
  rewrite Hor. rewrite bool_decide_eq_false_2 by lia.
  cbn [snd default]. split; [reflexivity|].
  split; [done|]. split; [done|].
  unfold BookingForm.totalPrice.
  cbn [BookingForm.mockBooking Types.totalAmount BookingForm.totalPrice
       BookingForm.price BookingForm.passengers].
  unfold BookingForm.totalPrice.
  cbn [BookingPage.fromLocationState BookingForm.price
       BookingForm.passengers state_price state_passengers].
  by rewrite Hor.
Qed.

Lemma negative_party_reaches_form_witness :
  ∃ booking,
    Types.seatNumbers booking = [] ∧ Types.totalAmount booking = -15000.
Proof.
  destruct (negative_party_reaches_form (-3) kigaliMusanze None clockA
              (formData BookingForm.form_mobile_money))
    as (path & state & props & booking & _ & _ & _ & _ & Hseats & _ & Htotal);
    [lia | simpl; lia | discriminate |].
  exists booking. split; [exact Hseats | exact Htotal].
Defined.

(** ** Paying later *)

(** X28. The payment form reports every payment as PAID, with the
    method it was given, whether or not its callback throws.  The
    booking the booking form makes up has the same payment status
    exactly when the method chosen is not pay-later, which it records as
    UNPAID. *)
Theorem payment_status_agreement
    (props : BookingForm.BookingFormProps) (user_id : option string)
    (data : BookingForm.BookingFormData) (seats : list nat)
    (clk : BookingForm.Clock) (amount now : Z)
    (outcome : PaymentForm.TryOutcome) (st : PaymentForm.PaymentState) :
  let booking := BookingForm.mockBooking props user_id data seats clk in
  let payment :=
    (PaymentForm.onSubmit (Types.paymentMethod booking) amount now outcome st).2 in
  PaymentForm.method payment = Types.paymentMethod booking ∧
  PaymentForm.status payment = Types.PAID ∧
  (Types.paymentStatus booking = PaymentForm.status payment ↔
   BookingForm.formPaymentMethod data ≠ BookingForm.form_pay_later) ∧
  (Types.paymentMethod booking = Types.pay_later ↔
   BookingForm.formPaymentMethod data = BookingForm.form_pay_later).
Proof.
  intros booking payment. subst booking payment.
  cbn [BookingForm.mockBooking Types.paymentMethod Types.paymentStatus].
  unfold BookingForm.toPaymentStatus, BookingForm.toPaymentMethod.
  destruct outcome, (BookingForm.formPaymentMethod data); cbn;
    repeat split; try done; try (by intros ?); try (intros H; by destruct H).
Qed.
